(** * PurePyJasper: template parser, expression evaluator, grouping,
      renderers and report facade

    A shallow embedding of [pyjasper_lib] (parsers.py, database.py,
    renderers.py, core.py) and of [pyjasper_lib_integration].  Python [str] values are modelled as Rocq
    strings (one character per code point below 256), Python dictionaries
    as insertion-ordered association lists, exceptions as the [Raise]
    branch of an error monad, and the builtins and external libraries the
    code calls ([int], [float], [eval], ElementTree, the data-base driver,
    reportlab) as the fields of the [Runtime] class. *)

From Stdlib Require Import String Ascii List ZArith QArith Bool Lia.
From Stdlib Require Import DecimalString Sorted Permutation.
Import ListNotations.

Set Warnings "-register-all".

Local Open Scope string_scope.
Local Open Scope list_scope.

Infix "+++" := String.append (at level 60, right associativity).

(* ================================================================== *)
(** ** Exceptions and the error monad *)
(* ================================================================== *)

(** exceptions.py, plus one constructor for the builtin exceptions of
    the interpreter ([ValueError], [TypeError], [SyntaxError], ...). *)
Inductive exn : Type :=
| JasperError (msg : string)
| JRXMLParseError (msg : string)
| DatabaseError (msg : string)
| RenderError (msg : string)
| BuiltinError (msg : string).

(** [str(e)] of an exception. *)
Definition exn_str (e : exn) : string :=
  match e with
  | JasperError m | JRXMLParseError m | DatabaseError m
  | RenderError m | BuiltinError m => m
  end.

Inductive result (A : Type) : Type :=
| Ok (a : A)
| Raise (e : exn).
Arguments Ok {A} a.
Arguments Raise {A} e.

Definition bind {A B : Type} (r : result A) (k : A -> result B) : result B :=
  match r with
  | Ok a => k a
  | Raise e => Raise e
  end.

(** [try: body  except Exception as e: handler e] *)
Definition try_except {A : Type} (body : result A) (handler : exn -> result A)
  : result A :=
  match body with
  | Ok a => Ok a
  | Raise e => handler e
  end.

Declare Scope result_scope.
Delimit Scope result_scope with result.
Notation "x <- c ;; k" := (bind c (fun x => k))
  (at level 61, c at next level, right associativity) : result_scope.
Notation "' pat <- c ;; k" := (bind c (fun x => match x with pat => k end))
  (at level 61, pat pattern, c at next level, right associativity) : result_scope.
Local Open Scope result_scope.

(** A [for] loop whose body may raise, collecting the body's results. *)
Fixpoint for_each {A B : Type} (f : A -> result B) (l : list A)
  : result (list B) :=
  match l with
  | [] => Ok []
  | a :: l' => b <- f a ;; bs <- for_each f l' ;; Ok (b :: bs)
  end.

(* ================================================================== *)
(** ** Python strings *)
(* ================================================================== *)

Module PyStr.

Definition dquote : string := String (ascii_of_nat 34) EmptyString.
Definition newline : string := String (ascii_of_nat 10) EmptyString.

(** [s.startswith(p)] and [s.endswith(p)]. *)
Definition startswith (p s : string) : bool := String.prefix p s.

Definition endswith (p s : string) : bool :=
  (String.length p <=? String.length s)%nat
  && String.eqb (substring (String.length s - String.length p)
                           (String.length p) s) p.

(** [s[a:-b]] for non-negative [a], [b]: empty when the bounds cross. *)
Definition slice (a b : nat) (s : string) : string :=
  substring a (String.length s - b - a) s.

(** [needle in s]. *)
Fixpoint contains (needle s : string) : bool :=
  String.prefix needle s
  || match s with
     | EmptyString => false
     | String _ s' => contains needle s'
     end.

(** [s.replace(old, new)] for a non-empty [old]: leftmost
    non-overlapping occurrences.  [skip] counts the characters of an
    occurrence already replaced that are still to be passed over. *)
Fixpoint replace_go (old new : string) (skip : nat) (s : string) : string :=
  match s with
  | EmptyString => EmptyString
  | String c s' =>
      match skip with
      | S k => replace_go old new k s'
      | O =>
          if String.prefix old s
          then new +++ replace_go old new (String.length old - 1) s'
          else String c (replace_go old new 0 s')
      end
  end.

Definition replace (old new s : string) : string := replace_go old new 0 s.

(** [str.isspace] on the characters below 256. *)
Definition isspace (c : ascii) : bool :=
  let n := nat_of_ascii c in
  ((9 <=? n) && (n <=? 13) || (28 <=? n) && (n <=? 32)
   || (n =? 133) || (n =? 160))%nat.

Fixpoint lstrip (s : string) : string :=
  match s with
  | EmptyString => EmptyString
  | String c s' => if isspace c then lstrip s' else s
  end.

(** [rstrip]: a character is kept when it is not a space or when
    something is left after it. *)
Fixpoint rstrip (s : string) : string :=
  match s with
  | EmptyString => EmptyString
  | String c s' =>
      match rstrip s' with
      | EmptyString => if isspace c then EmptyString else String c EmptyString
      | r => String c r
      end
  end.

Definition strip (s : string) : string := rstrip (lstrip s).

Definition is_upper (c : ascii) : bool :=
  let n := nat_of_ascii c in ((65 <=? n) && (n <=? 90))%nat.
Definition is_lower (c : ascii) : bool :=
  let n := nat_of_ascii c in ((97 <=? n) && (n <=? 122))%nat.
Definition is_digit (c : ascii) : bool :=
  let n := nat_of_ascii c in ((48 <=? n) && (n <=? 57))%nat.

Definition lower_char (c : ascii) : ascii :=
  if is_upper c then ascii_of_nat (nat_of_ascii c + 32) else c.
Definition upper_char (c : ascii) : ascii :=
  if is_lower c then ascii_of_nat (nat_of_ascii c - 32) else c.

Fixpoint map_chars (f : ascii -> ascii) (s : string) : string :=
  match s with
  | EmptyString => EmptyString
  | String c s' => String (f c) (map_chars f s')
  end.

(** [s.lower()] and [s.upper()] on the ASCII letters. *)
Definition lower : string -> string := map_chars lower_char.
Definition upper : string -> string := map_chars upper_char.

(** [s.title()]: a letter is upper-cased after a non-letter and
    lower-cased after a letter.  Letters are the ASCII letters; a
    string with other cased characters is outside this model. *)
Fixpoint title_go (prev_cased : bool) (s : string) : string :=
  match s with
  | EmptyString => EmptyString
  | String c s' =>
      let cased := is_upper c || is_lower c in
      String (if prev_cased then lower_char c else upper_char c)
             (title_go cased s')
  end.
Definition title : string -> string := title_go false.

(** All characters of [s] satisfy [p]. *)
Fixpoint all_chars (p : ascii -> bool) (s : string) : bool :=
  match s with
  | EmptyString => true
  | String c s' => p c && all_chars p s'
  end.

Definition nonempty (s : string) : bool :=
  match s with EmptyString => false | _ => true end.

(** [str(n)] of an [int]. *)
Definition of_Z (z : Z) : string := NilZero.string_of_int (Z.to_int z).

(** [sep.join(parts)]. *)
Fixpoint join (sep : string) (parts : list string) : string :=
  match parts with
  | [] => EmptyString
  | [p] => p
  | p :: rest => p +++ sep +++ join sep rest
  end.

Definition concat_all (parts : list string) : string :=
  fold_right String.append EmptyString parts.

End PyStr.

(* ================================================================== *)
(** ** Python values and dictionaries *)
(* ================================================================== *)

(** The values a row, a variable map or a parameter map holds.  A
    Python [float] is modelled by the rational it denotes: [nan] and
    the infinities have no counterpart here, and what is proved of
    floats is proved of finite ones. *)
Inductive PyValue : Type :=
| VNone
| VInt (z : Z)
| VFloat (q : Q)
| VStr (s : string).

(** Hash-and-equality class of a value used as a dictionary key:
    [1 == 1.0] are the same key. *)
Inductive PyKey : Type :=
| KNone
| KNum (num den : Z)
| KStr (s : string).

Definition py_key (v : PyValue) : PyKey :=
  match v with
  | VNone => KNone
  | VInt z => KNum z 1
  | VFloat q => let r := Qred q in KNum (Qnum r) (Zpos (Qden r))
  | VStr s => KStr s
  end.

Definition PyKey_eqb (a b : PyKey) : bool :=
  match a, b with
  | KNone, KNone => true
  | KNum n d, KNum n' d' => Z.eqb n n' && Z.eqb d d'
  | KStr s, KStr s' => String.eqb s s'
  | _, _ => false
  end.

(** [a == b] on keys. *)
Definition py_eqb (a b : PyValue) : bool := PyKey_eqb (py_key a) (py_key b).

(** A [dict] with [str] keys, in insertion order. *)
Definition dict (V : Type) : Type := list (string * V).

Fixpoint dict_lookup {V : Type} (d : dict V) (k : string) : option V :=
  match d with
  | [] => None
  | (k', v) :: d' => if String.eqb k' k then Some v else dict_lookup d' k
  end.

(** [k in d] *)
Definition dict_mem {V : Type} (d : dict V) (k : string) : bool :=
  match dict_lookup d k with Some _ => true | None => false end.

(** [d.get(k, default)] *)
Definition dict_get {V : Type} (d : dict V) (k : string) (default : V) : V :=
  match dict_lookup d k with Some v => v | None => default end.

(** [d[k] = v]: an existing key keeps its position. *)
Fixpoint dict_set {V : Type} (d : dict V) (k : string) (v : V) : dict V :=
  match d with
  | [] => [(k, v)]
  | (k', v') :: d' =>
      if String.eqb k' k then (k', v) :: d' else (k', v') :: dict_set d' k v
  end.

Definition dict_keys {V : Type} (d : dict V) : list string := map fst d.
Definition dict_values {V : Type} (d : dict V) : list V := map snd d.

Definition DataRow : Type := dict PyValue.

(* ================================================================== *)
(** ** The regular expression [\$X\{([^}]+)\}] *)
(* ================================================================== *)

Module Re.

(** The longest run of characters other than [}] at the head of [s],
    when a [}] follows it. *)
Fixpoint take_name (s : string) : option string :=
  match s with
  | EmptyString => None
  | String c s' =>
      if Ascii.eqb c "}" then Some EmptyString
      else match take_name s' with
           | Some n => Some (String c n)
           | None => None
           end
  end.

(** A match of [\$X\{([^}]+)\}] anchored at the head of [s]: group 1. *)
Definition match_ref (sigil : ascii) (s : string) : option string :=
  match s with
  | String d (String x (String b rest)) =>
      if Ascii.eqb d "$" && Ascii.eqb x sigil && Ascii.eqb b "{"
      then match take_name rest with
           | Some EmptyString => None
           | Some name => Some name
           | None => None
           end
      else None
  | _ => None
  end.

(** The text cut at the leftmost non-overlapping matches. *)
Inductive piece : Type :=
| Text (c : ascii)
| Ref (name : string).

Fixpoint scan_go (sigil : ascii) (skip : nat) (s : string) : list piece :=
  match s with
  | EmptyString => []
  | String c s' =>
      match skip with
      | S k => scan_go sigil k s'
      | O =>
          match match_ref sigil s with
          | Some name => Ref name :: scan_go sigil (String.length name + 3) s'
          | None => Text c :: scan_go sigil 0 s'
          end
      end
  end.

Definition scan (sigil : ascii) (s : string) : list piece :=
  scan_go sigil 0 s.

(** [re.sub(pattern, lambda m: repl(m.group(1)), s)] *)
Definition sub (sigil : ascii) (repl : string -> string) (s : string)
  : string :=
  fold_right
    (fun p acc => match p with
                  | Text c => String c acc
                  | Ref name => repl name +++ acc
                  end)
    EmptyString (scan sigil s).

(** [re.findall(pattern, s)] *)
Definition findall (sigil : ascii) (s : string) : list string :=
  flat_map (fun p => match p with Text _ => [] | Ref name => [name] end)
           (scan sigil s).

(** [re.search(pattern, s)]: group 1 of the first match. *)
Definition search (sigil : ascii) (s : string) : option string :=
  hd_error (findall sigil s).

End Re.

(* ================================================================== *)
(** ** parsers.py: the report definition *)
(* ================================================================== *)

Record Field : Type := mkField {
  field_name : string;
  field_class_name : string;
  field_description : option string
}.

Record Variable_ : Type := mkVariable {
  var_name : string;
  var_class_name : string;
  var_calculation : string;
  var_expression : option string;
  var_initial_value : option string;
  var_reset_type : string;
  var_reset_group : option string
}.

Record Group : Type := mkGroup {
  group_name : string;
  group_expression : string;
  group_header_height : Z;
  group_footer_height : Z;
  group_variables : list Variable_
}.

(** The [style] dictionary of an element: a key is present when
    [_parse_style] stored it. *)
Record Style : Type := mkStyle {
  textAlignment : option string;
  verticalAlignment : option string;
  fontSize : option Z;
  fontName : option string;
  isBold : option bool;
  isItalic : option bool;
  isUnderline : option bool
}.

Definition empty_style : Style :=
  mkStyle None None None None None None None.

Record ReportElement : Type := mkReportElement {
  el_x : Z;
  el_y : Z;
  el_width : Z;
  el_height : Z;
  element_type : string;
  el_content : option string;
  el_expression : option string;
  el_style : Style
}.

Record Band : Type := mkBand {
  band_name : string;
  band_height : Z;
  band_elements : list ReportElement
}.

Record ParameterSpec : Type := mkParameterSpec {
  param_class : string;
  param_defaultValue : option string
}.

Record ReportDefinition : Type := mkReportDefinition {
  rd_name : string;
  page_width : Z;
  page_height : Z;
  column_width : Z;
  left_margin : Z;
  right_margin : Z;
  top_margin : Z;
  bottom_margin : Z;
  rd_query : option string;
  rd_fields : list Field;
  rd_variables : list Variable_;
  rd_groups : list Group;
  rd_bands : dict Band;
  rd_parameters : dict ParameterSpec
}.

(** An ElementTree element: tag, attributes, text and children. *)
Inductive Element : Type :=
| mkElement (tag : string) (attrib : dict string) (text : option string)
            (children : list Element).

Definition elem_tag (e : Element) : string :=
  match e with mkElement t _ _ _ => t end.
Definition elem_attrib (e : Element) : dict string :=
  match e with mkElement _ a _ _ => a end.
Definition elem_text (e : Element) : option string :=
  match e with mkElement _ _ t _ => t end.
Definition elem_children (e : Element) : list Element :=
  match e with mkElement _ _ _ c => c end.

(** The state of an [ExpressionEvaluator]. *)
Record ExpressionEvaluator : Type := mkEvaluator {
  ev_data : DataRow;
  ev_variables : dict PyValue;
  ev_parameters : dict PyValue
}.

(** database.py: a [DatabaseEngine] is identified by its connection
    string; the constructor accepts three kinds. *)
Inductive DbType : Type := sqlite | mysql | postgresql.

Record DatabaseEngine : Type := mkDatabaseEngine {
  connection_string : string;
  db_type : DbType
}.

(** What a PDF story holds (reportlab flowables). *)
Inductive Flowable : Type :=
| Paragraph (text : string) (style_name : string)
| Table (cells : list (list string)).

(** The interpreter builtins and external libraries the code calls.
    [None] stands for the exception the call raises. *)
Class Runtime : Type := mkRuntime {
  (** [int(s)] on a string: [ValueError] when [s] is not a numeral *)
  py_int : string -> option Z;
  (** [float(s)] on a string *)
  py_float : string -> option Q;
  (** [str(x)] of a float *)
  float_repr : Q -> string;
  (** [f"{x:.2f}"] *)
  format_2f : Q -> string;
  (** [eval(source)] inside [ExpressionEvaluator.evaluate], for the
      sources [py_eval] below does not decide itself: the answers of
      one run; see [another_run] for two runs that differ *)
  host_eval : ExpressionEvaluator -> string -> option PyValue;
  (** [ET.fromstring]: a failure is an [ET.ParseError] *)
  ET_fromstring : string -> result Element;
  (** [DatabaseEngine.execute_query]: every failure is a [DatabaseError] *)
  engine_execute_query :
    DatabaseEngine -> string -> dict PyValue -> result (list DataRow);
  (** [DatabaseEngine.test_connection] *)
  engine_test_connection : DatabaseEngine -> bool;
  (** [SimpleDocTemplate.build] followed by [buffer.getvalue()] *)
  pdf_build : list Flowable -> result string
}.

(** [str(v)].  CPython 3.11 and later refuse to convert an integer
    of more than 4300 digits (fewer when configured so); the model
    converts every integer, and the theorems that read the numeral
    bound the integer. *)
Definition py_str `{Runtime} (v : PyValue) : string :=
  match v with
  | VNone => "None"
  | VInt z => PyStr.of_Z z
  | VFloat q => float_repr q
  | VStr s => s
  end.

(* ================================================================== *)
(** ** parsers.py: ExpressionEvaluator *)
(* ================================================================== *)

Inductive Scope : Type := ScData | ScVariables | ScParameters.

Definition scope_attr (sc : Scope) : string :=
  match sc with
  | ScData => "data"
  | ScVariables => "variables"
  | ScParameters => "parameters"
  end.

Definition scope_dict (ev : ExpressionEvaluator) (sc : Scope) : dict PyValue :=
  match sc with
  | ScData => ev_data ev
  | ScVariables => ev_variables ev
  | ScParameters => ev_parameters ev
  end.

(** The replacement text the evaluator writes for a reference:
    [f"self.<attr>.get('{name}', '')"]. *)
Definition get_call (sc : Scope) (name : string) : string :=
  "self." +++ scope_attr sc +++ ".get('" +++ name +++ "', '')".

(** A character that stands for itself inside a single-quoted literal. *)
Definition plain_char (c : ascii) : bool :=
  negb (Ascii.eqb c "'" || Ascii.eqb c "\"
        || (nat_of_ascii c =? 10)%nat || (nat_of_ascii c =? 13)%nat
        || (nat_of_ascii c =? 0)%nat).

(** The characters of [s] before the first single quote, and the rest
    from that quote on. *)
Fixpoint until_quote (s : string) : string * string :=
  match s with
  | EmptyString => (EmptyString, EmptyString)
  | String c s' =>
      if Ascii.eqb c "'" then (EmptyString, s)
      else let (k, r) := until_quote s' in (String c k, r)
  end.

Definition strip_prefix (p s : string) : option string :=
  if String.prefix p s
  then Some (substring (String.length p) (String.length s - String.length p) s)
  else None.

(** Recognises a source of the exact shape [self.<attr>.get('<key>', '')]
    with a key of plain characters. *)
Definition parse_get_in (sc : Scope) (source : string) : option string :=
  match strip_prefix ("self." +++ scope_attr sc +++ ".get('") source with
  | Some rest =>
      let (key, tail) := until_quote rest in
      if String.eqb tail "', '')" && PyStr.all_chars plain_char key
      then Some key else None
  | None => None
  end.

Definition parse_get (source : string) : option (Scope * string) :=
  match parse_get_in ScData source with
  | Some k => Some (ScData, k)
  | None =>
      match parse_get_in ScVariables source with
      | Some k => Some (ScVariables, k)
      | None =>
          match parse_get_in ScParameters source with
          | Some k => Some (ScParameters, k)
          | None => None
          end
      end
  end.

(** [eval(source)] in the scope of [evaluate]: a single lookup call is
    evaluated here, anything else is left to the interpreter. *)
Definition py_eval `{Runtime} (ev : ExpressionEvaluator) (source : string)
  : option PyValue :=
  match parse_get source with
  | Some (sc, key) => Some (dict_get (scope_dict ev sc) key (VStr EmptyString))
  | None => host_eval ev source
  end.

Definition cdata_open : string := "<![CDATA[".
Definition cdata_close : string := "]]>".

Definition is_cdata (s : string) : bool :=
  PyStr.startswith cdata_open s && PyStr.endswith cdata_close s.

(** The statements of [evaluate] before the [try]: the CDATA wrapper
    is removed, the three kinds of reference are replaced by lookup
    calls and the concatenations are wrapped. *)
Definition rewrite_expression (expression : string) : string :=
  let expression :=
    if is_cdata expression then PyStr.slice 9 3 expression else expression in
  let expression := Re.sub "F" (get_call ScData) expression in
  let expression := Re.sub "V" (get_call ScVariables) expression in
  let expression := Re.sub "P" (get_call ScParameters) expression in
  let expression := PyStr.replace " + " " + str(" expression in
  if PyStr.contains " + str(" expression
  then PyStr.replace " + str(" ") + str(" expression +++ ")"
  else expression.

Definition is_quoted (s : string) : bool :=
  PyStr.startswith PyStr.dquote s && PyStr.endswith PyStr.dquote s.

(** The body of the [try] block of [evaluate]. *)
Definition evaluate_try `{Runtime} (ev : ExpressionEvaluator)
           (expression : string) : result string :=
  if is_quoted expression
  then Ok (PyStr.slice 1 1 expression)
  else match py_eval ev expression with
       | Some v => Ok (py_str v)
       | None => Raise (BuiltinError "eval")
       end.

(** [ExpressionEvaluator.evaluate] *)
Definition evaluate `{Runtime} (ev : ExpressionEvaluator) (expression : string)
  : result string :=
  if negb (PyStr.nonempty expression) then Ok EmptyString
  else
    let expression := rewrite_expression expression in
    try_except (evaluate_try ev expression) (fun _ => Ok expression).

(* ================================================================== *)
(** ** ElementTree paths *)
(* ================================================================== *)

Module ET.

(** The proper descendants of an element, in document order. *)
Fixpoint descendants (e : Element) : list Element :=
  match e with
  | mkElement _ _ _ cs => flat_map (fun c => c :: descendants c) cs
  end.

Definition has_tag (t : string) (e : Element) : bool :=
  String.eqb (elem_tag e) t.

(** [elem.findall('.//t')] *)
Definition findall_desc (t : string) (e : Element) : list Element :=
  filter (has_tag t) (descendants e).

(** [elem.find('.//t')] *)
Definition find_desc (t : string) (e : Element) : option Element :=
  hd_error (findall_desc t e).

(** [elem.find('t')] *)
Definition find_child (t : string) (e : Element) : option Element :=
  hd_error (filter (has_tag t) (elem_children e)).

(** [elem.find('a/b')] *)
Definition find_child_path (a b : string) (e : Element) : option Element :=
  hd_error (flat_map (fun c => filter (has_tag b) (elem_children c))
                     (filter (has_tag a) (elem_children e))).

(** [elem.find('.//a/b')] *)
Definition find_desc_path (a b : string) (e : Element) : option Element :=
  hd_error (flat_map (fun c => filter (has_tag b) (elem_children c))
                     (findall_desc a e)).

(** The tag a prefixed name [jr:t] stands for under the namespace
    map [{'jr': ns}]. *)
Definition qname (ns t : string) : string := "{" +++ ns +++ "}" +++ t.

(** [elem.get(key)] and [elem.get(key, default)] *)
Definition get (e : Element) (key : string) : option string :=
  dict_lookup (elem_attrib e) key.
Definition get_default (e : Element) (key default : string) : string :=
  dict_get (elem_attrib e) key default.

(** [elem.text] when it is neither [None] nor empty. *)
Definition truthy_text (e : Element) : option string :=
  match elem_text e with
  | Some t => if PyStr.nonempty t then Some t else None
  | None => None
  end.

End ET.

(** [x if x is not None else y] on the result of a [find]. *)
Definition or_else {A : Type} (x y : option A) : option A :=
  match x with Some _ => x | None => y end.

(** [xs if xs else ys] on the result of a [findall]. *)
Definition or_if_empty {A : Type} (xs ys : list A) : list A :=
  match xs with [] => ys | _ => xs end.

(** [s if s else None]-style truthiness of an optional string. *)
Definition truthy (s : option string) : option string :=
  match s with
  | Some t => if PyStr.nonempty t then Some t else None
  | None => None
  end.

(* ================================================================== *)
(** ** parsers.py: JRXMLParser *)
(* ================================================================== *)

Module JRXMLParser.
Section WithRuntime.
Context `{Runtime}.

Definition default_namespace : string :=
  "http://jasperreports.sourceforge.net/jasperreports".

(** [int(elem.get(key, default))] *)
Definition int_attr (e : Element) (key : string) (default : Z) : result Z :=
  match ET.get e key with
  | Some s =>
      match py_int s with
      | Some z => Ok z
      | None =>
          Raise (BuiltinError
                   ("invalid literal for int() with base 10: '" +++ s +++ "'"))
      end
  | None => Ok default
  end.

(** [find('jr:t', ns)] with the fall-back to the unqualified tag. *)
Definition find_child_ns (ns t : string) (e : Element) : option Element :=
  or_else (ET.find_child (ET.qname ns t) e) (ET.find_child t e).

Definition find_desc_ns (ns t : string) (e : Element) : option Element :=
  or_else (ET.find_desc (ET.qname ns t) e) (ET.find_desc t e).

Definition findall_desc_ns (ns t : string) (e : Element) : list Element :=
  or_if_empty (ET.findall_desc (ET.qname ns t) e) (ET.findall_desc t e).

(** The stripped text of a child, when the child exists and has text. *)
Definition child_text (ns t : string) (e : Element) : option string :=
  match find_child_ns ns t e with
  | Some c => option_map PyStr.strip (ET.truthy_text c)
  | None => None
  end.

Definition _parse_query (ns : string) (root : Element) : option string :=
  match find_desc_ns ns "queryString" root with
  | Some query_elem =>
      match ET.truthy_text query_elem with
      | Some text =>
          let query := PyStr.strip text in
          let query :=
            if is_cdata query then PyStr.slice 9 3 query else query in
          Some (PyStr.strip query)
      | None => None
      end
  | None => None
  end.

Definition _parse_fields (ns : string) (root : Element) : list Field :=
  flat_map
    (fun field_elem =>
       match truthy (ET.get field_elem "name") with
       | Some name =>
           [mkField name
                    (ET.get_default field_elem "class" "java.lang.String")
                    (child_text ns "fieldDescription" field_elem)]
       | None => []
       end)
    (findall_desc_ns ns "field" root).

Definition _parse_variables (ns : string) (root : Element)
  : list Variable_ :=
  flat_map
    (fun var_elem =>
       match truthy (ET.get var_elem "name") with
       | Some name =>
           [mkVariable name
                       (ET.get_default var_elem "class" "java.lang.String")
                       (ET.get_default var_elem "calculation" "Nothing")
                       (child_text ns "variableExpression" var_elem)
                       (child_text ns "initialValueExpression" var_elem)
                       (ET.get_default var_elem "resetType" "Report")
                       (ET.get var_elem "resetGroup")]
       | None => []
       end)
    (findall_desc_ns ns "variable" root).

(** The height of the band under [groupHeader] or [groupFooter]. *)
Definition group_band_height (ns part : string) (group_elem : Element)
  : result Z :=
  match or_else (ET.find_child_path (ET.qname ns part) (ET.qname ns "band")
                                    group_elem)
                (ET.find_child_path part "band" group_elem) with
  | Some band_elem => int_attr band_elem "height" 0
  | None => Ok 0%Z
  end.

Definition _parse_group (ns : string) (group_elem : Element)
  : result (list Group) :=
  match truthy (ET.get group_elem "name") with
  | Some name =>
      let expression :=
        match child_text ns "groupExpression" group_elem with
        | Some e => e
        | None => EmptyString
        end in
      header_height <- group_band_height ns "groupHeader" group_elem ;;
      footer_height <- group_band_height ns "groupFooter" group_elem ;;
      Ok [mkGroup name expression header_height footer_height []]
  | None => Ok []
  end.

Definition _parse_groups (ns : string) (root : Element)
  : result (list Group) :=
  gs <- for_each (_parse_group ns) (findall_desc_ns ns "group" root) ;;
  Ok (concat gs).

Definition bool_attr (e : Element) (key : string) : bool :=
  String.eqb (PyStr.lower (ET.get_default e key "false")) "true".

Definition _parse_style (ns : string) (elem : Element) : result Style :=
  match find_child_ns ns "textElement" elem with
  | Some text_elem =>
      let alignment := ET.get_default text_elem "textAlignment" "Left" in
      let vertical := ET.get_default text_elem "verticalAlignment" "Top" in
      match find_child_ns ns "font" text_elem with
      | Some font_elem =>
          size <- int_attr font_elem "size" 10 ;;
          Ok (mkStyle (Some alignment) (Some vertical) (Some size)
                      (Some (ET.get_default font_elem "fontName" "SansSerif"))
                      (Some (bool_attr font_elem "isBold"))
                      (Some (bool_attr font_elem "isItalic"))
                      (Some (bool_attr font_elem "isUnderline")))
      | None =>
          Ok (mkStyle (Some alignment) (Some vertical) None None None None
                      None)
      end
  | None => Ok empty_style
  end.

Definition _parse_element (ns : string) (elem : Element)
           (element_type : string) : result (option ReportElement) :=
  match find_child_ns ns "reportElement" elem with
  | Some report_elem =>
      x <- int_attr report_elem "x" 0 ;;
      y <- int_attr report_elem "y" 0 ;;
      width <- int_attr report_elem "width" 0 ;;
      height <- int_attr report_elem "height" 0 ;;
      style <- _parse_style ns elem ;;
      Ok (Some (mkReportElement x y width height element_type None None
                                style))
  | None => Ok None
  end.

Definition with_content (content : option string) (e : ReportElement)
  : ReportElement :=
  mkReportElement (el_x e) (el_y e) (el_width e) (el_height e)
                  (element_type e) content (el_expression e) (el_style e).

Definition with_expression (expression : option string) (e : ReportElement)
  : ReportElement :=
  mkReportElement (el_x e) (el_y e) (el_width e) (el_height e)
                  (element_type e) (el_content e) expression (el_style e).

Definition _parse_static_text (ns : string) (static_elem : Element)
  : result (list ReportElement) :=
  element <- _parse_element ns static_elem "staticText" ;;
  match element with
  | Some element =>
      Ok [with_content (child_text ns "text" static_elem) element]
  | None => Ok []
  end.

Definition _parse_text_field (ns : string) (field_elem : Element)
  : result (list ReportElement) :=
  element <- _parse_element ns field_elem "textField" ;;
  match element with
  | Some element =>
      Ok [with_expression (child_text ns "textFieldExpression" field_elem)
                          element]
  | None => Ok []
  end.

Definition _parse_band_elements (ns : string) (band_elem : Element)
  : result (list ReportElement) :=
  statics <- for_each (_parse_static_text ns)
                      (findall_desc_ns ns "staticText" band_elem) ;;
  fields <- for_each (_parse_text_field ns)
                     (findall_desc_ns ns "textField" band_elem) ;;
  Ok (concat statics ++ concat fields).

Definition band_types : list string :=
  ["title"; "pageHeader"; "columnHeader"; "detail";
   "columnFooter"; "pageFooter"; "lastPageFooter"; "summary"].

(** One turn of the loop of [_parse_bands]. *)
Definition _parse_band (ns : string) (root : Element) (bands : dict Band)
           (band_type : string) : result (dict Band) :=
  match or_else (ET.find_desc_path (ET.qname ns band_type)
                                   (ET.qname ns "band") root)
                (ET.find_desc_path band_type "band" root) with
  | Some band_elem =>
      height <- int_attr band_elem "height" 0 ;;
      elements <- _parse_band_elements ns band_elem ;;
      Ok (dict_set bands band_type (mkBand band_type height elements))
  | None => Ok bands
  end.

Fixpoint _parse_bands_loop (ns : string) (root : Element)
         (bands : dict Band) (types : list string) : result (dict Band) :=
  match types with
  | [] => Ok bands
  | band_type :: rest =>
      bands' <- _parse_band ns root bands band_type ;;
      _parse_bands_loop ns root bands' rest
  end.

Definition _parse_bands (ns : string) (root : Element)
  : result (dict Band) :=
  _parse_bands_loop ns root [] band_types.

Definition _parse_parameters (ns : string) (root : Element)
  : dict ParameterSpec :=
  fold_left
    (fun parameters param_elem =>
       match truthy (ET.get param_elem "name") with
       | Some name =>
           dict_set parameters name
             (mkParameterSpec
                (ET.get_default param_elem "class" "java.lang.String")
                (child_text ns "defaultValueExpression" param_elem))
       | None => parameters
       end)
    (findall_desc_ns ns "parameter" root) [].

(** [s.index(c)] *)
Fixpoint str_index (c : ascii) (s : string) : option nat :=
  match s with
  | EmptyString => None
  | String c' s' =>
      if Ascii.eqb c' c then Some 0%nat
      else option_map S (str_index c s')
  end.

(** The namespace of the document: that of the root's tag when it
    has one, the default otherwise. *)
Definition detect_namespace (root : Element) : result string :=
  if PyStr.startswith "{" (elem_tag root)
  then match str_index "}" (elem_tag root) with
       | Some i => Ok (substring 1 (i - 1) (elem_tag root))
       | None => Raise (BuiltinError "substring not found")
       end
  else Ok default_namespace.

(** The body of the [try] block of [parse], after [ET.fromstring]. *)
Definition parse_root (root : Element) : result ReportDefinition :=
  ns <- detect_namespace root ;;
  page_width <- int_attr root "pageWidth" 595 ;;
  page_height <- int_attr root "pageHeight" 842 ;;
  column_width <- int_attr root "columnWidth" 555 ;;
  left_margin <- int_attr root "leftMargin" 20 ;;
  right_margin <- int_attr root "rightMargin" 20 ;;
  top_margin <- int_attr root "topMargin" 20 ;;
  bottom_margin <- int_attr root "bottomMargin" 20 ;;
  let query := _parse_query ns root in
  let fields := _parse_fields ns root in
  let variables := _parse_variables ns root in
  groups <- _parse_groups ns root ;;
  bands <- _parse_bands ns root ;;
  let parameters := _parse_parameters ns root in
  Ok (mkReportDefinition (ET.get_default root "name" "Report")
                         page_width page_height column_width
                         left_margin right_margin top_margin bottom_margin
                         query fields variables groups bands parameters).

(** [JRXMLParser.parse] *)
Definition parse (jrxml_content : string) : result ReportDefinition :=
  match ET_fromstring jrxml_content with
  | Raise e => Raise (JRXMLParseError ("Invalid XML: " +++ exn_str e))
  | Ok root =>
      try_except (parse_root root)
        (fun e => Raise (JRXMLParseError
                           ("Failed to parse JRXML: " +++ exn_str e)))
  end.

End WithRuntime.
End JRXMLParser.

(* ================================================================== *)
(** ** database.py: DataProcessor *)
(* ================================================================== *)

Module DataProcessor.
Section WithRuntime.
Context `{Runtime}.

(** The dictionary [group_by] returns: keys are row values, in
    insertion order. *)
Definition Groups : Type := list (PyValue * list DataRow).

(** [key in groups] *)
Definition groups_mem (groups : Groups) (key : PyValue) : bool :=
  existsb (fun g => py_eqb (fst g) key) groups.

(** [groups[key].append(row)] *)
Fixpoint groups_append (groups : Groups) (key : PyValue) (row : DataRow)
  : Groups :=
  match groups with
  | [] => []
  | (k, rows) :: rest =>
      if py_eqb k key then (k, rows ++ [row]) :: rest
      else (k, rows) :: groups_append rest key row
  end.

(** One turn of the loop of [group_by]. *)
Definition group_by_step (field : string) (groups : Groups) (row : DataRow)
  : Groups :=
  let key := dict_get row field VNone in
  let groups :=
    if negb (groups_mem groups key) then groups ++ [(key, [])]
    else groups in
  groups_append groups key row.

Definition group_by (data : list DataRow) (field : string) : Groups :=
  fold_left (group_by_step field) data [].

(** One turn of the loop of [calculate_sum]: [total += value] for a
    number, [total += float(value)] for a numeral, nothing otherwise.
    The sum is the exact one: the rounding of float addition, and the
    [OverflowError] that adding an integer beyond the float range
    raises, are not modelled. *)
Definition sum_step (field : string) (total : Q) (row : DataRow) : Q :=
  match dict_get row field (VInt 0) with
  | VInt z => total + inject_Z z
  | VFloat q => total + q
  | VStr s =>
      match py_float s with
      | Some q => total + q
      | None => total
      end
  | VNone => total
  end.

Definition calculate_sum (data : list DataRow) (field : string) : Q :=
  fold_left (sum_step field) data 0.

End WithRuntime.
End DataProcessor.

(* ================================================================== *)
(** ** renderers.py: BaseRenderer and HTMLRenderer *)
(* ================================================================== *)

Record BaseRenderer : Type := mkRenderer {
  r_report_def : ReportDefinition;
  r_data : list DataRow;
  r_parameters : dict PyValue;
  r_variables : dict PyValue;
  r_current_page : Z;
  r_total_pages : Z
}.

Module Base.

(** [BaseRenderer.__init__] *)
Definition new_renderer (report_def : ReportDefinition) : BaseRenderer :=
mkRenderer report_def [] [] [] 1 1.

Definition set_data (self : BaseRenderer) (data : list DataRow) : BaseRenderer :=
mkRenderer (r_report_def self) data (r_parameters self) (r_variables self)
           (r_current_page self) (r_total_pages self).

Definition set_parameters (self : BaseRenderer) (parameters : dict PyValue)
: BaseRenderer :=
mkRenderer (r_report_def self) (r_data self) parameters (r_variables self)
           (r_current_page self) (r_total_pages self).

(** [self.variables = variables] *)
Definition set_variables (self : BaseRenderer) (variables : dict PyValue)
: BaseRenderer :=
mkRenderer (r_report_def self) (r_data self) (r_parameters self) variables
           (r_current_page self) (r_total_pages self).

End Base.

(** The bands a renderer can visit. *)
Inductive BandKind : Type :=
| BTitle | BPageHeader | BColumnHeader | BDetail | BColumnFooter
| BPageFooter | BLastPageFooter | BSummary | BGroupHeader | BGroupFooter.

Definition band_key (b : BandKind) : string :=
  match b with
  | BTitle => "title"
  | BPageHeader => "pageHeader"
  | BColumnHeader => "columnHeader"
  | BDetail => "detail"
  | BColumnFooter => "columnFooter"
  | BPageFooter => "pageFooter"
  | BLastPageFooter => "lastPageFooter"
  | BSummary => "summary"
  | BGroupHeader => "groupHeader"
  | BGroupFooter => "groupFooter"
  end.

(** A piece of rendered output together with the band it was rendered
    for ([None] for the placeholder of an empty report).  The text a
    rendering method returns is the concatenation of its fragments. *)
Record Fragment : Type := mkFragment {
  frag_band : option BandKind;
  frag_html : string
}.

Definition fragments_html (fs : list Fragment) : string :=
  PyStr.concat_all (map frag_html fs).

(** One turn of the loop over the variables, shared by the group
    totals and the summary: a [Sum] variable whose expression names a
    field is set to the sum of that field over [data]. *)
Definition sum_total `{Runtime} (data : list DataRow) (variables : dict PyValue)
           (variable : Variable_) : dict PyValue :=
  if String.eqb (var_calculation variable) "Sum"
  then match Re.search "F" (match var_expression variable with
                            | Some e => e
                            | None => EmptyString
                            end) with
       | Some field =>
           dict_set variables (var_name variable)
                    (VFloat (DataProcessor.calculate_sum data field))
       | None => variables
       end
  else variables.

Definition sum_totals `{Runtime} (report_def : ReportDefinition)
           (data : list DataRow) (variables : dict PyValue) : dict PyValue :=
  fold_left (sum_total data) (rd_variables report_def) variables.

Module HTMLRenderer.
Section WithRuntime.
Context `{Runtime}.

Definition quoted (s : string) : string :=
  PyStr.dquote +++ s +++ PyStr.dquote.

Definition px (z : Z) : string := PyStr.of_Z z +++ "px".

Definition _generate_css (report_def : ReportDefinition) : string :=
  "
        body {
            font-family: 'Times New Roman', serif;
            margin: 0;
            padding: 0;
            background-color: white;
        }
        
        .report-container {
            max-width: " +++ px (page_width report_def) +++ ";
            margin: 0 auto;
            background-color: white;
            padding: " +++ px (top_margin report_def) +++ " "
    +++ px (right_margin report_def) +++ " "
    +++ px (bottom_margin report_def) +++ " "
    +++ px (left_margin report_def) +++ ";
        }
        
        .band {
            width: 100%;
            position: relative;
        }
        
        .element {
            position: absolute;
            overflow: hidden;
        }
        
        .static-text {
            font-weight: normal;
        }
        
        .text-field {
            font-weight: normal;
        }
        
        .bold { font-weight: bold; }
        .italic { font-style: italic; }
        .underline { text-decoration: underline; }
        
        .align-left { text-align: left; }
        .align-center { text-align: center; }
        .align-right { text-align: right; }
        .align-justify { text-align: justify; }
        
        table {
            width: 100%;
            border-collapse: collapse;
        }
        
        th, td {
            border: 1px solid black;
            padding: 4px;
            text-align: left;
            vertical-align: middle;
        }
        
        th {
            background-color: #d3d3d3;
            font-weight: bold;
        }
        
        @media print {
            body { background-color: white; padding: 0; }
            .report-container { box-shadow: none; }
        }
        ".

Definition opt_str (s : option string) : string :=
  match s with Some t => t | None => EmptyString end.

Definition is_true (b : option bool) : bool :=
  match b with Some true => true | _ => false end.

(** The currency heuristic at the end of [_render_element]. *)
Definition format_currency (element : ReportElement) (content : string)
  : string :=
  let expr := PyStr.lower (opt_str (el_expression element)) in
  if PyStr.contains "amount" expr || PyStr.contains "salary" expr
  then
    if PyStr.nonempty content
       && negb (match el_expression element with
                | Some e => String.eqb content e
                | None => false
                end)
    then match py_float content with
         | Some value => "$" +++ format_2f value
         | None => content
         end
    else content
  else content.

Definition style_parts (element : ReportElement) : list string :=
  let style := el_style element in
  ["left: " +++ px (el_x element);
   "top: " +++ px (el_y element);
   "width: " +++ px (el_width element);
   "height: " +++ px (el_height element);
   "border: 1px solid black";
   "box-sizing: border-box";
   "padding: 2px"]
  ++ match fontSize style with
     | Some size => ["font-size: " +++ px size]
     | None => []
     end
  ++ match fontName style with
     | Some name => ["font-family: " +++ name]
     | None => []
     end
  ++ (if is_true (isBold style) then ["font-weight: bold"] else [])
  ++ (if is_true (isItalic style) then ["font-style: italic"] else [])
  ++ (if is_true (isUnderline style) then ["text-decoration: underline"]
      else [])
  ++ (let alignment :=
        PyStr.lower (match textAlignment style with
                     | Some a => a
                     | None => "Left"
                     end) in
      if String.eqb alignment "center" then ["text-align: center"]
      else if String.eqb alignment "right" then ["text-align: right"]
      else if String.eqb alignment "justify" then ["text-align: justify"]
      else []).

Definition _render_element (self : BaseRenderer) (element : ReportElement)
           (row_data : DataRow) (evaluator : option ExpressionEvaluator)
  : result string :=
  let evaluator :=
    match evaluator with
    | Some ev => Some ev
    | None =>
        match row_data with
        | [] => None
        | _ => Some (mkEvaluator row_data (r_variables self)
                                 (r_parameters self))
        end
    end in
  content <-
    match (if String.eqb (element_type element) "staticText"
           then truthy (el_content element) else None) with
    | Some content => Ok content
    | None =>
        match (if String.eqb (element_type element) "textField"
               then truthy (el_expression element) else None) with
        | Some expression =>
            match evaluator with
            | Some ev => evaluate ev expression
            | None => Ok expression
            end
        | None => Ok EmptyString
        end
    end ;;
  let style := PyStr.join "; " (style_parts element) in
  let content := format_currency element content in
  let css_class := "element " +++ element_type element in
  Ok ("<div class=" +++ quoted css_class +++ " style=" +++ quoted style
      +++ ">" +++ content +++ "</div>").

(** A band's [div]: the opening tag, the elements, the closing tag. *)
Definition band_div (self : BaseRenderer) (kind : BandKind)
           (css_class : string) (band : Band) (row_data : DataRow)
           (evaluator : option ExpressionEvaluator) : result Fragment :=
  parts <- for_each (fun element =>
                       _render_element self element row_data evaluator)
                    (band_elements band) ;;
  Ok (mkFragment (Some kind)
        ("<div class=" +++ quoted css_class +++ " style="
         +++ quoted ("height: " +++ px (band_height band) +++ ";") +++ ">"
         +++ PyStr.concat_all parts +++ "</div>")).

Definition bands (self : BaseRenderer) : dict Band :=
  rd_bands (r_report_def self).

Definition _render_title (self : BaseRenderer) : result (list Fragment) :=
  match dict_lookup (bands self) "title" with
  | None => Ok []
  | Some title_band =>
      f <- band_div self BTitle "band title-band" title_band [] None ;;
      Ok [f]
  end.

Definition _render_page_header (self : BaseRenderer)
  : result (list Fragment) :=
  match dict_lookup (bands self) "pageHeader" with
  | None => Ok []
  | Some header_band =>
      f <- band_div self BPageHeader "band page-header" header_band [] None ;;
      Ok [f]
  end.

Definition _render_column_header (self : BaseRenderer) (header_band : Band)
  : result Fragment :=
  band_div self BColumnHeader "band" header_band [] None.

Definition _render_detail_row (self : BaseRenderer) (row_data : DataRow)
  : result (list Fragment) :=
  match dict_lookup (bands self) "detail" with
  | None => Ok []
  | Some detail_band =>
      let evaluator :=
        mkEvaluator row_data (r_variables self) (r_parameters self) in
      f <- band_div self BDetail "band" detail_band row_data
                    (Some evaluator) ;;
      Ok [f]
  end.

Definition _render_simple_content (self : BaseRenderer)
  : result (list Fragment) :=
  header <- match dict_lookup (bands self) "columnHeader" with
            | Some header_band =>
                f <- _render_column_header self header_band ;; Ok [f]
            | None => Ok []
            end ;;
  rows <- for_each (_render_detail_row self) (r_data self) ;;
  Ok (header ++ concat rows).

(** What one turn of the loop over the groups produces: its output
    and the variable map in force where the group footer is
    rendered. *)
Record GroupRendering : Type := mkGroupRendering {
  gr_value : PyValue;
  gr_fragments : list Fragment;
  gr_footer_variables : dict PyValue
}.

(** One turn of the loop of [_render_grouped_content]. *)
Definition _render_group (self : BaseRenderer) (group_field : string)
           (group : PyValue * list DataRow)
  : result (GroupRendering * BaseRenderer) :=
  let (group_value, group_rows) := group in
  header <-
    match dict_lookup (bands self) "groupHeader" with
    | Some group_header_band =>
        let row := [(group_field, group_value)] in
        let evaluator :=
          mkEvaluator row (r_variables self) (r_parameters self) in
        f <- band_div self BGroupHeader "band" group_header_band row
                      (Some evaluator) ;;
        Ok [f]
    | None => Ok []
    end ;;
  rows <- for_each (_render_detail_row self) group_rows ;;
  let self :=
    Base.set_variables self
      (sum_totals (r_report_def self) group_rows (r_variables self)) in
  footer <-
    match dict_lookup (bands self) "groupFooter" with
    | Some group_footer_band =>
        let evaluator :=
          mkEvaluator [] (r_variables self) (r_parameters self) in
        f <- band_div self BGroupFooter "band" group_footer_band []
                      (Some evaluator) ;;
        Ok [f]
    | None => Ok []
    end ;;
  Ok (mkGroupRendering group_value (header ++ concat rows ++ footer)
                       (r_variables self),
      self).

Fixpoint _render_groups (self : BaseRenderer) (group_field : string)
         (groups : DataProcessor.Groups)
  : result (list GroupRendering * BaseRenderer) :=
  match groups with
  | [] => Ok ([], self)
  | g :: rest =>
      '(r, self) <- _render_group self group_field g ;;
      '(rs, self) <- _render_groups self group_field rest ;;
      Ok (r :: rs, self)
  end.

(** [_render_grouped_content], with the rendering of each group kept
    apart; [None] when it falls back to the simple content. *)
Definition grouped_renderings (self : BaseRenderer)
  : result (option (list GroupRendering) * BaseRenderer) :=
  match rd_groups (r_report_def self) with
  | group :: _ =>
      match Re.search "F" (group_expression group) with
      | None => Ok (None, self)
      | Some group_field =>
          let grouped_data :=
            DataProcessor.group_by (r_data self) group_field in
          '(rs, self) <- _render_groups self group_field grouped_data ;;
          Ok (Some rs, self)
      end
  | [] => Raise (BuiltinError "list index out of range")
  end.

Definition _render_grouped_content (self : BaseRenderer)
  : result (list Fragment * BaseRenderer) :=
  '(rs, self') <- grouped_renderings self ;;
  match rs with
  | Some rs => Ok (flat_map gr_fragments rs, self')
  | None => fs <- _render_simple_content self ;; Ok (fs, self)
  end.

Definition _render_content (self : BaseRenderer)
  : result (list Fragment * BaseRenderer) :=
  match r_data self with
  | [] =>
      Ok ([mkFragment None ("<div class=" +++ quoted "no-data"
                            +++ ">No data available</div>")], self)
  | _ =>
      match rd_groups (r_report_def self) with
      | _ :: _ => _render_grouped_content self
      | [] => fs <- _render_simple_content self ;; Ok (fs, self)
      end
  end.

Definition _render_page_footer (self : BaseRenderer)
  : result (list Fragment) :=
  match dict_lookup (bands self) "pageFooter" with
  | None => Ok []
  | Some footer_band =>
      let page_vars := [("PAGE_NUMBER", VInt (r_current_page self));
                        ("PAGE_COUNT", VInt (r_total_pages self))] in
      let evaluator := mkEvaluator [] page_vars (r_parameters self) in
      f <- band_div self BPageFooter "band page-footer" footer_band []
                    (Some evaluator) ;;
      Ok [f]
  end.

Definition _render_summary (self : BaseRenderer)
  : result (list Fragment * BaseRenderer) :=
  match dict_lookup (bands self) "summary" with
  | None => Ok ([], self)
  | Some summary_band =>
      let self :=
        Base.set_variables self
          (sum_totals (r_report_def self) (r_data self)
                      (r_variables self)) in
      let evaluator :=
        mkEvaluator [] (r_variables self) (r_parameters self) in
      f <- band_div self BSummary "band summary-band" summary_band []
                    (Some evaluator) ;;
      Ok ([f], self)
  end.

(** The five interpolations of [_generate_html], in the order the
    f-string evaluates them. *)
Record HtmlParts : Type := mkHtmlParts {
  part_title : list Fragment;
  part_page_header : list Fragment;
  part_content : list Fragment;
  part_page_footer : list Fragment;
  part_summary : list Fragment
}.

Definition _generate_parts (self : BaseRenderer)
  : result (HtmlParts * BaseRenderer) :=
  title <- _render_title self ;;
  page_header <- _render_page_header self ;;
  '(content, self) <- _render_content self ;;
  page_footer <- _render_page_footer self ;;
  '(summary, self) <- _render_summary self ;;
  Ok (mkHtmlParts title page_header content page_footer summary, self).

Definition nl : string := PyStr.newline.
Definition indent8 : string := nl +++ "        ".

(** The document text around the five parts. *)
Definition html_text (report_def : ReportDefinition) (p : HtmlParts)
  : string :=
  "<!DOCTYPE html>" +++ nl +++ "<html>" +++ nl +++ "<head>" +++ nl
  +++ "    <meta charset=" +++ quoted "UTF-8" +++ ">" +++ nl
  +++ "    <title>" +++ rd_name report_def +++ "</title>" +++ nl
  +++ "    <style>" +++ _generate_css report_def +++ "</style>" +++ nl
  +++ "</head>" +++ nl +++ "<body>" +++ nl
  +++ "    <div class=" +++ quoted "report-container" +++ ">"
  +++ indent8 +++ fragments_html (part_title p)
  +++ indent8 +++ fragments_html (part_page_header p)
  +++ indent8 +++ fragments_html (part_content p)
  +++ indent8 +++ fragments_html (part_page_footer p)
  +++ indent8 +++ fragments_html (part_summary p)
  +++ nl +++ "    </div>" +++ nl +++ "</body>" +++ nl +++ "</html>".

Definition _generate_html (self : BaseRenderer)
  : result (string * BaseRenderer) :=
  '(p, self') <- _generate_parts self ;;
  Ok (html_text (r_report_def self) p, self').

(** [encode('utf-8')] of a string of code points below 256. *)
Definition utf8_char (c : ascii) : list ascii :=
  let n := nat_of_ascii c in
  if (n <? 128)%nat then [c]
  else [ascii_of_nat (192 + n / 64); ascii_of_nat (128 + n mod 64)].

Fixpoint encode_utf8 (s : string) : string :=
  match s with
  | EmptyString => EmptyString
  | String c s' =>
      fold_right String (encode_utf8 s') (utf8_char c)
  end.

(** [HTMLRenderer.render] *)
Definition render (self : BaseRenderer) : result (string * BaseRenderer) :=
  try_except
    ('(html_content, self') <- _generate_html self ;;
     Ok (encode_utf8 html_content, self'))
    (fun e => Raise (RenderError ("HTML rendering failed: " +++ exn_str e))).


End WithRuntime.
End HTMLRenderer.

(* ================================================================== *)
(** ** renderers.py: PDFRenderer *)
(* ================================================================== *)

Module PDFRenderer.
Section WithRuntime.
Context `{Runtime}.

Definition bands (self : BaseRenderer) : dict Band :=
  rd_bands (r_report_def self).

(** [name.replace('_', ' ').title()] *)
Definition display_name (name : string) : string :=
  PyStr.title (PyStr.replace "_" " " name).

(** Truthiness of a value. *)
Definition py_truthy (v : PyValue) : bool :=
  match v with
  | VNone => false
  | VInt z => negb (Z.eqb z 0)
  | VFloat q => negb (Qeq_bool q 0)
  | VStr s => PyStr.nonempty s
  end.

(** [float(v)]; [None] for the [ValueError] or [TypeError]. *)
Definition to_float (v : PyValue) : option Q :=
  match v with
  | VNone => None
  | VInt z => Some (inject_Z z)
  | VFloat q => Some q
  | VStr s => py_float s
  end.

Definition is_currency_name (name : string) : bool :=
  PyStr.contains "amount" (PyStr.lower name)
  || PyStr.contains "salary" (PyStr.lower name).

(** One cell of a data row of a table. *)
Definition table_cell (row : DataRow) (field : Field) : string :=
  let value := dict_get row (field_name field) (VStr EmptyString) in
  if is_currency_name (field_name field)
  then match (if py_truthy value then to_float value else Some 0) with
       | Some amount_val => "$" +++ format_2f amount_val
       | None => py_str value
       end
  else py_str value.

Definition data_rows (self : BaseRenderer) (rows : list DataRow)
  : list (list string) :=
  map (fun row => map (table_cell row) (rd_fields (r_report_def self)))
      rows.

Definition field_header (self : BaseRenderer) : list string :=
  map (fun f => display_name (field_name f)) (rd_fields (r_report_def self)).

Definition is_nil {A : Type} (l : list A) : bool :=
  match l with [] => true | _ => false end.

Definition static_contents (elements : list ReportElement) : list string :=
  flat_map (fun element =>
              if String.eqb (element_type element) "staticText"
              then match truthy (el_content element) with
                   | Some c => [c]
                   | None => []
                   end
              else [])
           elements.

Definition _prepare_table_data (self : BaseRenderer) : list (list string) :=
  if is_nil (r_data self) || is_nil (rd_fields (r_report_def self)) then []
  else
    let header_row :=
      match dict_lookup (bands self) "columnHeader" with
      | Some column_header_band =>
          or_if_empty (static_contents (band_elements column_header_band))
                      (field_header self)
      | None => field_header self
      end in
    header_row :: data_rows self (r_data self).

Definition _prepare_group_table_data (self : BaseRenderer)
           (group_rows : list DataRow) : list (list string) :=
  if is_nil group_rows || is_nil (rd_fields (r_report_def self)) then []
  else field_header self :: data_rows self group_rows.

Definition _render_pdf_title (self : BaseRenderer) (title_band : Band)
  : list Flowable :=
  map (fun content => Paragraph content "Title")
      (static_contents (band_elements title_band)).

Definition _render_pdf_page_header (self : BaseRenderer) : list Flowable :=
  [].

Definition table_of (cells : list (list string)) : list Flowable :=
  match cells with [] => [] | _ => [Table cells] end.

Definition _render_pdf_simple_content (self : BaseRenderer)
  : list Flowable :=
  table_of (_prepare_table_data self).

Definition _render_pdf_grouped_content (self : BaseRenderer)
  : list Flowable :=
  match rd_groups (r_report_def self) with
  | group :: _ =>
      match Re.search "F" (group_expression group) with
      | None => _render_pdf_simple_content self
      | Some group_field =>
          flat_map
            (fun g : PyValue * list DataRow =>
               Paragraph (display_name group_field +++ ": "
                          +++ py_str (fst g)) "GroupHeader"
               :: table_of (_prepare_group_table_data self (snd g)))
            (DataProcessor.group_by (r_data self) group_field)
      end
  | [] => []
  end.

Definition _render_pdf_content (self : BaseRenderer) : list Flowable :=
  match rd_groups (r_report_def self) with
  | _ :: _ => _render_pdf_grouped_content self
  | [] => _render_pdf_simple_content self
  end.

Definition _render_pdf_summary (self : BaseRenderer) : list Flowable :=
  flat_map
    (fun variable =>
       if String.eqb (var_calculation variable) "Sum"
       then match Re.search "F" (match var_expression variable with
                                 | Some e => e
                                 | None => EmptyString
                                 end) with
            | Some field =>
                [Paragraph ("Total " +++ display_name field +++ ": $"
                            +++ format_2f (DataProcessor.calculate_sum
                                             (r_data self) field))
                           "Summary"]
            | None => []
            end
       else [])
    (rd_variables (r_report_def self)).

Definition _render_pdf_page_footer (self : BaseRenderer) : list Flowable :=
  [].

(** The [story.extend(...)] calls [render] makes, in order, each with
    the band it is made for. *)
Definition story_segments (self : BaseRenderer)
  : list (BandKind * list Flowable) :=
  match dict_lookup (bands self) "title" with
  | Some title_band => [(BTitle, _render_pdf_title self title_band)]
  | None => []
  end
  ++ (if dict_mem (bands self) "pageHeader"
      then [(BPageHeader, _render_pdf_page_header self)] else [])
  ++ (if is_nil (r_data self) then []
      else [(BDetail, _render_pdf_content self)])
  ++ (if dict_mem (bands self) "summary"
      then [(BSummary, _render_pdf_summary self)] else [])
  ++ (if dict_mem (bands self) "pageFooter"
      then [(BPageFooter, _render_pdf_page_footer self)] else []).

Definition story (self : BaseRenderer) : list Flowable :=
  flat_map snd (story_segments self).

(** [PDFRenderer.render] *)
Definition render (self : BaseRenderer) : result string :=
  try_except (pdf_build (story self))
    (fun e => Raise (RenderError ("PDF rendering failed: " +++ exn_str e))).

End WithRuntime.
End PDFRenderer.

(* ================================================================== *)
(** ** core.py: JasperReport *)
(* ================================================================== *)

Record JasperReport : Type := mkJasperReport {
  jrxml_content : string;
  report_def : ReportDefinition;
  data : list DataRow;
  parameters : dict PyValue;
  database_engine : option DatabaseEngine
}.

Record Validation : Type := mkValidation {
  valid : bool;
  issues : list string;
  warnings : list string;
  database_status : string;
  total_fields : nat;
  total_variables : nat;
  total_groups : nat;
  total_bands : nat
}.

Module Core.
Section WithRuntime.
Context `{Runtime}.

(** [JasperReport(jrxml_content=...)] *)
Definition new_report (content : string) : result JasperReport :=
  if negb (PyStr.nonempty content)
  then Raise (JasperError
                "Either jrxml_path or jrxml_content must be provided")
  else
    try_except
      (rd <- JRXMLParser.parse content ;;
       Ok (mkJasperReport content rd [] [] None))
      (fun e => Raise (JRXMLParseError
                         ("Failed to parse JRXML: " +++ exn_str e))).

(** [DatabaseEngine._detect_db_type] *)
Definition _detect_db_type (connection : string) : result DbType :=
  if PyStr.startswith "sqlite:///" connection then Ok sqlite
  else if PyStr.startswith "mysql://" connection then Ok mysql
  else if PyStr.startswith "postgresql://" connection then Ok postgresql
  else Raise (DatabaseError
                ("Unsupported database type in connection string: "
                 +++ connection)).

Definition with_engine (self : JasperReport) (e : option DatabaseEngine)
  : JasperReport :=
  mkJasperReport (jrxml_content self) (report_def self) (data self)
                 (parameters self) e.

Definition with_data (self : JasperReport) (d : list DataRow) : JasperReport :=
  mkJasperReport (jrxml_content self) (report_def self) d
                 (parameters self) (database_engine self).

Definition with_parameters (self : JasperReport) (p : dict PyValue)
  : JasperReport :=
  mkJasperReport (jrxml_content self) (report_def self) (data self) p
                 (database_engine self).

Definition set_database_connection (self : JasperReport)
           (connection : string) : result JasperReport :=
  try_except
    (t <- _detect_db_type connection ;;
     Ok (with_engine self (Some (mkDatabaseEngine connection t))))
    (fun e => Raise (DatabaseError
                       ("Failed to configure database: " +++ exn_str e))).

Definition set_parameters (self : JasperReport) (p : dict PyValue)
  : JasperReport := with_parameters self p.

Definition set_data (self : JasperReport) (d : list DataRow) : JasperReport :=
  with_data self d.

Definition execute_query (self : JasperReport)
  : result (list DataRow * JasperReport) :=
  match database_engine self with
  | None => Raise (DatabaseError "Database connection not configured")
  | Some engine =>
      match truthy (rd_query (report_def self)) with
      | None => Raise (JasperError "No query defined in report")
      | Some query =>
          try_except
            (rows <- engine_execute_query engine query (parameters self) ;;
             Ok (rows, with_data self rows))
            (fun e => Raise (DatabaseError
                               ("Query execution failed: " +++ exn_str e)))
      end
  end.

Definition is_nil {A : Type} (l : list A) : bool :=
  match l with [] => true | _ => false end.

Definition has_query (self : JasperReport) : bool :=
  match truthy (rd_query (report_def self)) with
  | Some _ => true
  | None => false
  end.

(** [generate_html]: the bytes and the report after the call. *)
Definition generate_html (self : JasperReport)
  : result (string * JasperReport) :=
  self <- (if is_nil (data self) && has_query self
           then '(_, self') <- execute_query self ;; Ok self'
           else Ok self) ;;
  try_except
    (let renderer := Base.new_renderer (report_def self) in
     let renderer := Base.set_data renderer (data self) in
     let renderer := Base.set_parameters renderer (parameters self) in
     '(bytes, _) <- HTMLRenderer.render renderer ;;
     Ok (bytes, self))
    (fun e => Raise (RenderError ("HTML generation failed: " +++ exn_str e))).

Definition generate_pdf (self : JasperReport)
  : result (string * JasperReport) :=
  self <- (if is_nil (data self) && has_query self
           then '(_, self') <- execute_query self ;; Ok self'
           else Ok self) ;;
  try_except
    (let renderer := Base.new_renderer (report_def self) in
     let renderer := Base.set_data renderer (data self) in
     let renderer := Base.set_parameters renderer (parameters self) in
     bytes <- PDFRenderer.render renderer ;;
     Ok (bytes, self))
    (fun e => Raise (RenderError ("PDF generation failed: " +++ exn_str e))).

Definition field_defined (self : JasperReport) (field_ref : string) : bool :=
  existsb (fun f => String.eqb (field_name f) field_ref)
          (rd_fields (report_def self)).

Definition undefined_field_issue (field_ref : string) : string :=
  "Referenced field '" +++ field_ref +++ "' not defined".

(** The issues the scan of one element adds. *)
Definition element_issues (self : JasperReport) (element : ReportElement)
  : list string :=
  match truthy (el_expression element) with
  | Some expression =>
      flat_map (fun field_ref =>
                  if negb (field_defined self field_ref)
                  then [undefined_field_issue field_ref] else [])
               (Re.findall "F" expression)
  | None => []
  end.

Definition reference_issues (self : JasperReport) : list string :=
  flat_map (fun band => flat_map (element_issues self) (band_elements band))
           (dict_values (rd_bands (report_def self))).

(** [validate_report] *)
Definition validate_report (self : JasperReport) : Validation :=
  let rd := report_def self in
  let warnings1 :=
    if is_nil (rd_fields rd) then ["No fields defined in report"] else [] in
  let issues1 :=
    if negb (has_query self) && is_nil (data self)
    then ["No query defined and no data provided"] else [] in
  let warnings2 :=
    if negb (dict_mem (rd_bands rd) "detail")
    then ["No detail band defined"] else [] in
  let issues2 := reference_issues self in
  let '(db_status, issues3) :=
    match database_engine self with
    | Some engine =>
        if engine_test_connection engine then ("Connected", [])
        else ("Connection failed", ["Database connection test failed"])
    | None => ("Not configured", [])
    end in
  let issues := issues1 ++ issues2 ++ issues3 in
  mkValidation (is_nil issues) issues (warnings1 ++ warnings2) db_status
               (List.length (rd_fields rd)) (List.length (rd_variables rd))
               (List.length (rd_groups rd)) (List.length (rd_bands rd)).

(** [l[:limit]] *)
Definition take {A : Type} (limit : Z) (l : list A) : list A :=
  if (0 <=? limit)%Z then firstn (Z.to_nat limit) l
  else firstn (List.length l - Z.to_nat (- limit)) l.

(** The query [preview_data] executes. *)
Definition preview_query (engine : DatabaseEngine) (query : string)
           (limit : Z) : string :=
  if negb (PyStr.contains "LIMIT" (PyStr.upper query))
  then match db_type engine with
       | sqlite => query +++ " LIMIT " +++ PyStr.of_Z limit
       | mysql => query +++ " LIMIT " +++ PyStr.of_Z limit
       | postgresql => query +++ " LIMIT " +++ PyStr.of_Z limit
       end
  else query.

(** [preview_data] *)
Definition preview_data (self : JasperReport) (limit : Z)
  : result (list DataRow) :=
  if is_nil (data self)
  then match database_engine self, truthy (rd_query (report_def self)) with
       | Some engine, Some query =>
           try_except
             (preview <- engine_execute_query engine
                           (preview_query engine query limit) (parameters self) ;;
              Ok (take limit preview))
             (fun _ => Ok [])
       | _, _ => Ok []
       end
  else Ok (take limit (data self)).

End WithRuntime.
End Core.

(* ================================================================== *)
(** ** Vocabulary of the properties *)
(* ================================================================== *)

Definition scope_sigil (sc : Scope) : ascii :=
  match sc with
  | ScData => "F"
  | ScVariables => "V"
  | ScParameters => "P"
  end.

(** The text of a reference: [$F{name}], [$V{name}] or [$P{name}]. *)
Definition reference (sc : Scope) (name : string) : string :=
  String "$" (String (scope_sigil sc) (String "{" (name +++ "}"))).

(** An expression the rewriting of [evaluate] leaves alone: no CDATA
    wrapper, no dollar sign and no plus sign. *)
Definition no_dollar (c : ascii) : bool := negb (Ascii.eqb c "$").
Definition no_plus (c : ascii) : bool := negb (Ascii.eqb c "+").
Definition no_brace (c : ascii) : bool := negb (Ascii.eqb c "}").
Definition no_quote (c : ascii) : bool := negb (Ascii.eqb c "'").

Definition rewrite_free (expression : string) : bool :=
  negb (is_cdata expression)
  && PyStr.all_chars no_dollar expression
  && PyStr.all_chars no_plus expression.

(** The key a row is grouped under. *)
Definition group_key (field : string) (row : DataRow) : PyKey :=
  py_key (dict_get row field VNone).

(** Adjacent-equal partitioning: the contiguous runs of rows with the
    same key, as a grouping that follows row order would form them. *)
Fixpoint adjacent_runs (field : string) (rows : list DataRow)
  : list (PyValue * list DataRow) :=
  match rows with
  | [] => []
  | row :: rest =>
      match adjacent_runs field rest with
      | (k, run) :: runs =>
          if PyKey_eqb (py_key k) (group_key field row)
          then (dict_get row field VNone, row :: run) :: runs
          else (dict_get row field VNone, [row]) :: (k, run) :: runs
      | [] => [(dict_get row field VNone, [row])]
      end
  end.

(** The position of a band in the order title, pageHeader,
    columnHeader, detail and group content, columnFooter, pageFooter,
    summary.  The placeholder of an empty report stands where the
    content does. *)
Definition band_rank (b : option BandKind) : nat :=
  match b with
  | Some BTitle => 0
  | Some BPageHeader => 1
  | Some BColumnHeader => 2
  | Some BGroupHeader | Some BDetail | Some BGroupFooter | None => 3
  | Some BColumnFooter => 4
  | Some BPageFooter | Some BLastPageFooter => 5
  | Some BSummary => 6
  end.

Definition in_order (rank : option BandKind -> nat)
           (trace : list (option BandKind)) : Prop :=
  StronglySorted (fun a b => (rank a <= rank b)%nat) trace.


(* ------------------------------------------------------------------ *)
(** *** A reference runtime and example reports *)
(* ------------------------------------------------------------------ *)

Module Examples.

(** [int] on a non-empty string of decimal digits. *)
Definition digits_value (s : string) : Z :=
  (fix go (acc : Z) (s : string) : Z :=
     match s with
     | EmptyString => acc
     | String c s' => go (10 * acc + Z.of_nat (nat_of_ascii c - 48))%Z s'
     end) 0%Z s.

Definition int_of_digits (s : string) : option Z :=
  if PyStr.nonempty s && PyStr.all_chars PyStr.is_digit s
  then Some (digits_value s) else None.

(** A template source and the element tree ElementTree returns for
    it (a CDATA section arrives as the text of its element): a query
    in a CDATA section, one field, a detail band that refers to an
    undeclared field, and a group with header and footer bands. *)
Definition sample_source : string :=
  "<jasperReport name='Sample' pageWidth='600'>"
  +++ "<queryString><![CDATA[ SELECT name FROM items ]]></queryString>"
  +++ "<field name='name'/>"
  +++ "<group name='g'><groupExpression>$F{name}</groupExpression>"
  +++ "<groupHeader><band height='12'/></groupHeader>"
  +++ "<groupFooter><band height='14'/></groupFooter></group>"
  +++ "<detail><band height='20'><textField>"
  +++ "<reportElement x='0' y='0' width='100' height='20'/>"
  +++ "<textFieldExpression>$F{missing}</textFieldExpression>"
  +++ "</textField></band></detail></jasperReport>".

Definition sample_tree : Element :=
  mkElement "jasperReport" [("name", "Sample"); ("pageWidth", "600")]
    None
    [mkElement "queryString" []
       (Some " SELECT name FROM items ") [];
     mkElement "field" [("name", "name")] None [];
     mkElement "group" [("name", "g")] None
       [mkElement "groupExpression" [] (Some "$F{name}") [];
        mkElement "groupHeader" [] None
          [mkElement "band" [("height", "12")] None []];
        mkElement "groupFooter" [] None
          [mkElement "band" [("height", "14")] None []]];
     mkElement "detail" [] None
       [mkElement "band" [("height", "20")] None
          [mkElement "textField" [] None
             [mkElement "reportElement"
                [("x", "0"); ("y", "0"); ("width", "100"); ("height", "20")]
                None [];
              mkElement "textFieldExpression" [] (Some "$F{missing}") []]]]].

(** A runtime whose interpreter rejects every source other than a
    lookup call, whose XML parser knows [sample_source] and whose data
    base is unreachable. *)
Definition offline_runtime : Runtime :=
  mkRuntime int_of_digits
            (fun _ => None)
            (fun q => PyStr.of_Z (Qnum q) +++ "/" +++ PyStr.of_Z (Zpos (Qden q)))
            (fun q => PyStr.of_Z (Qnum q) +++ "/" +++ PyStr.of_Z (Zpos (Qden q)))
            (fun _ _ => None)
            (fun s => if String.eqb s sample_source then Ok sample_tree
                      else Raise (BuiltinError "syntax error"))
            (fun _ _ _ => Raise (DatabaseError "Failed to connect to database"))
            (fun _ => false)
            (fun _ => Ok "%PDF").

Definition plain_element (kind : string) (content expression : option string)
  : ReportElement :=
  mkReportElement 0 0 100 20 kind content expression empty_style.

Definition report_with (variables : list Variable_) (groups : list Group)
           (bands : dict Band) (fields : list Field) : ReportDefinition :=
  mkReportDefinition "Report" 595 842 555 20 20 20 20 None fields variables
                     groups bands [].

(** The rows [{k:1},{k:2},{k:1}]. *)
Definition k_rows : list DataRow :=
  [[("k", VInt 1)]; [("k", VInt 2)]; [("k", VInt 1)]].

(** The rows [{g:x,amt:10},{g:x,amt:5},{g:y,amt:7}], a group on [g],
    a sum of [amt] reset at the group and one reset at the report. *)
Definition amt_rows : list DataRow :=
  [[("g", VStr "x"); ("amt", VInt 10)];
   [("g", VStr "x"); ("amt", VInt 5)];
   [("g", VStr "y"); ("amt", VInt 7)]].

Definition group_total : Variable_ :=
  mkVariable "group_total" "java.lang.Integer" "Sum" (Some "$F{amt}") None
             "Group" (Some "g").

Definition report_total : Variable_ :=
  mkVariable "report_total" "java.lang.Integer" "Sum" (Some "$F{amt}") None
             "Report" None.

Definition amt_report (bands : dict Band) : ReportDefinition :=
  report_with [group_total; report_total] [mkGroup "g" "$F{g}" 0 0 []]
              bands [].

Definition amt_renderer (bands : dict Band) (parameters : dict PyValue)
  : BaseRenderer :=
  Base.set_parameters (Base.set_data (Base.new_renderer (amt_report bands))
                                     amt_rows)
                      parameters.


(** A report whose only text field is [$F{missing}] and which
    declares no field. *)
Definition missing_band : Band :=
  mkBand "detail" 20 [plain_element "textField" None (Some "$F{missing}")].

Definition missing_report : JasperReport :=
  mkJasperReport "<jasperReport/>"
                 (report_with [] [] [("detail", missing_band)] [])
                 [] [] None.

(** A report with a query and a data source that cannot be reached. *)
Definition unreachable_report : JasperReport :=
  mkJasperReport "<jasperReport/>"
    (mkReportDefinition "Report" 595 842 555 20 20 20 20
                        (Some "SELECT name FROM items") [] [] [] [] [])
    [] [] (Some (mkDatabaseEngine "sqlite:///reports.db" sqlite)).


End Examples.

(* ------------------------------------------------------------------ *)
(** *** Invariants used by the proofs *)
(* ------------------------------------------------------------------ *)

(** What the content fragments of a rendering may be tagged with. *)
Definition content_band (bands : dict Band) (b : option BandKind) : Prop :=
  match b with
  | None => True
  | Some BColumnHeader => dict_mem bands "columnHeader" = true
  | Some BDetail => dict_mem bands "detail" = true
  | Some BGroupHeader => dict_mem bands "groupHeader" = true
  | Some BGroupFooter => dict_mem bands "groupFooter" = true
  | Some _ => False
  end.

(** A part that is either empty or the one [div] of a band present in
    the template. *)
Definition band_part (bands : dict Band) (kind : BandKind) (fs : list Fragment)
  : Prop :=
  fs = [] \/ (exists html, fs = [mkFragment (Some kind) html])
             /\ dict_mem bands (band_key kind) = true.

(** The fields of a renderer that rendering leaves alone. *)
Definition same_report (a b : BaseRenderer) : Prop :=
  r_report_def a = r_report_def b /\ r_data a = r_data b
  /\ r_parameters a = r_parameters b.

Definition content_fragment (bands : dict Band) (f : Fragment) : Prop :=
  content_band bands (frag_band f).

(** Content fragments: tagged with a content band of the template, the
    column header (if any) first. *)
Definition content_part (bands : dict Band) (fs : list Fragment) : Prop :=
  Forall (content_fragment bands) fs
  /\ in_order band_rank (map frag_band fs).

Definition detail_like (bands : dict Band) (f : Fragment) : Prop :=
  content_fragment bands f /\ band_rank (frag_band f) = 3%nat.



Definition key_of (g : PyValue * list DataRow) : PyKey := py_key (fst g).

Definition with_key (field : string) (k : PyValue) (row : DataRow) : bool :=
  PyKey_eqb (py_key k) (group_key field row).

(** What [groups[key].append(row)] does to one entry when keys are
    distinct. *)
Definition append_to (key : PyValue) (row : DataRow)
           (g : PyValue * list DataRow) : PyValue * list DataRow :=
  if py_eqb (fst g) key then (fst g, snd g ++ [row]) else g.

(** The loop invariant of [group_by]: keys are distinct, each entry
    holds the rows seen so far with its key, and every row seen has an
    entry. *)
Record grouped (field : string) (groups : DataProcessor.Groups)
       (seen : list DataRow) : Prop := {
  keys_distinct : NoDup (map key_of groups);
  rows_of_key : forall g, In g groups -> snd g = filter (with_key field (fst g)) seen;
  keys_cover : forall row, In row seen ->
                           In (group_key field row) (map key_of groups)
}.

(** The variable maps at the successive group footers: each group's
    totals written over the map the previous group left. *)
Fixpoint group_totals `{Runtime} (report_def : ReportDefinition)
         (variables : dict PyValue) (groups : DataProcessor.Groups)
  : list (dict PyValue) :=
  match groups with
  | [] => []
  | g :: rest =>
      let v := sum_totals report_def (snd g) variables in
      v :: group_totals report_def v rest
  end.

(* ================================================================== *)
(** ** database.py: the other aggregates of DataProcessor *)
(* ================================================================== *)

Module Aggregates.

(** The number a value denotes, for the numeric values. *)
Definition py_number (v : PyValue) : option Q :=
  match v with
  | VInt z => Some (inject_Z z)
  | VFloat q => Some q
  | _ => None
  end.

(** [a < b]: numbers by value, strings by code points; a [TypeError]
    for any other pair. *)
Definition py_lt (a b : PyValue) : result bool :=
  match py_number a, py_number b with
  | Some x, Some y => Ok (negb (Qle_bool y x))
  | _, _ =>
      match a, b with
      | VStr s, VStr t => Ok (String.ltb s t)
      | _, _ => Raise (BuiltinError "'<' not supported between instances")
      end
  end.

(** [a > b] *)
Definition py_gt (a b : PyValue) : result bool :=
  match py_number a, py_number b with
  | Some x, Some y => Ok (negb (Qle_bool x y))
  | _, _ =>
      match a, b with
      | VStr s, VStr t => Ok (String.ltb t s)
      | _, _ => Raise (BuiltinError "'>' not supported between instances")
      end
  end.

(** The loop of the builtins [min] and [max]: an item replaces the
    current extreme when it compares strictly beyond it. *)
Fixpoint extreme_loop (beyond : PyValue -> PyValue -> result bool)
         (current : PyValue) (items : list PyValue) : result PyValue :=
  match items with
  | [] => Ok current
  | item :: rest =>
      b <- beyond item current ;;
      extreme_loop beyond (if b then item else current) rest
  end.

(** [v for row in data if (v := row.get(field)) is not None] *)
Definition column (data : list DataRow) (field : string) : list PyValue :=
  flat_map (fun row => match dict_get row field VNone with
                       | VNone => []
                       | v => [v]
                       end) data.

(** [calculate_count] *)
Definition calculate_count (data : list DataRow) : nat := List.length data.

(** [calculate_min]: [None] without data or without values. *)
Definition calculate_min (data : list DataRow) (field : string)
  : result PyValue :=
  match data with
  | [] => Ok VNone
  | _ =>
      match column data field with
      | [] => Ok VNone
      | v :: values => extreme_loop py_lt v values
      end
  end.

(** [calculate_max] *)
Definition calculate_max (data : list DataRow) (field : string)
  : result PyValue :=
  match data with
  | [] => Ok VNone
  | _ =>
      match column data field with
      | [] => Ok VNone
      | v :: values => extreme_loop py_gt v values
      end
  end.

End Aggregates.

(* ------------------------------------------------------------------ *)
(** *** Further invariants used by the proofs *)
(* ------------------------------------------------------------------ *)

(** The rows of all groups, group after group. *)
Definition grouped_rows (groups : DataProcessor.Groups) : list DataRow :=
  concat (map snd groups).

(** Groups that hold the rows seen, each once, and are not empty. *)
Definition partitions (groups : DataProcessor.Groups) (seen : list DataRow)
  : Prop :=
  Permutation (grouped_rows groups) seen
  /\ Forall (fun g => snd g <> []) groups.

(** The key values in the order [group_by] meets them first. *)
Definition seen_key (keys : list PyValue) (key : PyValue) : bool :=
  existsb (fun k => py_eqb k key) keys.

Definition note_key (field : string) (keys : list PyValue) (row : DataRow)
  : list PyValue :=
  let key := dict_get row field VNone in
  if seen_key keys key then keys else keys ++ [key].

Definition first_values (field : string) (data : list DataRow)
  : list PyValue :=
  fold_left (note_key field) data [].

(** The group of a key value: the rows of the data with that key. *)
Definition group_of (field : string) (data : list DataRow) (k : PyValue)
  : PyValue * list DataRow :=
  (k, filter (with_key field k) data).

Definition other_key (k0 k : PyValue) : bool := negb (py_eqb k k0).

(** The number a numeric value denotes, and zero for the others. *)
Definition number_of (v : PyValue) : Q :=
  match Aggregates.py_number v with Some q => q | None => 0 end.

Definition is_number (v : PyValue) : bool :=
  match Aggregates.py_number v with Some _ => true | None => false end.

Definition is_text (v : PyValue) : bool :=
  match v with VStr _ => true | _ => false end.

(** The value [int(root.get(key, default))] has when it has one. *)
Definition attribute_is `{Runtime} (root : Element) (key : string)
           (default z : Z) : Prop :=
  match ET.get root key with
  | Some s => py_int s = Some z
  | None => z = default
  end.

(** The integer attributes [parse] reads from the root element. *)
Definition geometry_keys : list string :=
  ["pageWidth"; "pageHeight"; "columnWidth"; "leftMargin"; "rightMargin";
   "topMargin"; "bottomMargin"].

(** The element of a field declaration [<field name=... class=.../>]. *)
Definition field_element (declaration : string * string) : Element :=
  mkElement "field"
            [("name", fst declaration); ("class", snd declaration)] None [].

(** A band mapping whose keys are distinct and name their bands. *)
Definition well_keyed (bands : dict Band) : Prop :=
  NoDup (dict_keys bands)
  /\ forall k b, In (k, b) bands -> band_name b = k.


(** Whether a connection string names one of the three data bases. *)
Definition supported_scheme (connection : string) : bool :=
  PyStr.startswith "sqlite:///" connection
  || PyStr.startswith "mysql://" connection
  || PyStr.startswith "postgresql://" connection.

Module Samples.

(** A runtime like [Examples.offline_runtime] whose data base answers
    every query with two rows. *)
Definition stock_rows : list DataRow :=
  [[("name", VStr "bolt"); ("qty", VInt 3)];
   [("name", VStr "nut"); ("qty", VInt 5)]].

Definition online_runtime : Runtime :=
  mkRuntime Examples.int_of_digits (fun _ => None)
            (fun _ => EmptyString) (fun _ => EmptyString)
            (fun _ _ => None)
            (fun s => if String.eqb s Examples.sample_source
                      then Ok Examples.sample_tree
                      else Raise (BuiltinError "syntax error"))
            (fun _ _ _ => Ok stock_rows)
            (fun _ => true)
            (fun _ => Ok "%PDF").

Definition stock_engine : DatabaseEngine :=
  mkDatabaseEngine "sqlite:///stock.db" sqlite.

(** A report with a query, a data source and no data bound. *)
Definition stock_report : JasperReport :=
  mkJasperReport "<jasperReport/>"
    (mkReportDefinition "Report" 595 842 555 20 20 20 20
                        (Some "SELECT name, qty FROM stock") [] [] [] [] [])
    [] [] (Some stock_engine).

(** Rows whose price is a number in one and a text in the other. *)
Definition mixed_rows : list DataRow :=
  [[("price", VInt 3)]; [("price", VStr "n/a")]].

(** Three field declarations, a runtime whose XML parser reads every
    source as a root element with these declarations, and the
    template parsed from it. *)
Definition abc_declarations : list (string * string) :=
  [("A", "java.lang.String"); ("B", "java.lang.Integer");
   ("C", "java.math.BigDecimal")].

Definition abc_runtime : Runtime :=
  mkRuntime Examples.int_of_digits (fun _ => None)
            (fun _ => EmptyString) (fun _ => EmptyString)
            (fun _ _ => None)
            (fun _ => Ok (mkElement "jasperReport" [] None
                                    (map field_element abc_declarations)))
            (fun _ _ _ => Ok [])
            (fun _ => true)
            (fun _ => Ok EmptyString).

Definition abc_report : ReportDefinition :=
  mkReportDefinition "Report" 595 842 555 20 20 20 20 None
    (map (fun d => mkField (fst d) (snd d) None) abc_declarations)
    [] [] [] [].

End Samples.

(* ================================================================== *)
(** ** core.py: JasperReport.get_report_info *)
(* ================================================================== *)

(** The dictionary [get_report_info] returns. *)
Record ReportInfo : Type := mkReportInfo {
  info_name : string;
  info_page_width : Z;
  info_page_height : Z;
  info_fields : list (string * string);
  info_variables : list (string * string * string);
  info_groups : list (string * string);
  info_parameters : dict ParameterSpec;
  info_has_query : bool;
  info_bands : list string
}.

Definition get_report_info `{Runtime} (self : JasperReport) : ReportInfo :=
  let rd := report_def self in
  mkReportInfo (rd_name rd) (page_width rd) (page_height rd)
    (map (fun f => (field_name f, field_class_name f)) (rd_fields rd))
    (map (fun v => (var_name v, var_class_name v, var_calculation v))
         (rd_variables rd))
    (map (fun g => (group_name g, group_expression g)) (rd_groups rd))
    (rd_parameters rd)
    (Core.has_query self)
    (dict_keys (rd_bands rd)).

(* ================================================================== *)
(** ** pyjasper_lib_integration.py: PyJasperIntegration *)
(* ================================================================== *)

(** The dictionary [validate_jrxml] returns; [None] is the empty
    [info] of a failed validation. *)
Record JrxmlValidation : Type := mkJrxmlValidation {
  jv_valid : bool;
  jv_issues : list string;
  jv_warnings : list string;
  jv_info : option ReportInfo
}.

Module Integration.
Section WithRuntime.
Context `{Runtime}.

(** [validate_jrxml] *)
Definition validate_jrxml (jrxml_content : string) : JrxmlValidation :=
  match Core.new_report jrxml_content with
  | Ok report =>
      let validation := Core.validate_report report in
      mkJrxmlValidation (valid validation) (issues validation)
                        (warnings validation) (Some (get_report_info report))
  | Raise e =>
      mkJrxmlValidation false ["Validation failed: " +++ exn_str e] [] None
  end.

(** [preview_data]: the rows and the error message. *)
Definition preview_data (jrxml_content connection_string : string)
           (limit : Z) : list DataRow * option string :=
  match (report <- Core.new_report jrxml_content ;;
         if PyStr.nonempty connection_string
         then report <- Core.set_database_connection report
                                                     connection_string ;;
              data <- Core.preview_data report limit ;;
              Ok (data, None)
         else Ok ([], Some "No database connection provided")) with
  | Ok r => r
  | Raise e => ([], Some ("Data preview error: " +++ exn_str e))
  end.

End WithRuntime.
End Integration.


(** The two kinds of element the parser makes. *)
Definition static_kind (e : ReportElement) : Prop :=
  element_type e = "staticText" /\ el_expression e = None.

Definition field_kind (e : ReportElement) : Prop :=
  element_type e = "textField" /\ el_content e = None.

(** Elements with the static texts first and the text fields after. *)
Definition statics_first (elements : list ReportElement) : Prop :=
  exists statics fields,
    elements = statics ++ fields
    /\ Forall static_kind statics /\ Forall field_kind fields.

Definition named (name : string) : Prop := PyStr.nonempty name = true.

(* ------------------------------------------------------------------ *)
(** *** Names, values and runs *)
(* ------------------------------------------------------------------ *)

(** A character a reference name can hold without breaking the lookup
    call written for it: no closing brace, quote, backslash, line
    break, dollar or plus sign. *)
Definition name_char (c : ascii) : bool :=
  no_brace c && no_quote c && plain_char c && no_dollar c && no_plus c.

Definition plain_name (name : string) : bool :=
  PyStr.nonempty name && PyStr.all_chars name_char name.

(** A value [str] converts on every interpreter: an integer of at most
    640 digits (the least limit [sys.set_int_max_str_digits] accepts),
    or a value of another kind. *)
Definition printable (v : PyValue) : Prop :=
  match v with
  | VInt z => (Z.abs z < 10 ^ 640)%Z
  | _ => True
  end.

Definition is_int (v : PyValue) : bool :=
  match v with VInt _ => true | _ => false end.

Definition int_of (v : PyValue) : Z :=
  match v with VInt z => z | _ => 0%Z end.

(** The platform on another run: [eval] and the data base may answer
    differently, every other builtin and library is the same. *)
Definition another_run (R : Runtime)
           (eval' : ExpressionEvaluator -> string -> option PyValue)
           (query' : DatabaseEngine -> string -> dict PyValue
                     -> result (list DataRow))
           (test' : DatabaseEngine -> bool) : Runtime :=
  mkRuntime (@py_int R) (@py_float R) (@float_repr R) (@format_2f R)
            eval' (@ET_fromstring R) query' test' (@pdf_build R).

(** An expression [evaluate] settles without calling [eval]: an empty
    one, one that is a quoted literal once rewritten, or one that is a
    single lookup call once rewritten. *)
Definition decided (expression : string) : bool :=
  negb (PyStr.nonempty expression)
  || is_quoted (rewrite_expression expression)
  || match parse_get (rewrite_expression expression) with
     | Some _ => true
     | None => false
     end.

Definition element_decided (element : ReportElement) : bool :=
  match el_expression element with
  | Some expression => decided expression
  | None => true
  end.

Definition bands_decided (bands : dict Band) : bool :=
  forallb (fun entry => forallb element_decided (band_elements (snd entry)))
          bands.



Module Runs.








(** The rows of [Examples.amt_rows] under two sums of [amt] with
    arbitrary reset scopes. *)
Definition scoped_sum (name reset_type : string) (reset_group : option string)
  : Variable_ :=
  mkVariable name "java.lang.Integer" "Sum" (Some "$F{amt}") None
             reset_type reset_group.

Definition scoped_renderer (type1 type2 : string)
           (group1 group2 : option string)
           (bands : dict Band) (parameters : dict PyValue) : BaseRenderer :=
  Base.set_parameters
    (Base.set_data
       (Base.new_renderer
          (Examples.report_with
             [scoped_sum "group_total" type1 group1;
              scoped_sum "report_total" type2 group2]
             [mkGroup "g" "$F{g}" 0 0 []] bands []))
       Examples.amt_rows)
    parameters.

(** A group footer that shows both sums. *)
Definition totals_footer : Band :=
  mkBand "groupFooter" 20
    [Examples.plain_element "textField" None (Some "$V{group_total}");
     Examples.plain_element "textField" None (Some "$V{report_total}")].

(** [repr] of the sums of these rows, and a runtime that has it. *)
Definition repr_totals (q : Q) : string :=
  if Qeq_bool q 15 then "15.0"
  else if Qeq_bool q 7 then "7.0"
  else if Qeq_bool q 22 then "22.0" else "0.0".

Definition totals_runtime : Runtime :=
  mkRuntime Examples.int_of_digits (fun _ => None)
            repr_totals repr_totals
            (fun _ _ => None)
            (fun _ => Raise (BuiltinError "syntax error"))
            (fun _ _ _ => Raise (DatabaseError "Failed to connect to database"))
            (fun _ => false)
            (fun _ => Ok "%PDF").

End Runs.

(* ------------------------------------------------------------------ *)
(** *** The layout of the HTML document *)
(* ------------------------------------------------------------------ *)



Section Layout.
Context `{Runtime}.






End Layout.

(* ================================================================== *)
(** * Properties *)
(* ================================================================== *)

(** ** Strings *)
Lemma append_empty_r (s : string) : s +++ EmptyString = s.
Proof. induction s as [|c s IH]; simpl; [reflexivity | now rewrite IH]. Qed.

Lemma append_assoc (a b c : string) : (a +++ b) +++ c = a +++ (b +++ c).
Proof. induction a as [|x a IH]; simpl; [reflexivity | now rewrite IH]. Qed.

Lemma length_append (a b : string) :
  String.length (a +++ b) = (String.length a + String.length b)%nat.
Proof. induction a as [|x a IH]; simpl; [reflexivity | now rewrite IH]. Qed.

Lemma substring_all (s : string) : substring 0 (String.length s) s = s.
Proof. induction s as [|c s IH]; simpl; [reflexivity | now rewrite IH]. Qed.

Lemma substring_skip (a b : string) (n : nat) :
  substring (String.length a) n (a +++ b) = substring 0 n b.
Proof. induction a as [|x a IH]; simpl; [reflexivity | exact IH]. Qed.

Lemma substring_prefix (a b : string) :
  substring 0 (String.length a) (a +++ b) = a.
Proof.
  induction a as [|x a IH]; simpl.
  - destruct b; reflexivity.
  - now rewrite IH.
Qed.

Lemma prefix_cons_eq (a b : ascii) (s1 s2 : string) :
  String.prefix (String a s1) (String b s2)
  = if Ascii.eqb a b then String.prefix s1 s2 else false.
Proof.
  cbn [String.prefix]. destruct (ascii_dec a b) as [E|N].
  - subst. now rewrite Ascii.eqb_refl.
  - apply Ascii.eqb_neq in N. now rewrite N.
Qed.

Lemma prefix_append (a b : string) : String.prefix a (a +++ b) = true.
Proof.
  induction a as [|x a IH].
  - destruct b; reflexivity.
  - change (String x a +++ b) with (String x (a +++ b)).
    rewrite prefix_cons_eq. now rewrite Ascii.eqb_refl.
Qed.

Lemma all_chars_append (p : ascii -> bool) (a b : string) :
  PyStr.all_chars p (a +++ b) = PyStr.all_chars p a && PyStr.all_chars p b.
Proof.
  induction a as [|x a IH]; simpl; [reflexivity|].
  rewrite IH. now rewrite andb_assoc.
Qed.

Lemma all_chars_impl (p q : ascii -> bool) (s : string) :
  (forall c, p c = true -> q c = true) ->
  PyStr.all_chars p s = true -> PyStr.all_chars q s = true.
Proof.
  intros Hpq. induction s as [|c s IH]; simpl; [reflexivity|].
  intros H. apply andb_true_iff in H as [Hc Hs].
  rewrite (Hpq _ Hc). simpl. auto.
Qed.

(** ** The reference pattern *)
Lemma match_ref_other_head (x c : ascii) (s : string) :
  Ascii.eqb c "$" = false -> Re.match_ref x (String c s) = None.
Proof.
  intros Hc. destruct s as [|a [|b rest]]; simpl; try reflexivity.
  now rewrite Hc.
Qed.

Lemma match_ref_other_sigil (x y : ascii) (s : string) :
  Ascii.eqb y x = false -> Re.match_ref x (String "$" (String y s)) = None.
Proof.
  intros Hy. destruct s as [|b rest]; simpl; try reflexivity.
  now rewrite Hy.
Qed.

Lemma scan_go_passes (x : ascii) (s : string) (skip : nat) :
  (String.length s <= skip)%nat -> Re.scan_go x skip s = [].
Proof.
  revert skip. induction s as [|c s IH]; intros skip Hlen; simpl in *.
  - reflexivity.
  - destruct skip as [|k]; [lia|]. apply IH. lia.
Qed.

Lemma scan_go_text (x c : ascii) (s : string) :
  Re.match_ref x (String c s) = None ->
  Re.scan_go x 0 (String c s) = Re.Text c :: Re.scan_go x 0 s.
Proof. intros Hm. change (Re.scan_go x 0 (String c s))
  with (match Re.match_ref x (String c s) with
        | Some name => Re.Ref name :: Re.scan_go x (String.length name + 3) s
        | None => Re.Text c :: Re.scan_go x 0 s
        end).
  now rewrite Hm.
Qed.

Lemma sub_text (x c : ascii) (repl : string -> string) (s : string) :
  Re.match_ref x (String c s) = None ->
  Re.sub x repl (String c s) = String c (Re.sub x repl s).
Proof.
  intros Hm. unfold Re.sub, Re.scan. now rewrite (scan_go_text x c s Hm).
Qed.

Lemma sub_no_dollar (x : ascii) (repl : string -> string) (s : string) :
  PyStr.all_chars no_dollar s = true -> Re.sub x repl s = s.
Proof.
  induction s as [|c s IH]; intros Hs.
  - reflexivity.
  - simpl in Hs. apply andb_true_iff in Hs as [Hc Hs].
    unfold no_dollar in Hc. apply negb_true_iff in Hc.
    rewrite (sub_text x c repl s (match_ref_other_head x c s Hc)).
    now rewrite (IH Hs).
Qed.

Lemma sub_other_sigil (x y : ascii) (repl : string -> string) (s : string) :
  Ascii.eqb y x = false -> Ascii.eqb y "$" = false ->
  PyStr.all_chars no_dollar s = true ->
  Re.sub x repl (String "$" (String y s)) = String "$" (String y s).
Proof.
  intros Hy Hd Hs.
  rewrite (sub_text x "$" repl _ (match_ref_other_sigil x y s Hy)).
  rewrite sub_no_dollar; [reflexivity|].
  simpl. unfold no_dollar at 1. now rewrite Hd, Hs.
Qed.

Lemma take_name_closed (name rest : string) :
  PyStr.all_chars no_brace name = true ->
  Re.take_name (name +++ String "}" rest) = Some name.
Proof.
  induction name as [|c n IH]; intros Hn; simpl in *.
  - reflexivity.
  - apply andb_true_iff in Hn as [Hc Hn].
    unfold no_brace in Hc. apply negb_true_iff in Hc.
    rewrite Hc, (IH Hn). reflexivity.
Qed.

Lemma match_ref_reference (x : ascii) (name rest : string) :
  PyStr.nonempty name = true ->
  PyStr.all_chars no_brace name = true ->
  Re.match_ref x (String "$" (String x (String "{" (name +++ String "}" rest))))
  = Some name.
Proof.
  intros Hne Hn. unfold Re.match_ref. rewrite !Ascii.eqb_refl.
  cbn [andb]. rewrite (take_name_closed name rest Hn).
  destruct name; [discriminate | reflexivity].
Qed.

Lemma scan_go_ref (x c : ascii) (s name : string) :
  Re.match_ref x (String c s) = Some name ->
  Re.scan_go x 0 (String c s)
  = Re.Ref name :: Re.scan_go x (String.length name + 3) s.
Proof.
  intros Hm. change (Re.scan_go x 0 (String c s))
  with (match Re.match_ref x (String c s) with
        | Some name => Re.Ref name :: Re.scan_go x (String.length name + 3) s
        | None => Re.Text c :: Re.scan_go x 0 s
        end).
  now rewrite Hm.
Qed.

Lemma sub_reference (x : ascii) (repl : string -> string) (name : string) :
  PyStr.nonempty name = true ->
  PyStr.all_chars no_brace name = true ->
  Re.sub x repl (String "$" (String x (String "{" (name +++ "}"))))
  = repl name.
Proof.
  intros Hne Hn. unfold Re.sub, Re.scan.
  rewrite (scan_go_ref x "$" _ name
             (match_ref_reference x name EmptyString Hne Hn)).
  rewrite scan_go_passes.
  - cbn [fold_right]. apply append_empty_r.
  - cbn [String.length]. rewrite length_append. simpl. lia.
Qed.

(** ** Replacement and the rewriting of expressions *)
Lemma prefix_needs_plus (sp : ascii) (r s : string) :
  PyStr.all_chars no_plus s = true ->
  String.prefix (String sp (String "+" r)) s = false.
Proof.
  intros Hs. destruct s as [|c [|d s']]; try reflexivity.
  - rewrite prefix_cons_eq. destruct (Ascii.eqb sp c); reflexivity.
  - rewrite !prefix_cons_eq. destruct (Ascii.eqb sp c); [|reflexivity].
    destruct (Ascii.eqb "+" d) eqn:E; [|reflexivity].
    apply Ascii.eqb_eq in E. subst d.
    cbn [PyStr.all_chars] in Hs.
    apply andb_true_iff in Hs as [_ Hs]. apply andb_true_iff in Hs as [Hs _].
    discriminate Hs.
Qed.

Lemma all_chars_tail (p : ascii -> bool) (c : ascii) (s : string) :
  PyStr.all_chars p (String c s) = true -> PyStr.all_chars p s = true.
Proof. simpl. intros H. now apply andb_true_iff in H as [_ H]. Qed.

Lemma replace_no_plus (sp : ascii) (r new s : string) :
  PyStr.all_chars no_plus s = true ->
  PyStr.replace (String sp (String "+" r)) new s = s.
Proof.
  unfold PyStr.replace. induction s as [|c s IH]; intros Hs.
  - reflexivity.
  - cbn [PyStr.replace_go]. rewrite (prefix_needs_plus sp r _ Hs).
    now rewrite (IH (all_chars_tail _ _ _ Hs)).
Qed.

Lemma contains_no_plus (sp : ascii) (r s : string) :
  PyStr.all_chars no_plus s = true ->
  PyStr.contains (String sp (String "+" r)) s = false.
Proof.
  induction s as [|c s IH]; intros Hs.
  - reflexivity.
  - cbn [PyStr.contains]. rewrite (prefix_needs_plus sp r _ Hs).
    now rewrite (IH (all_chars_tail _ _ _ Hs)).
Qed.

(** An expression without dollar and plus signs passes the reference
    and concatenation rewrites unchanged. *)
Lemma rewrite_tail_id (s : string) :
  PyStr.all_chars no_dollar s = true ->
  PyStr.all_chars no_plus s = true ->
  (let e := Re.sub "P" (get_call ScParameters)
              (Re.sub "V" (get_call ScVariables)
                 (Re.sub "F" (get_call ScData) s)) in
   let e := PyStr.replace " + " " + str(" e in
   if PyStr.contains " + str(" e
   then PyStr.replace " + str(" ") + str(" e +++ ")" else e) = s.
Proof.
  intros Hd Hp. cbv zeta.
  rewrite (sub_no_dollar "F" _ s Hd), (sub_no_dollar "V" _ s Hd),
    (sub_no_dollar "P" _ s Hd).
  rewrite (replace_no_plus " " " " " + str(" s Hp).
  now rewrite (contains_no_plus " " " str(" s Hp).
Qed.

Lemma rewrite_free_id (e : string) :
  rewrite_free e = true -> rewrite_expression e = e.
Proof.
  unfold rewrite_free. intros H.
  apply andb_true_iff in H as [H Hp]. apply andb_true_iff in H as [Hc Hd].
  apply negb_true_iff in Hc. unfold rewrite_expression. rewrite Hc.
  now apply rewrite_tail_id.
Qed.

(** ** Evaluation *)
Section Evaluate.
Context `{Runtime}.

Lemma evaluate_returns (ev : ExpressionEvaluator) (e : string) :
  exists v, evaluate ev e = Ok v.
Proof.
  unfold evaluate. destruct (negb (PyStr.nonempty e)).
  - now exists EmptyString.
  - destruct (evaluate_try ev (rewrite_expression e)) as [v|x] eqn:E; simpl.
    + now exists v.
    + now exists (rewrite_expression e).
Qed.

End Evaluate.

Lemma strip_prefix_append (p r : string) : strip_prefix p (p +++ r) = Some r.
Proof.
  unfold strip_prefix. rewrite prefix_append, length_append.
  replace (String.length p + String.length r - String.length p)%nat
    with (String.length r) by lia.
  now rewrite substring_skip, substring_all.
Qed.

Lemma until_quote_append (name rest : string) :
  PyStr.all_chars no_quote name = true ->
  until_quote (name +++ String "'" rest) = (name, String "'" rest).
Proof.
  induction name as [|c n IH]; intros Hn.
  - reflexivity.
  - cbn [PyStr.all_chars] in Hn. apply andb_true_iff in Hn as [Hc Hn].
    unfold no_quote in Hc. apply negb_true_iff in Hc.
    cbn [String.append until_quote]. now rewrite Hc, (IH Hn).
Qed.

Lemma parse_get_in_call (sc : Scope) (name : string) :
  PyStr.all_chars no_quote name = true ->
  PyStr.all_chars plain_char name = true ->
  parse_get_in sc (get_call sc name) = Some name.
Proof.
  intros Hq Hp. unfold parse_get_in.
  replace (get_call sc name)
    with (("self." +++ scope_attr sc +++ ".get('") +++ name +++ "', '')")
    by (unfold get_call; now rewrite !append_assoc).
  rewrite strip_prefix_append.
  rewrite (until_quote_append name ", '')" Hq).
  now rewrite Hp.
Qed.

Lemma parse_get_call (sc : Scope) (name : string) :
  PyStr.all_chars no_quote name = true ->
  PyStr.all_chars plain_char name = true ->
  parse_get (get_call sc name) = Some (sc, name).
Proof.
  intros Hq Hp. unfold parse_get.
  destruct sc.
  - now rewrite (parse_get_in_call ScData name Hq Hp).
  - replace (parse_get_in ScData (get_call ScVariables name)) with (@None string)
      by reflexivity.
    now rewrite (parse_get_in_call ScVariables name Hq Hp).
  - replace (parse_get_in ScData (get_call ScParameters name)) with (@None string)
      by reflexivity.
    replace (parse_get_in ScVariables (get_call ScParameters name))
      with (@None string) by reflexivity.
    now rewrite (parse_get_in_call ScParameters name Hq Hp).
Qed.

Lemma get_call_chars (p : ascii -> bool) (sc : Scope) (name : string) :
  PyStr.all_chars p "self.dativrbpm,g(' )" = true ->
  PyStr.all_chars p name = true ->
  PyStr.all_chars p (get_call sc name) = true.
Proof.
  intros Hlit Hn. unfold get_call.
  cbn [PyStr.all_chars] in Hlit.
  repeat match type of Hlit with
         | _ && _ = true => apply andb_true_iff in Hlit as [? Hlit]
         end.
  destruct sc; cbn [scope_attr String.append PyStr.all_chars];
    rewrite all_chars_append, Hn; cbn [PyStr.all_chars];
    repeat match goal with
           | Hc : p ?c = true |- context [p ?c] => rewrite Hc
           end; reflexivity.
Qed.


Lemma for_each_post {A B : Type} (f : A -> result B) (P : B -> Prop) (l : list A) :
  (forall a, exists b, f a = Ok b /\ P b) ->
  exists bs, for_each f l = Ok bs /\ Forall P bs.
Proof.
  intros Hf. induction l as [|a l [bs [Hbs HP]]]; simpl.
  - exists []. split; [reflexivity | constructor].
  - destruct (Hf a) as [b [Hb Pb]]. rewrite Hb. simpl. rewrite Hbs. simpl.
    exists (b :: bs). split; [reflexivity | now constructor].
Qed.

Lemma for_each_returns {A B : Type} (f : A -> result B) (l : list A) :
  (forall a, exists b, f a = Ok b) -> exists bs, for_each f l = Ok bs.
Proof.
  intros Hf. destruct (for_each_post f (fun _ => True) l) as [bs [Hbs _]].
  - intros a. destruct (Hf a) as [b Hb]. now exists b.
  - now exists bs.
Qed.

Section HtmlBands.
Context `{Runtime}.
Import HTMLRenderer.

Lemma render_element_returns self element row_data evaluator :
  exists s, _render_element self element row_data evaluator = Ok s.
Proof.
  unfold _render_element.
  set (ev := match evaluator with Some ev => Some ev | None => _ end).
  destruct (if String.eqb (element_type element) "staticText"
            then truthy (el_content element) else None) as [c|].
  - simpl. eauto.
  - destruct (if String.eqb (element_type element) "textField"
              then truthy (el_expression element) else None) as [e|].
    + destruct ev as [ev'|].
      * destruct (evaluate_returns ev' e) as [v Hv]. rewrite Hv. simpl. eauto.
      * simpl. eauto.
    + simpl. eauto.
Qed.

Lemma band_div_returns self kind css band row_data evaluator :
  exists html,
    band_div self kind css band row_data evaluator
    = Ok (mkFragment (Some kind) html).
Proof.
  unfold band_div.
  destruct (for_each_returns
              (fun element => _render_element self element row_data evaluator)
              (band_elements band)) as [parts Hparts].
  - intros a. apply render_element_returns.
  - rewrite Hparts. simpl. eauto.
Qed.

Lemma lookup_mem {V : Type} (d : dict V) (k : string) (v : V) :
  dict_lookup d k = Some v -> dict_mem d k = true.
Proof. unfold dict_mem. now intros ->. Qed.

Lemma render_title_part self :
  exists fs, _render_title self = Ok fs /\ band_part (bands self) BTitle fs.
Proof.
  unfold _render_title.
  destruct (dict_lookup (bands self) "title") as [b|] eqn:E.
  - destruct (band_div_returns self BTitle "band title-band" b [] None)
      as [html Hd].
    rewrite Hd. simpl. eexists. split; [reflexivity|]. right.
    split; [eauto | exact (lookup_mem _ _ _ E)].
  - exists []. split; [reflexivity | now left].
Qed.

Lemma render_page_header_part self :
  exists fs, _render_page_header self = Ok fs
             /\ band_part (bands self) BPageHeader fs.
Proof.
  unfold _render_page_header.
  destruct (dict_lookup (bands self) "pageHeader") as [b|] eqn:E.
  - destruct (band_div_returns self BPageHeader "band page-header" b [] None)
      as [html Hd].
    rewrite Hd. simpl. eexists. split; [reflexivity|]. right.
    split; [eauto | exact (lookup_mem _ _ _ E)].
  - exists []. split; [reflexivity | now left].
Qed.

Lemma render_page_footer_part self :
  exists fs, _render_page_footer self = Ok fs
             /\ band_part (bands self) BPageFooter fs.
Proof.
  unfold _render_page_footer.
  destruct (dict_lookup (bands self) "pageFooter") as [b|] eqn:E.
  - match goal with
    | |- context [band_div ?s ?k ?c ?b ?r ?e] =>
        destruct (band_div_returns s k c b r e) as [html Hd]
    end.
    rewrite Hd. simpl. eexists. split; [reflexivity|]. right.
    split; [eauto | exact (lookup_mem _ _ _ E)].
  - exists []. split; [reflexivity | now left].
Qed.

Lemma same_report_refl a : same_report a a.
Proof. repeat split. Qed.

Lemma same_report_variables a v : same_report a (Base.set_variables a v).
Proof. repeat split. Qed.

Lemma same_report_trans a b c :
  same_report a b -> same_report b c -> same_report a c.
Proof.
  intros (H1 & H2 & H3) (H4 & H5 & H6).
  repeat split; congruence.
Qed.


Lemma render_detail_row_part self row :
  exists fs, _render_detail_row self row = Ok fs
             /\ Forall (fun f => frag_band f = Some BDetail
                                 /\ dict_mem (bands self) "detail" = true) fs.
Proof.
  unfold _render_detail_row.
  destruct (dict_lookup (bands self) "detail") as [b|] eqn:E.
  - match goal with
    | |- context [band_div ?s ?k ?c ?b ?r ?e] =>
        destruct (band_div_returns s k c b r e) as [html Hd]
    end.
    rewrite Hd. simpl. eexists. split; [reflexivity|].
    constructor; [|constructor]. split; [reflexivity | exact (lookup_mem _ _ _ E)].
  - exists []. split; [reflexivity | constructor].
Qed.

Lemma Forall_concat {A : Type} (P : A -> Prop) (ls : list (list A)) :
  Forall (Forall P) ls -> Forall P (concat ls).
Proof.
  induction 1 as [|l ls Hl _ IH]; simpl; [constructor|].
  apply Forall_app. now split.
Qed.

Lemma render_detail_rows self rows :
  exists fss, for_each (_render_detail_row self) rows = Ok fss
              /\ Forall (fun f => frag_band f = Some BDetail
                                  /\ dict_mem (bands self) "detail" = true)
                        (concat fss).
Proof.
  destruct (for_each_post (_render_detail_row self)
              (Forall (fun f => frag_band f = Some BDetail
                                /\ dict_mem (bands self) "detail" = true))
              rows) as [fss [Hf HP]].
  - intros row. apply render_detail_row_part.
  - exists fss. split; [exact Hf | now apply Forall_concat].
Qed.

End HtmlBands.


Section HtmlContent.
Context `{Runtime}.
Import HTMLRenderer.

Lemma in_order_const (n : nat) (l : list (option BandKind)) :
  Forall (fun b => band_rank b = n) l -> in_order band_rank l.
Proof.
  unfold in_order. induction 1 as [|b l Hb Hl IH]; constructor.
  - exact IH.
  - eapply Forall_impl; [|exact Hl]. intros a Ha. cbv beta in *. lia.
Qed.


Lemma detail_like_part bands fs :
  Forall (detail_like bands) fs -> content_part bands fs.
Proof.
  intros Hf. split.
  - eapply Forall_impl; [|exact Hf]. now intros f [Hc _].
  - apply (in_order_const 3). apply Forall_map.
    eapply Forall_impl; [|exact Hf]. now intros f [_ Hr].
Qed.

Lemma detail_rows_like self fs :
  Forall (fun f => frag_band f = Some BDetail
                   /\ dict_mem (bands self) "detail" = true) fs ->
  Forall (detail_like (bands self)) fs.
Proof.
  apply Forall_impl. intros f [Hb Hm]. unfold detail_like, content_fragment.
  rewrite Hb. now split.
Qed.

Lemma render_simple_content_part self :
  exists fs, _render_simple_content self = Ok fs
             /\ content_part (bands self) fs.
Proof.
  unfold _render_simple_content.
  destruct (render_detail_rows self (r_data self)) as [fss [Hrows Hall]].
  apply detail_rows_like in Hall. destruct (detail_like_part _ _ Hall) as [Hc Ho].
  destruct (dict_lookup (bands self) "columnHeader") as [b|] eqn:E.
  - unfold _render_column_header.
    destruct (band_div_returns self BColumnHeader "band" b [] None)
      as [html Hd].
    rewrite Hd. simpl. rewrite Hrows. simpl.
    eexists. split; [reflexivity|]. split.
    + constructor; [|exact Hc]. exact (lookup_mem _ _ _ E).
    + simpl. constructor; [exact Ho|].
      apply Forall_map. eapply Forall_impl; [|exact Hall].
      intros f [_ Hr]. simpl. cbv beta. rewrite Hr. simpl. lia.
  - simpl. rewrite Hrows. simpl. eexists. split; [reflexivity|].
    now split.
Qed.

(** A group's rendering consists of group-header, detail and
    group-footer fragments of bands the template has, and leaves the
    variables as the group totals set them. *)
Lemma render_group_part self group_field group :
  exists r,
    _render_group self group_field group
    = Ok (r, Base.set_variables self
               (sum_totals (r_report_def self) (snd group) (r_variables self)))
    /\ Forall (detail_like (bands self)) (gr_fragments r)
    /\ gr_value r = fst group
    /\ gr_footer_variables r
       = sum_totals (r_report_def self) (snd group) (r_variables self).
Proof.
  destruct group as [group_value group_rows]. unfold _render_group.
  cbn [fst snd].
  destruct (render_detail_rows self group_rows) as [fss [Hrows Hall]].
  apply detail_rows_like in Hall.
  assert (Hhead : exists hs,
             match dict_lookup (bands self) "groupHeader" with
             | Some group_header_band =>
                 f <- band_div self BGroupHeader "band" group_header_band
                        [(group_field, group_value)]
                        (Some (mkEvaluator [(group_field, group_value)]
                                 (r_variables self) (r_parameters self))) ;;
                 Ok [f]
             | None => Ok []
             end = Ok hs /\ Forall (detail_like (bands self)) hs).
  { destruct (dict_lookup (bands self) "groupHeader") as [b|] eqn:E.
    - match goal with
      | |- context [band_div ?s ?k ?c ?b ?r ?e] =>
          destruct (band_div_returns s k c b r e) as [html Hd]
      end.
      rewrite Hd. simpl. eexists. split; [reflexivity|].
      constructor; [|constructor]. split; [|reflexivity].
      exact (lookup_mem _ _ _ E).
    - exists []. split; [reflexivity | constructor]. }
  destruct Hhead as [hs [Hhs Hhall]]. rewrite Hhs. cbn [bind].
  rewrite Hrows. cbn [bind].
  set (self' := Base.set_variables self _).
  change (bands self') with (bands self).
  assert (Hfoot : exists ft,
             match dict_lookup (bands self) "groupFooter" with
             | Some group_footer_band =>
                 f <- band_div self' BGroupFooter "band" group_footer_band []
                        (Some (mkEvaluator [] (r_variables self')
                                 (r_parameters self'))) ;;
                 Ok [f]
             | None => Ok []
             end = Ok ft /\ Forall (detail_like (bands self)) ft).
  { destruct (dict_lookup (bands self) "groupFooter") as [b|] eqn:E.
    - match goal with
      | |- context [band_div ?s ?k ?c ?b ?r ?e] =>
          destruct (band_div_returns s k c b r e) as [html Hd]
      end.
      rewrite Hd. simpl. eexists. split; [reflexivity|].
      constructor; [|constructor]. split; [|reflexivity].
      exact (lookup_mem _ _ _ E).
    - exists []. split; [reflexivity | constructor]. }
  destruct Hfoot as [ft [Hft Hfall]]. rewrite Hft. cbn [bind].
  eexists. split; [reflexivity|]. cbn [gr_fragments gr_value gr_footer_variables].
  split; [|split; reflexivity].
  apply Forall_app. split; [exact Hhall|].
  apply Forall_app. split; [exact Hall | exact Hfall].
Qed.

Lemma render_groups_part group_field groups : forall self,
  exists rs self',
    _render_groups self group_field groups = Ok (rs, self')
    /\ same_report self self'
    /\ Forall (detail_like (bands self)) (flat_map gr_fragments rs)
    /\ map gr_value rs = map fst groups.
Proof.
  induction groups as [|g groups IH]; intros self; cbn [_render_groups].
  - exists [], self. repeat split; constructor.
  - destruct (render_group_part self group_field g) as (r & Hr & Hall & Hv & _).
    rewrite Hr. cbn [bind].
    set (self1 := Base.set_variables self _).
    destruct (IH self1) as (rs & self' & Hrs & Hsame & Hall' & Hvs).
    rewrite Hrs. cbn [bind].
    exists (r :: rs), self'. split; [reflexivity|]. split; [|split].
    + eapply same_report_trans; [apply same_report_variables | exact Hsame].
    + cbn [flat_map]. apply Forall_app. split; [exact Hall | exact Hall'].
    + cbn [map]. now rewrite Hv, Hvs.
Qed.

Lemma render_grouped_content_part self :
  rd_groups (r_report_def self) <> [] ->
  exists fs self', _render_grouped_content self = Ok (fs, self')
                   /\ same_report self self'
                   /\ content_part (bands self) fs.
Proof.
  intros Hg. unfold _render_grouped_content, grouped_renderings.
  destruct (rd_groups (r_report_def self)) as [|group rest]; [now elim Hg|].
  destruct (Re.search "F" (group_expression group)) as [group_field|].
  - destruct (render_groups_part group_field
                (DataProcessor.group_by (r_data self) group_field) self)
      as (rs & self' & Hrs & Hsame & Hall & _).
    rewrite Hrs. cbn [bind].
    exists (flat_map gr_fragments rs), self'. split; [reflexivity|].
    split; [exact Hsame | now apply detail_like_part].
  - cbn [bind]. destruct (render_simple_content_part self) as [fs [Hfs Hp]].
    rewrite Hfs. cbn [bind]. exists fs, self. split; [reflexivity|].
    split; [apply same_report_refl | exact Hp].
Qed.

Lemma render_content_part self :
  exists fs self', _render_content self = Ok (fs, self')
                   /\ same_report self self'
                   /\ content_part (bands self) fs.
Proof.
  unfold _render_content. destruct (r_data self) as [|row rows] eqn:Ed.
  - do 2 eexists. split; [reflexivity|]. split; [apply same_report_refl|].
    split.
    + constructor; [exact I | constructor].
    + repeat constructor.
  - destruct (rd_groups (r_report_def self)) as [|group rest] eqn:Eg.
    + destruct (render_simple_content_part self) as [fs [Hfs Hp]].
      rewrite Hfs. cbn [bind]. exists fs, self.
      split; [reflexivity|]. split; [apply same_report_refl | exact Hp].
    + apply render_grouped_content_part. now rewrite Eg.
Qed.

Lemma bands_same a b : same_report a b -> bands a = bands b.
Proof. intros [Hr _]. unfold bands. now rewrite Hr. Qed.


End HtmlContent.





Section Order.
Context `{Runtime}.


End Order.


Lemma PyKey_eqb_eq (a b : PyKey) : PyKey_eqb a b = true <-> a = b.
Proof.
  destruct a as [|n d|s], b as [|n' d'|s']; simpl; split; intros E;
    try discriminate; try reflexivity.
  - apply andb_true_iff in E as [E1 E2].
    apply Z.eqb_eq in E1, E2. now subst.
  - injection E as -> ->. now rewrite !Z.eqb_refl.
  - apply String.eqb_eq in E. now subst.
  - injection E as ->. apply String.eqb_refl.
Qed.

Lemma PyKey_eqb_refl (a : PyKey) : PyKey_eqb a a = true.
Proof. now apply PyKey_eqb_eq. Qed.

Lemma NoDup_snoc {A : Type} (l : list A) (a : A) :
  NoDup l -> ~ In a l -> NoDup (l ++ [a]).
Proof.
  induction 1 as [|b l Hb Hl IH]; intros Ha; simpl.
  - constructor; [intros [] | constructor].
  - constructor.
    + intros Hin. apply in_app_or in Hin as [Hin | [E | []]]; [now apply Hb|].
      subst. apply Ha. now left.
    + apply IH. intros Hin. apply Ha. now right.
Qed.

Section Grouping.
Import DataProcessor.
Variable field : string.

Lemma groups_mem_in (groups : Groups) (key : PyValue) :
  groups_mem groups key = true <-> In (py_key key) (map key_of groups).
Proof.
  unfold groups_mem. rewrite existsb_exists. split.
  - intros [g [Hg E]]. apply PyKey_eqb_eq in E. rewrite <- E.
    exact (in_map key_of groups g Hg).
  - intros Hin. apply in_map_iff in Hin as [g [E Hg]].
    exists g. split; [exact Hg|]. unfold py_eqb. apply PyKey_eqb_eq. exact E.
Qed.

Lemma append_to_absent (groups : Groups) (key : PyValue) (row : DataRow) :
  ~ In (py_key key) (map key_of groups) ->
  map (append_to key row) groups = groups.
Proof.
  induction groups as [|g groups IH]; intros Hn; [reflexivity|].
  cbn [map]. rewrite IH by (intros Hin; apply Hn; now right).
  unfold append_to. destruct (py_eqb (fst g) key) eqn:E; [|reflexivity].
  apply PyKey_eqb_eq in E. elim Hn. left. exact E.
Qed.

Lemma groups_append_map (groups : Groups) (key : PyValue) (row : DataRow) :
  NoDup (map key_of groups) ->
  groups_append groups key row = map (append_to key row) groups.
Proof.
  induction groups as [|[k rows] groups IH]; intros Hnd; [reflexivity|].
  cbn [map key_of fst] in Hnd. apply NoDup_cons_iff in Hnd as [Hk Hnd].
  cbn [groups_append map]. unfold append_to at 1. cbn [fst snd].
  destruct (py_eqb k key) eqn:E.
  - apply PyKey_eqb_eq in E. rewrite append_to_absent; [reflexivity|].
    now rewrite <- E.
  - now rewrite (IH Hnd).
Qed.

Lemma key_of_append_to key row g : key_of (append_to key row g) = key_of g.
Proof. unfold append_to. now destruct (py_eqb (fst g) key). Qed.

Lemma keys_append_to key row groups :
  map key_of (map (append_to key row) groups) = map key_of groups.
Proof.
  rewrite map_map. apply map_ext. intros g. apply key_of_append_to.
Qed.

Lemma filter_absent (k : PyValue) (groups : Groups) (seen : list DataRow) :
  (forall row, In row seen -> In (group_key field row) (map key_of groups)) ->
  ~ In (py_key k) (map key_of groups) ->
  filter (with_key field k) seen = [].
Proof.
  intros Hcover Hk. induction seen as [|r seen IH]; [reflexivity|].
  cbn [filter]. destruct (with_key field k r) eqn:E.
  - apply PyKey_eqb_eq in E. elim Hk. rewrite E. apply Hcover. now left.
  - apply IH. intros row Hr. apply Hcover. now right.
Qed.

Lemma grouped_step (groups : Groups) (seen : list DataRow) (row : DataRow) :
  grouped field groups seen ->
  grouped field (group_by_step field groups row) (seen ++ [row]).
Proof.
  intros [Hnd Hrows Hcover]. unfold group_by_step.
  set (key := dict_get row field VNone).
  assert (Hkey : group_key field row = py_key key) by reflexivity.
  clearbody key.
  set (groups1 := if negb (groups_mem groups key)
                  then groups ++ [(key, [])] else groups).
  assert (Hnd1 : NoDup (map key_of groups1)).
  { unfold groups1. destruct (groups_mem groups key) eqn:Em; [exact Hnd|].
    cbn [negb]. rewrite map_app. apply NoDup_snoc; [exact Hnd|].
    intros Hin. apply groups_mem_in in Hin. cbn [fst] in Hin. congruence. }
  assert (Hin1 : In (py_key key) (map key_of groups1)).
  { unfold groups1. destruct (groups_mem groups key) eqn:Em.
    - now apply groups_mem_in.
    - cbn [negb]. rewrite map_app. apply in_or_app. right. now left. }
  assert (Hsub : forall k, In k (map key_of groups) -> In k (map key_of groups1)).
  { intros k Hk. unfold groups1. destruct (negb (groups_mem groups key));
      [|exact Hk]. rewrite map_app. apply in_or_app. now left. }
  assert (Hrows1 : forall g, In g groups1 ->
                             snd g = filter (with_key field (fst g)) seen).
  { intros g Hg. unfold groups1 in Hg.
    destruct (groups_mem groups key) eqn:Em; cbn [negb] in Hg;
      [now apply Hrows|].
    apply in_app_or in Hg as [Hg | [<- | []]]; [now apply Hrows|].
    cbn [fst snd]. symmetry. apply (filter_absent key groups seen Hcover).
    intros Hin. apply groups_mem_in in Hin. congruence. }
  rewrite (groups_append_map groups1 key row Hnd1).
  constructor.
  - now rewrite keys_append_to.
  - intros g' Hg'. apply in_map_iff in Hg' as [g [<- Hg]].
    rewrite filter_app. cbn [filter]. unfold append_to.
    unfold with_key at 2. rewrite Hkey.
    unfold py_eqb. destruct (PyKey_eqb (py_key (fst g)) (py_key key)) eqn:E;
      cbn [fst snd].
    + rewrite E. now rewrite (Hrows1 g Hg).
    + rewrite E. rewrite app_nil_r. exact (Hrows1 g Hg).
  - intros r Hr. rewrite keys_append_to.
    apply in_app_or in Hr as [Hr | [<- | []]].
    + apply Hsub. now apply Hcover.
    + rewrite Hkey. exact Hin1.
Qed.

Lemma grouped_fold (rest : list DataRow) : forall groups seen,
  grouped field groups seen ->
  grouped field (fold_left (group_by_step field) rest groups) (seen ++ rest).
Proof.
  induction rest as [|row rest IH]; intros groups seen Hg.
  - now rewrite app_nil_r.
  - cbn [fold_left].
    replace (seen ++ row :: rest) with ((seen ++ [row]) ++ rest)
      by now rewrite <- app_assoc.
    apply IH. now apply grouped_step.
Qed.

Lemma group_by_grouped (data : list DataRow) :
  grouped field (group_by data field) data.
Proof.
  apply (grouped_fold data [] []). constructor.
  - constructor.
  - intros g [].
  - intros row [].
Qed.

End Grouping.


Lemma bind_ok {A B : Type} (r : result A) (k : A -> result B) (b : B) :
  bind r k = Ok b -> exists a, r = Ok a /\ k a = Ok b.
Proof. destruct r as [a|e]; simpl; [eauto | discriminate]. Qed.

Ltac invert_bind H :=
  let a := fresh "a" in
  let Ha := fresh "Ha" in
  apply bind_ok in H as [a [Ha H]].

Lemma dict_keys_set {V : Type} (d : dict V) (k k' : string) (v : V) :
  In k' (dict_keys (dict_set d k v)) -> k' = k \/ In k' (dict_keys d).
Proof.
  induction d as [|[k0 v0] d IH]; simpl.
  - intros [E | []]. now left.
  - destruct (String.eqb k0 k); simpl; intros [E | Hin]; auto.
    destruct (IH Hin); auto.
Qed.


Section Parser.
Context `{Runtime}.
Import JRXMLParser.




(** What a successful [parse] stored. *)
Lemma parse_stored content rd :
  parse content = Ok rd ->
  exists root ns bands,
    ET_fromstring content = Ok root
    /\ detect_namespace root = Ok ns
    /\ _parse_bands ns root = Ok bands
    /\ rd_bands rd = bands
    /\ rd_query rd = _parse_query ns root
    /\ rd_fields rd = _parse_fields ns root.
Proof.
  unfold parse. destruct (ET_fromstring content) as [root|e]; [|discriminate].
  destruct (parse_root root) as [rd'|e] eqn:E; cbn [try_except];
    [|discriminate].
  intros Hrd. injection Hrd as ->. unfold parse_root in E.
  invert_bind E. repeat invert_bind E. injection E as <-.
  exists root, a. eexists. repeat split; eassumption || reflexivity.
Qed.

End Parser.

(** ** The CDATA wrapper *)
Lemma is_cdata_wrapped (inner : string) :
  is_cdata (cdata_open +++ inner +++ cdata_close) = true.
Proof.
  unfold is_cdata, PyStr.startswith, PyStr.endswith.
  rewrite prefix_append. cbn [andb].
  replace (cdata_open +++ inner +++ cdata_close)
    with ((cdata_open +++ inner) +++ cdata_close) by apply append_assoc.
  rewrite length_append. apply andb_true_iff. split.
  - apply Nat.leb_le. lia.
  - replace (String.length (cdata_open +++ inner) + String.length cdata_close
             - String.length cdata_close)%nat
      with (String.length (cdata_open +++ inner)) by lia.
    rewrite substring_skip. reflexivity.
Qed.

Lemma slice_wrapped (inner : string) :
  PyStr.slice 9 3 (cdata_open +++ inner +++ cdata_close) = inner.
Proof.
  unfold PyStr.slice. rewrite !length_append.
  change (String.length cdata_open) with 9%nat.
  change (String.length cdata_close) with 3%nat.
  replace (9 + (String.length inner + 3) - 3 - 9)%nat
    with (String.length inner) by lia.
  change 9%nat with (String.length cdata_open) at 1.
  rewrite substring_skip. apply substring_prefix.
Qed.

Lemma strip_nonempty (text : string) :
  PyStr.nonempty (PyStr.strip text) = true -> PyStr.nonempty text = true.
Proof. destruct text; [discriminate | reflexivity]. Qed.

Section Query.
Context `{Runtime}.
Import JRXMLParser.

Lemma parse_query_cdata ns root query_elem text inner :
  find_desc_ns ns "queryString" root = Some query_elem ->
  elem_text query_elem = Some text ->
  PyStr.strip text = cdata_open +++ inner +++ cdata_close ->
  _parse_query ns root = Some (PyStr.strip inner).
Proof.
  intros Hfind Htext Hstrip. unfold _parse_query. rewrite Hfind.
  unfold ET.truthy_text. rewrite Htext.
  rewrite (strip_nonempty text) by (rewrite Hstrip; reflexivity).
  rewrite Hstrip, is_cdata_wrapped, slice_wrapped. reflexivity.
Qed.

End Query.

(** ** Validation *)
Lemma contains_prefix (n s : string) :
  String.prefix n s = true -> PyStr.contains n s = true.
Proof. intros Hp. destruct s; cbn [PyStr.contains]; now rewrite Hp. Qed.

Lemma contains_after (n a s : string) :
  PyStr.contains n s = true -> PyStr.contains n (a +++ s) = true.
Proof.
  intros Hc. induction a as [|c a IH]; [exact Hc|].
  cbn [String.append PyStr.contains]. rewrite IH. apply orb_true_r.
Qed.

Lemma issue_mentions (name : string) :
  PyStr.contains name (Core.undefined_field_issue name) = true.
Proof.
  unfold Core.undefined_field_issue. apply contains_after.
  apply contains_prefix. apply prefix_append.
Qed.

Section Validate.
Context `{Runtime}.
Import Core.

Lemma reference_issue_reported self band element expression name :
  In band (dict_values (rd_bands (report_def self))) ->
  In element (band_elements band) ->
  el_expression element = Some expression ->
  In name (Re.findall "F" expression) ->
  field_defined self name = false ->
  In (undefined_field_issue name) (reference_issues self).
Proof.
  intros Hband Hel Hexpr Hname Hundef. unfold reference_issues.
  apply in_flat_map. exists band. split; [exact Hband|].
  apply in_flat_map. exists element. split; [exact Hel|].
  unfold element_issues, truthy. rewrite Hexpr.
  destruct expression as [|c e]; [destruct Hname|]. cbn [PyStr.nonempty].
  apply in_flat_map. exists name. split; [exact Hname|].
  rewrite Hundef. now left.
Qed.

Lemma validate_issues self :
  exists pre post db,
    issues (validate_report self) = pre ++ reference_issues self ++ post
    /\ valid (validate_report self)
       = is_nil (pre ++ reference_issues self ++ post)
    /\ db = database_status (validate_report self).
Proof.
  unfold validate_report.
  destruct (database_engine self) as [engine|];
    [destruct (engine_test_connection engine)|];
    do 3 eexists; cbn [issues valid database_status];
    repeat split; reflexivity.
Qed.

End Validate.


Lemma dict_lookup_set {V : Type} (d : dict V) (k : string) (v : V) :
  dict_lookup (dict_set d k v) k = Some v.
Proof.
  induction d as [|[k0 v0] d IH]; simpl.
  - now rewrite String.eqb_refl.
  - destruct (String.eqb k0 k) eqn:E; simpl; rewrite E; [reflexivity | exact IH].
Qed.

Lemma dict_lookup_set_other {V : Type} (d : dict V) (k k' : string) (v : V) :
  String.eqb k k' = false ->
  dict_lookup (dict_set d k v) k' = dict_lookup d k'.
Proof.
  intros Hk. induction d as [|[k0 v0] d IH]; simpl.
  - now rewrite Hk.
  - destruct (String.eqb k0 k) eqn:E; simpl.
    + apply String.eqb_eq in E. subst k0. now rewrite Hk.
    + now rewrite IH.
Qed.

Section Totals.
Context `{Runtime}.
Import HTMLRenderer.

Lemma render_groups_footers group_field groups : forall self,
  exists rs self',
    _render_groups self group_field groups = Ok (rs, self')
    /\ map gr_footer_variables rs
       = group_totals (r_report_def self) (r_variables self) groups.
Proof.
  induction groups as [|g groups IH]; intros self; cbn [_render_groups].
  - exists [], self. split; reflexivity.
  - destruct (render_group_part self group_field g) as (r & Hr & _ & _ & Hv).
    rewrite Hr. cbn [bind].
    set (self1 := Base.set_variables self _).
    destruct (IH self1) as (rs & self' & Hrs & Hvs).
    rewrite Hrs. cbn [bind]. exists (r :: rs), self'.
    split; [reflexivity|]. cbn [map group_totals]. now rewrite Hv, Hvs.
Qed.

Lemma render_summary_totals self summary_band :
  dict_lookup (bands self) "summary" = Some summary_band ->
  exists fs,
    _render_summary self
    = Ok (fs, Base.set_variables self
                (sum_totals (r_report_def self) (r_data self)
                            (r_variables self))).
Proof.
  intros Hb. unfold _render_summary. rewrite Hb.
  match goal with
  | |- context [band_div ?s ?k ?c ?b ?r ?e] =>
      destruct (band_div_returns s k c b r e) as [html Hd]
  end.
  rewrite Hd. cbn [bind]. eauto.
Qed.

Lemma generate_parts_totals self summary_band :
  dict_lookup (bands self) "summary" = Some summary_band ->
  exists p self' vars,
    _generate_parts self = Ok (p, self')
    /\ r_variables self'
       = sum_totals (r_report_def self) (r_data self) vars.
Proof.
  intros Hb. unfold _generate_parts.
  destruct (render_title_part self) as (t & Ht & _). rewrite Ht. cbn [bind].
  destruct (render_page_header_part self) as (ph & Hph & _).
  rewrite Hph. cbn [bind].
  destruct (render_content_part self) as (c & self1 & Hc & S1 & _).
  rewrite Hc. cbn [bind].
  destruct (render_page_footer_part self1) as (pf & Hpf & _).
  rewrite Hpf. cbn [bind].
  rewrite (bands_same _ _ S1) in Hb.
  destruct (render_summary_totals self1 summary_band Hb) as [s Hs].
  rewrite Hs. cbn [bind]. destruct S1 as (E1 & E2 & E3).
  do 2 eexists. exists (r_variables self1). split; [reflexivity|].
  cbn [Base.set_variables r_variables]. now rewrite E1, E2.
Qed.

End Totals.


Lemma is_nil_app_false {A : Type} (pre l post : list A) (a : A) :
  In a l -> Core.is_nil (pre ++ l ++ post) = false.
Proof.
  intros Hin. destruct pre; [|reflexivity]. destruct l; [destruct Hin|].
  reflexivity.
Qed.

(** C6: every [$F{name}] token in the expression of an element of a
    band of the template whose name is not a declared field makes
    [validate_report] return [valid = false] with an issue that
    mentions the name; so does a template whose only text field is
    [$F{missing}] with no field [missing]. *)
Theorem C6_undeclared_field_reported `{Runtime}
        (self : JasperReport) (band : Band) (element : ReportElement)
        (expression name : string) :
  In band (dict_values (rd_bands (report_def self))) ->
  In element (band_elements band) ->
  el_expression element = Some expression ->
  In name (Re.findall "F" expression) ->
  Core.field_defined self name = false ->
  valid (Core.validate_report self) = false
  /\ In (Core.undefined_field_issue name) (issues (Core.validate_report self))
  /\ PyStr.contains name (Core.undefined_field_issue name) = true.
Proof.
  intros Hband Hel Hexpr Hname Hundef.
  pose proof (reference_issue_reported self band element expression name
                Hband Hel Hexpr Hname Hundef) as Hin.
  destruct (validate_issues self) as (pre & post & db & Hi & Hv & _).
  split; [|split].
  - rewrite Hv. exact (is_nil_app_false pre _ post _ Hin).
  - rewrite Hi. apply in_or_app. right. apply in_or_app. now left.
  - apply issue_mentions.
Qed.

Lemma C6_witness :
  valid (@Core.validate_report Examples.offline_runtime
           Examples.missing_report) = false
  /\ In "Referenced field 'missing' not defined"
        (issues (@Core.validate_report Examples.offline_runtime
                   Examples.missing_report))
  /\ PyStr.contains "missing" "Referenced field 'missing' not defined" = true.
Proof.
  apply (@C6_undeclared_field_reported Examples.offline_runtime
           Examples.missing_report Examples.missing_band
           (Examples.plain_element "textField" None (Some "$F{missing}"))
           "$F{missing}" "missing").
  - left. reflexivity.
  - left. reflexivity.
  - reflexivity.
  - left. reflexivity.
  - reflexivity.
Defined.





(** C8: when a report has a query and a data source and no data bound
    (so that the preview runs the query), and running the preview
    query fails, [preview_data] returns the empty list and does not
    raise. *)
Theorem C8_preview_failure_is_empty `{Runtime}
        (self : JasperReport) (limit : Z) (engine : DatabaseEngine)
        (query : string) (e : exn) :
  data self = [] ->
  database_engine self = Some engine ->
  truthy (rd_query (report_def self)) = Some query ->
  engine_execute_query engine (Core.preview_query engine query limit)
                       (parameters self) = Raise e ->
  Core.preview_data self limit = Ok [].
Proof.
  intros Hdata Hengine Hquery Hfail. unfold Core.preview_data.
  rewrite Hdata, Hengine, Hquery. cbn [Core.is_nil]. now rewrite Hfail.
Qed.

Lemma C8_witness :
  @Core.preview_data Examples.offline_runtime Examples.unreachable_report 10 = Ok [].
Proof.
  apply (@C8_preview_failure_is_empty Examples.offline_runtime
           Examples.unreachable_report 10
           (mkDatabaseEngine "sqlite:///reports.db" sqlite)
           "SELECT name FROM items"
           (DatabaseError "Failed to connect to database"));
    reflexivity.
Defined.


(* ================================================================== *)
(** * Further properties *)
(* ================================================================== *)

(** ** Grouping as a partition *)

Lemma append_to_present (groups : DataProcessor.Groups) (key : PyValue)
      (row : DataRow) :
  NoDup (map key_of groups) ->
  In (py_key key) (map key_of groups) ->
  Permutation (grouped_rows (map (append_to key row) groups))
              (row :: grouped_rows groups).
Proof.
  unfold grouped_rows.
  induction groups as [|g groups IH]; intros Hnd Hin; [destruct Hin|].
  cbn [map] in Hnd. apply NoDup_cons_iff in Hnd as [Hg Hnd].
  cbn [map concat]. unfold append_to at 1.
  destruct (py_eqb (fst g) key) eqn:E.
  - apply PyKey_eqb_eq in E. cbn [snd].
    rewrite append_to_absent by (rewrite <- E; exact Hg).
    rewrite <- app_assoc. cbn [app].
    symmetry. apply Permutation_middle.
  - destruct Hin as [Hin | Hin].
    + unfold py_eqb in E. unfold key_of in Hin. rewrite Hin in E.
      now rewrite PyKey_eqb_refl in E.
    + specialize (IH Hnd Hin).
      apply Permutation_trans with (snd g ++ row :: concat (map snd groups)).
      * now apply Permutation_app_head.
      * symmetry. apply Permutation_middle.
Qed.

Lemma append_to_nonempty (groups : DataProcessor.Groups) (key : PyValue)
      (row : DataRow) :
  Forall (fun g => snd g <> [] \/ py_eqb (fst g) key = true) groups ->
  Forall (fun g => snd g <> []) (map (append_to key row) groups).
Proof.
  intros Hall. apply Forall_map. eapply Forall_impl; [|exact Hall].
  intros g Hg. unfold append_to.
  destruct (py_eqb (fst g) key) eqn:E; cbn [snd].
  - intros Hnil. apply app_eq_nil in Hnil as [_ Hnil]. discriminate Hnil.
  - destruct Hg as [Hg | Hg]; [exact Hg | congruence].
Qed.

Lemma partitions_step (field : string) (groups : DataProcessor.Groups)
      (seen : list DataRow) (row : DataRow) :
  grouped field groups seen -> partitions groups seen ->
  partitions (DataProcessor.group_by_step field groups row) (seen ++ [row]).
Proof.
  intros [Hnd _ _] [Hperm Hne]. unfold DataProcessor.group_by_step.
  set (key := dict_get row field VNone).
  destruct (DataProcessor.groups_mem groups key) eqn:Em; cbn [negb].
  - rewrite (groups_append_map groups key row Hnd). split.
    + apply Permutation_trans with (row :: grouped_rows groups).
      * apply append_to_present; [exact Hnd | now apply groups_mem_in].
      * apply Permutation_trans with (row :: seen);
          [now constructor | apply Permutation_cons_append].
    + apply append_to_nonempty. eapply Forall_impl; [|exact Hne].
      intros g Hg. now left.
  - assert (Hnot : ~ In (py_key key) (map key_of groups)).
    { intros Hin. apply groups_mem_in in Hin. congruence. }
    assert (Hnd1 : NoDup (map key_of (groups ++ [(key, [])]))).
    { rewrite map_app. now apply NoDup_snoc. }
    rewrite (groups_append_map _ key row Hnd1). split.
    + apply Permutation_trans
        with (row :: grouped_rows (groups ++ [(key, [])])).
      * apply append_to_present; [exact Hnd1|].
        rewrite map_app. apply in_or_app. right. now left.
      * unfold grouped_rows. rewrite map_app, concat_app. cbn [map concat snd].
        rewrite !app_nil_r.
        apply Permutation_trans with (row :: seen);
          [now constructor | apply Permutation_cons_append].
    + apply append_to_nonempty. apply Forall_app. split.
      * eapply Forall_impl; [|exact Hne]. intros g Hg. now left.
      * constructor; [|constructor]. right. cbn [fst]. unfold py_eqb.
        apply PyKey_eqb_refl.
Qed.

Lemma partitions_fold (field : string) (rest : list DataRow) :
  forall groups seen,
    grouped field groups seen -> partitions groups seen ->
    partitions (fold_left (DataProcessor.group_by_step field) rest groups)
               (seen ++ rest).
Proof.
  induction rest as [|row rest IH]; intros groups seen Hg Hp.
  - now rewrite app_nil_r.
  - cbn [fold_left].
    replace (seen ++ row :: rest) with ((seen ++ [row]) ++ rest)
      by now rewrite <- app_assoc.
    apply IH; [now apply grouped_step | now apply partitions_step].
Qed.

Lemma length_grouped_rows (groups : DataProcessor.Groups) :
  List.length (grouped_rows groups)
  = list_sum (map (fun g => Aggregates.calculate_count (snd g)) groups).
Proof.
  unfold grouped_rows, Aggregates.calculate_count.
  induction groups as [|g groups IH]; [reflexivity|].
  cbn [map concat list_sum]. now rewrite length_app, IH.
Qed.

Lemma group_by_partitions (data : list DataRow) (field : string) :
  partitions (DataProcessor.group_by data field) data.
Proof.
  apply (partitions_fold field data [] []).
  - constructor; [constructor | intros g [] | intros row []].
  - split; constructor.
Qed.

(** X1: [group_by] loses no row and repeats none: the rows of its
    groups, taken together, are a rearrangement of the data; no group
    is empty; and the group counts add up to the count of the data. *)
Theorem X1_group_by_is_a_partition (data : list DataRow) (field : string) :
  let groups := DataProcessor.group_by data field in
  Permutation (grouped_rows groups) data
  /\ (forall g, In g groups -> snd g <> [])
  /\ list_sum (map (fun g => Aggregates.calculate_count (snd g)) groups)
     = Aggregates.calculate_count data.
Proof.
  cbv zeta.
  destruct (group_by_partitions data field) as [Hperm Hne].
  split; [exact Hperm|]. split.
  - intros g Hg. rewrite Forall_forall in Hne. now apply Hne.
  - rewrite <- length_grouped_rows. unfold Aggregates.calculate_count.
    now apply Permutation_length.
Qed.

(** ** Grouping and contiguous runs *)

Lemma fst_groups_append (groups : DataProcessor.Groups) (key : PyValue)
      (row : DataRow) :
  map fst (DataProcessor.groups_append groups key row) = map fst groups.
Proof.
  induction groups as [|[k rows] groups IH]; [reflexivity|].
  cbn [DataProcessor.groups_append]. destruct (py_eqb k key); cbn [map fst].
  - reflexivity.
  - now rewrite IH.
Qed.

Lemma groups_mem_seen (groups : DataProcessor.Groups) (key : PyValue) :
  DataProcessor.groups_mem groups key = seen_key (map fst groups) key.
Proof.
  unfold DataProcessor.groups_mem, seen_key.
  induction groups as [|g groups IH]; [reflexivity|].
  cbn [existsb map]. now rewrite IH.
Qed.

Lemma fst_group_by_step (field : string) (groups : DataProcessor.Groups)
      (row : DataRow) :
  map fst (DataProcessor.group_by_step field groups row)
  = note_key field (map fst groups) row.
Proof.
  unfold DataProcessor.group_by_step, note_key.
  rewrite fst_groups_append, groups_mem_seen.
  destruct (seen_key (map fst groups) (dict_get row field VNone)); cbn [negb].
  - reflexivity.
  - now rewrite map_app.
Qed.

Lemma fst_fold_group_by (field : string) (rest : list DataRow) :
  forall groups,
    map fst (fold_left (DataProcessor.group_by_step field) rest groups)
    = fold_left (note_key field) rest (map fst groups).
Proof.
  induction rest as [|row rest IH]; intros groups; [reflexivity|].
  cbn [fold_left]. now rewrite IH, fst_group_by_step.
Qed.

Lemma group_by_keys (field : string) (data : list DataRow) :
  map fst (DataProcessor.group_by data field) = first_values field data.
Proof. apply (fst_fold_group_by field data []). Qed.

(** [group_by] is the list of the groups of the first key values. *)
Lemma group_by_groups (field : string) (data : list DataRow) :
  DataProcessor.group_by data field
  = map (group_of field data) (first_values field data).
Proof.
  rewrite <- group_by_keys, map_map.
  destruct (group_by_grouped field data) as [_ Hrows _].
  rewrite <- (map_id (DataProcessor.group_by data field)) at 1.
  apply map_ext_in. intros [k rows] Hin. unfold group_of.
  now rewrite <- (Hrows _ Hin).
Qed.

Lemma py_eqb_key (a b : PyValue) : py_eqb a b = true <-> py_key a = py_key b.
Proof. apply PyKey_eqb_eq. Qed.

Lemma seen_key_other (k0 key : PyValue) (keys : list PyValue) :
  py_eqb key k0 = false ->
  seen_key (filter (other_key k0) keys) key = seen_key keys key.
Proof.
  intros Hk. unfold seen_key.
  induction keys as [|k keys IH]; [reflexivity|].
  cbn [filter existsb]. unfold other_key at 1.
  destruct (py_eqb k k0) eqn:E; cbn [negb existsb].
  - rewrite IH. destruct (py_eqb k key) eqn:E2; [|reflexivity].
    apply py_eqb_key in E, E2.
    assert (py_eqb key k0 = true) by (apply py_eqb_key; congruence).
    congruence.
  - now rewrite IH.
Qed.

Lemma note_key_front (field : string) (k0 : PyValue) (rest : list DataRow) :
  forall keys,
    fold_left (note_key field) rest (k0 :: filter (other_key k0) keys)
    = k0 :: filter (other_key k0) (fold_left (note_key field) rest keys).
Proof.
  induction rest as [|row rest IH]; intros keys; [reflexivity|].
  cbn [fold_left]. rewrite <- IH. f_equal.
  unfold note_key. set (key := dict_get row field VNone).
  change (seen_key (k0 :: filter (other_key k0) keys) key)
    with (py_eqb k0 key || seen_key (filter (other_key k0) keys) key).
  destruct (py_eqb key k0) eqn:E.
  - assert (E' : py_eqb k0 key = true)
      by (apply py_eqb_key; symmetry; now apply py_eqb_key).
    rewrite E'. cbn [orb].
    destruct (seen_key keys key); [reflexivity|].
    rewrite filter_app. cbn [filter].
    replace (other_key k0 key) with false by (unfold other_key; now rewrite E).
    now rewrite app_nil_r.
  - assert (E' : py_eqb k0 key = false).
    { destruct (py_eqb k0 key) eqn:E2; [|reflexivity].
      apply py_eqb_key in E2.
      assert (py_eqb key k0 = true) by (apply py_eqb_key; congruence).
      congruence. }
    rewrite E'. cbn [orb]. rewrite (seen_key_other k0 key keys E).
    destruct (seen_key keys key); [reflexivity|].
    rewrite filter_app. cbn [filter].
    replace (other_key k0 key) with true by (unfold other_key; now rewrite E).
    reflexivity.
Qed.

Lemma first_values_cons (field : string) (row : DataRow) (rest : list DataRow) :
  first_values field (row :: rest)
  = dict_get row field VNone
    :: filter (other_key (dict_get row field VNone)) (first_values field rest).
Proof.
  unfold first_values. cbn [fold_left]. unfold note_key at 2. cbn [seen_key existsb app].
  exact (note_key_front field (dict_get row field VNone) rest []).
Qed.

Lemma key_of_fst (groups : DataProcessor.Groups) :
  map key_of groups = map py_key (map fst groups).
Proof. now rewrite map_map. Qed.

Lemma filter_other_all (k0 : PyValue) (ks : list PyValue) :
  ~ In (py_key k0) (map py_key ks) -> filter (other_key k0) ks = ks.
Proof.
  induction ks as [|k ks IH]; intros Hn; [reflexivity|].
  cbn [filter]. unfold other_key at 1.
  destruct (py_eqb k k0) eqn:E.
  - apply py_eqb_key in E. elim Hn. left. exact E.
  - cbn [negb]. rewrite IH; [reflexivity|]. intros Hin. apply Hn. now right.
Qed.

Lemma with_key_same (field : string) (k k' : PyValue) (row : DataRow) :
  py_key k = py_key k' -> with_key field k row = with_key field k' row.
Proof. unfold with_key. now intros ->. Qed.

Lemma filter_with_key_same (field : string) (k k' : PyValue)
      (data : list DataRow) :
  py_key k = py_key k' ->
  filter (with_key field k) data = filter (with_key field k') data.
Proof.
  intros Hk. apply filter_ext. intros row. now apply with_key_same.
Qed.

(** How [group_by] treats the first row: its key comes first, with the
    row ahead of the later rows of that key; the other keys follow in
    their order, with their rows. *)
Lemma group_by_cons (field : string) (row : DataRow) (rest : list DataRow) :
  let k0 := dict_get row field VNone in
  DataProcessor.group_by (row :: rest) field
  = (k0, row :: filter (with_key field k0) rest)
    :: map (group_of field rest)
           (filter (other_key k0) (first_values field rest)).
Proof.
  cbv zeta. rewrite group_by_groups, first_values_cons. cbn [map].
  f_equal.
  - unfold group_of. cbn [filter]. unfold with_key at 1, group_key.
    now rewrite PyKey_eqb_refl.
  - apply map_ext_in. intros k Hk. apply filter_In in Hk as [_ Hk].
    unfold group_of. cbn [filter]. unfold with_key at 1, group_key.
    unfold other_key, py_eqb in Hk. apply negb_true_iff in Hk.
    now rewrite Hk.
Qed.

Lemma adjacent_runs_nil (field : string) (data : list DataRow) :
  adjacent_runs field data = [] -> data = [].
Proof.
  destruct data as [|row rest]; [reflexivity|]. cbn [adjacent_runs].
  destruct (adjacent_runs field rest) as [|[k run] runs]; [discriminate|].
  destruct (PyKey_eqb (py_key k) (group_key field row)); discriminate.
Qed.

Lemma adjacent_runs_group_by (field : string) (data : list DataRow) :
  NoDup (map key_of (adjacent_runs field data)) ->
  DataProcessor.group_by data field = adjacent_runs field data.
Proof.
  induction data as [|row rest IH]; intros Hnd; [reflexivity|].
  rewrite group_by_cons. cbv zeta.
  set (k0 := dict_get row field VNone) in *.
  cbn [adjacent_runs] in *. fold k0 in Hnd |- *.
  destruct (adjacent_runs field rest) as [|[k run] runs] eqn:Er.
  - apply adjacent_runs_nil in Er. subst rest. reflexivity.
  - destruct (PyKey_eqb (py_key k) (group_key field row)) eqn:Ek.
    + apply PyKey_eqb_eq in Ek.
      change (group_key field row) with (py_key k0) in Ek.
      change (NoDup (py_key k0 :: map key_of runs)) in Hnd.
      assert (Hnd' : NoDup (map key_of ((k, run) :: runs)))
        by (change (NoDup (py_key k :: map key_of runs)); now rewrite Ek).
      specialize (IH Hnd'). pose proof (group_by_groups field rest) as Hg.
      rewrite IH in Hg. pose proof (group_by_keys field rest) as Hk.
      rewrite IH in Hk. cbn [map fst] in Hk. rewrite <- Hk in Hg |- *.
      cbn [map] in Hg. injection Hg as Hrun Hruns.
      cbn [filter]. unfold other_key at 1.
      replace (py_eqb k k0) with true
        by (symmetry; now apply py_eqb_key).
      cbn [negb]. rewrite filter_other_all.
      * rewrite <- Hruns. f_equal. f_equal. f_equal. rewrite Hrun.
        apply filter_with_key_same. now symmetry.
      * rewrite <- key_of_fst. now apply NoDup_cons_iff in Hnd as [Hn _].
    + change (NoDup (py_key k0 :: map key_of ((k, run) :: runs))) in Hnd.
      apply NoDup_cons_iff in Hnd as [Hn Hnd].
      specialize (IH Hnd). pose proof (group_by_keys field rest) as Hk.
      pose proof (group_by_groups field rest) as Hg.
      rewrite filter_other_all.
      * rewrite <- Hg, IH. f_equal. f_equal. f_equal.
        destruct (group_by_grouped field rest) as [_ _ Hcover].
        apply (filter_absent field k0 (DataProcessor.group_by rest field)
                 rest Hcover).
        now rewrite IH.
      * rewrite <- Hk, <- key_of_fst, IH. exact Hn.
Qed.

(** X2: [group_by] yields the contiguous runs of equal keys exactly
    when no key value comes back after a run of another key, that is,
    when the rows arrive sorted or clustered by the key. *)
Theorem X2_group_by_runs_iff_clustered (data : list DataRow) (field : string) :
  DataProcessor.group_by data field = adjacent_runs field data
  <-> NoDup (map key_of (adjacent_runs field data)).
Proof.
  split.
  - intros <-. now destruct (group_by_grouped field data).
  - apply adjacent_runs_group_by.
Qed.

(** ** Minimum and maximum *)

Lemma column_values (data : list DataRow) (field : string) (v : PyValue) :
  In v (Aggregates.column data field) <->
  v <> VNone /\ exists row, In row data /\ dict_get row field VNone = v.
Proof.
  unfold Aggregates.column. rewrite in_flat_map. split.
  - intros [row [Hrow Hv]].
    destruct (dict_get row field VNone) eqn:E; [destruct Hv | ..];
      destruct Hv as [<- | []];
      (split; [discriminate | exists row; now split]).
  - intros [Hv [row [Hrow E]]]. exists row. split; [exact Hrow|].
    rewrite E. destruct v; [now elim Hv | now left ..].
Qed.

Lemma column_empty (data : list DataRow) (field : string) :
  Aggregates.column data field = [] <->
  forall row, In row data -> dict_get row field VNone = VNone.
Proof.
  split.
  - intros Hc row Hrow. destruct (dict_get row field VNone) eqn:E;
      [reflexivity | exfalso ..];
      (assert (Hin : In (dict_get row field VNone)
                        (Aggregates.column data field))
        by (apply column_values; split;
            [rewrite E; discriminate | exists row; now split]));
      rewrite Hc in Hin; destruct Hin.
  - intros Hall. destruct (Aggregates.column data field) as [|v vs] eqn:E;
      [reflexivity|].
    assert (Hin : In v (Aggregates.column data field))
      by (rewrite E; now left).
    apply column_values in Hin as [Hv [row [Hrow Hget]]].
    rewrite (Hall row Hrow) in Hget. congruence.
Qed.

Lemma extreme_loop_member beyond (items : list PyValue) :
  forall current v,
    Aggregates.extreme_loop beyond current items = Ok v ->
    v = current \/ In v items.
Proof.
  induction items as [|item rest IH]; intros current v Hv;
    cbn [Aggregates.extreme_loop] in Hv.
  - injection Hv as <-. now left.
  - destruct (beyond item current) as [b|e]; [|discriminate].
    cbn [bind] in Hv. apply IH in Hv as [-> | Hin].
    + destruct b; [right; now left | now left].
    + right. now right.
Qed.

Lemma calculate_extreme_none beyond (data : list DataRow) (field : string) :
  match data with
  | [] => Ok VNone
  | _ => match Aggregates.column data field with
         | [] => Ok VNone
         | v :: values => Aggregates.extreme_loop beyond v values
         end
  end = Ok VNone
  <-> forall row, In row data -> dict_get row field VNone = VNone.
Proof.
  rewrite <- column_empty. destruct data as [|row rest]; [now split|].
  destruct (Aggregates.column (row :: rest) field) as [|v vs] eqn:E;
    [now split|].
  split; [|discriminate]. intros Hv.
  apply extreme_loop_member in Hv.
  assert (Hin : In VNone (Aggregates.column (row :: rest) field)).
  { rewrite E. destruct Hv as [<- | Hv]; [now left | now right]. }
  apply column_values in Hin as [Hn _]. now elim Hn.
Qed.

(** X3: [calculate_min] and [calculate_max] return [None] exactly
    when no row has a value other than [None] for the field: without
    data, when the field is missing everywhere, or when it is [None]
    everywhere. *)
Theorem X3_extreme_none_iff_no_value (data : list DataRow) (field : string) :
  (Aggregates.calculate_min data field = Ok VNone
   <-> forall row, In row data -> dict_get row field VNone = VNone)
  /\ (Aggregates.calculate_max data field = Ok VNone
      <-> forall row, In row data -> dict_get row field VNone = VNone).
Proof.
  split; apply calculate_extreme_none.
Qed.

Lemma Qle_bool_false (x y : Q) : Qle_bool x y = false -> y <= x.
Proof.
  intros Hf. destruct (Qlt_le_dec x y) as [Hlt | Hle]; [|exact Hle].
  apply Qlt_le_weak in Hlt. apply Qle_bool_iff in Hlt. congruence.
Qed.

Lemma min_loop_numbers (items : list PyValue) :
  forall current,
    is_number current = true ->
    forallb is_number items = true ->
    exists v,
      Aggregates.extreme_loop Aggregates.py_lt current items = Ok v
      /\ is_number v = true
      /\ number_of v <= number_of current
      /\ forall w, In w items -> number_of v <= number_of w.
Proof.
  induction items as [|item rest IH]; intros current Hc Hall.
  - exists current. repeat split; [exact Hc | apply Qle_refl | intros w []].
  - cbn [forallb] in Hall. apply andb_true_iff in Hall as [Hi Hall].
    cbn [Aggregates.extreme_loop]. unfold Aggregates.py_lt at 1.
    unfold is_number, number_of in *.
    destruct (Aggregates.py_number item) as [x|] eqn:Ex; [|discriminate].
    destruct (Aggregates.py_number current) as [y|] eqn:Ey; [|discriminate].
    cbn [bind].
    destruct (Qle_bool y x) eqn:E; cbn [negb].
    + apply Qle_bool_iff in E.
      destruct (IH current) as (v & Hv & Hn & Hle & Hrest);
        [now rewrite Ey | exact Hall |].
      rewrite Ey in Hle.
      exists v. split; [exact Hv|]. split; [exact Hn|]. split; [exact Hle|].
      intros w [<- | Hw]; [|now apply Hrest].
      rewrite Ex. now apply Qle_trans with y.
    + apply Qle_bool_false in E.
      destruct (IH item) as (v & Hv & Hn & Hle & Hrest);
        [now rewrite Ex | exact Hall |].
      rewrite Ex in Hle.
      exists v. split; [exact Hv|]. split; [exact Hn|].
      split; [now apply Qle_trans with x|].
      intros w [<- | Hw]; [|now apply Hrest]. now rewrite Ex.
Qed.

Lemma max_loop_numbers (items : list PyValue) :
  forall current,
    is_number current = true ->
    forallb is_number items = true ->
    exists v,
      Aggregates.extreme_loop Aggregates.py_gt current items = Ok v
      /\ is_number v = true
      /\ number_of current <= number_of v
      /\ forall w, In w items -> number_of w <= number_of v.
Proof.
  induction items as [|item rest IH]; intros current Hc Hall.
  - exists current. repeat split; [exact Hc | apply Qle_refl | intros w []].
  - cbn [forallb] in Hall. apply andb_true_iff in Hall as [Hi Hall].
    cbn [Aggregates.extreme_loop]. unfold Aggregates.py_gt at 1.
    unfold is_number, number_of in *.
    destruct (Aggregates.py_number item) as [x|] eqn:Ex; [|discriminate].
    destruct (Aggregates.py_number current) as [y|] eqn:Ey; [|discriminate].
    cbn [bind].
    destruct (Qle_bool x y) eqn:E; cbn [negb].
    + apply Qle_bool_iff in E.
      destruct (IH current) as (v & Hv & Hn & Hle & Hrest);
        [now rewrite Ey | exact Hall |].
      rewrite Ey in Hle.
      exists v. split; [exact Hv|]. split; [exact Hn|]. split; [exact Hle|].
      intros w [<- | Hw]; [|now apply Hrest].
      rewrite Ex. now apply Qle_trans with y.
    + apply Qle_bool_false in E.
      destruct (IH item) as (v & Hv & Hn & Hle & Hrest);
        [now rewrite Ex | exact Hall |].
      rewrite Ex in Hle.
      exists v. split; [exact Hv|]. split; [exact Hn|].
      split; [now apply Qle_trans with x|].
      intros w [<- | Hw]; [|now apply Hrest]. now rewrite Ex.
Qed.


Lemma compare_kinds (a b : PyValue) :
  a <> VNone -> b <> VNone ->
  (is_text a = is_text b ->
   (exists r, Aggregates.py_lt a b = Ok r)
   /\ (exists r, Aggregates.py_gt a b = Ok r))
  /\ (is_text a <> is_text b ->
      (exists e, Aggregates.py_lt a b = Raise e)
      /\ (exists e, Aggregates.py_gt a b = Raise e)).
Proof.
  intros Ha Hb.
  destruct a, b; try (now elim Ha); try (now elim Hb);
    cbn; split; intros Hk; try congruence; split; eauto.
Qed.

Lemma extreme_loop_mixed beyond (items : list PyValue) :
  (forall a b, a <> VNone -> b <> VNone ->
               (is_text a = is_text b -> exists r, beyond a b = Ok r)
               /\ (is_text a <> is_text b -> exists e, beyond a b = Raise e)) ->
  forall current,
    current <> VNone ->
    Forall (fun v => v <> VNone) items ->
    (exists w, In w items /\ is_text w <> is_text current) ->
    exists e, Aggregates.extreme_loop beyond current items = Raise e.
Proof.
  intros Hbeyond.
  induction items as [|item rest IH]; intros current Hc Hall [w [Hw Hk]];
    [destruct Hw|].
  apply Forall_cons_iff in Hall as [Hi Hall].
  cbn [Aggregates.extreme_loop].
  destruct (Hbeyond item current Hi Hc) as [Hsame Hdiff].
  destruct (bool_dec (is_text item) (is_text current)) as [E | N].
  - destruct (Hsame E) as [r Hr]. rewrite Hr. cbn [bind].
    apply IH.
    + now destruct r.
    + exact Hall.
    + exists w. split.
      * destruct Hw as [<- | Hw]; [now elim Hk | exact Hw].
      * destruct r; [now rewrite E | exact Hk].
  - destruct (Hdiff N) as [e He]. rewrite He. cbn [bind]. now exists e.
Qed.

(** X5: on a column that holds both a string and a number,
    [calculate_min] and [calculate_max] raise (the [TypeError] of the
    comparison) instead of returning a value. *)
Theorem X5_extremes_of_mixed_column_raise
        (data : list DataRow) (field : string) (text number : PyValue) :
  In text (Aggregates.column data field) -> is_text text = true ->
  In number (Aggregates.column data field) -> is_number number = true ->
  (exists e, Aggregates.calculate_min data field = Raise e)
  /\ (exists e, Aggregates.calculate_max data field = Raise e).
Proof.
  intros Ht Htext Hn Hnumber.
  assert (Hnone : Forall (fun v => v <> VNone) (Aggregates.column data field)).
  { apply Forall_forall. intros v Hv. now apply column_values in Hv as [Hv _]. }
  assert (Hkinds : is_text number = false) by (now destruct number).
  unfold Aggregates.calculate_min, Aggregates.calculate_max.
  destruct data as [|row rest]; [destruct Ht|].
  destruct (Aggregates.column (row :: rest) field) as [|v0 vs];
    [destruct Ht|].
  apply Forall_cons_iff in Hnone as [H0 Hnone].
  assert (Hother : exists w, In w vs /\ is_text w <> is_text v0).
  { destruct (is_text v0) eqn:E0.
    - exists number. split; [|congruence].
      destruct Hn as [<- | Hn]; [congruence | exact Hn].
    - exists text. split; [|congruence].
      destruct Ht as [<- | Ht]; [congruence | exact Ht]. }
  split; apply extreme_loop_mixed; try assumption;
    intros a b Ha Hb; destruct (compare_kinds a b Ha Hb) as [Hs Hd];
    (split; intros Hk; [now destruct (Hs Hk) | now destruct (Hd Hk)]).
Qed.

Lemma X5_witness :
  (exists e, Aggregates.calculate_min Samples.mixed_rows "price" = Raise e)
  /\ (exists e, Aggregates.calculate_max Samples.mixed_rows "price" = Raise e).
Proof.
  apply (X5_extremes_of_mixed_column_raise Samples.mixed_rows "price"
           (VStr "n/a") (VInt 3)).
  - right. left. reflexivity.
  - reflexivity.
  - left. reflexivity.
  - reflexivity.
Defined.

(** ** The parser: errors, namespaces, geometry, fields and bands *)

Section ParserErrors.
Context `{Runtime}.

Lemma parse_error_only (content : string) (e : exn) :
  JRXMLParser.parse content = Raise e -> exists msg, e = JRXMLParseError msg.
Proof.
  unfold JRXMLParser.parse.
  destruct (ET_fromstring content) as [root|x].
  - destruct (JRXMLParser.parse_root root) as [rd|x]; cbn [try_except];
      intros Hr; [discriminate|]. injection Hr as <-. eauto.
  - intros Hr. injection Hr as <-. eauto.
Qed.

(** X6: [JRXMLParser.parse] fails with a [JRXMLParseError] only, and
    [JasperReport(jrxml_content=...)] with a [JasperError] for an empty
    source or a [JRXMLParseError] otherwise: no exception of the XML
    library or of [int] reaches the caller. *)
Theorem X6_parse_errors (content : string) (e : exn) :
  (JRXMLParser.parse content = Raise e ->
   exists msg, e = JRXMLParseError msg)
  /\ (Core.new_report content = Raise e ->
      (content = EmptyString
       /\ e = JasperError
                "Either jrxml_path or jrxml_content must be provided")
      \/ (content <> EmptyString /\ exists msg, e = JRXMLParseError msg)).
Proof.
  split; [apply parse_error_only|].
  unfold Core.new_report. destruct content as [|c content].
  - cbn. intros Hr. injection Hr as <-. now left.
  - cbn [PyStr.nonempty negb].
    destruct (JRXMLParser.parse (String c content)) as [rd|x];
      cbn [bind try_except]; intros Hr; [discriminate|].
    injection Hr as <-. right. split; [discriminate | eauto].
Qed.

End ParserErrors.

Lemma str_index_after (ns rest : string) :
  PyStr.all_chars no_brace ns = true ->
  JRXMLParser.str_index "}" (ns +++ String "}" rest)
  = Some (String.length ns).
Proof.
  induction ns as [|c ns IH]; intros Hn; cbn [String.append].
  - reflexivity.
  - cbn [PyStr.all_chars] in Hn. apply andb_true_iff in Hn as [Hc Hn].
    unfold no_brace in Hc. apply negb_true_iff in Hc.
    cbn [JRXMLParser.str_index]. rewrite Hc, (IH Hn). reflexivity.
Qed.

(** X7: the namespace is read back from a qualified root tag: for a
    namespace without a closing brace, a root tagged [{ns}name] gives
    [ns], and a root whose tag has no opening brace gives the
    JasperReports namespace. *)
Theorem X7_namespace_detected
        (ns name : string) (attrib : dict string) (text : option string)
        (children : list Element) :
  PyStr.all_chars no_brace ns = true ->
  JRXMLParser.detect_namespace
    (mkElement (ET.qname ns name) attrib text children) = Ok ns
  /\ (PyStr.startswith "{" name = false ->
      JRXMLParser.detect_namespace (mkElement name attrib text children)
      = Ok JRXMLParser.default_namespace).
Proof.
  intros Hn. split.
  - unfold JRXMLParser.detect_namespace, ET.qname. cbn [elem_tag].
    change ("{" +++ ns +++ "}" +++ name)
      with (String "{" (ns +++ String "}" name)).
    unfold PyStr.startswith. rewrite prefix_cons_eq.
    change (Ascii.eqb "{" "{") with true. cbv iota.
    replace (String.prefix EmptyString (ns +++ String "}" name)) with true
      by (now destruct (ns +++ String "}" name)).
    cbn [JRXMLParser.str_index]. change (Ascii.eqb "{" "}") with false.
    cbv iota. rewrite (str_index_after ns name Hn). cbn [option_map].
    cbn [substring]. replace (S (String.length ns) - 1)%nat
      with (String.length ns) by lia.
    now rewrite substring_prefix.
  - intros Hs. unfold JRXMLParser.detect_namespace. cbn [elem_tag].
    now rewrite Hs.
Qed.

Lemma X7_witness :
  JRXMLParser.detect_namespace
    (mkElement (ET.qname "urn:reports" "jasperReport") [] None [])
  = Ok "urn:reports"
  /\ (PyStr.startswith "{" "jasperReport" = false ->
      JRXMLParser.detect_namespace (mkElement "jasperReport" [] None [])
      = Ok JRXMLParser.default_namespace).
Proof.
  exact (X7_namespace_detected "urn:reports" "jasperReport" [] None []
           eq_refl).
Defined.

Lemma hd_filter_some {A : Type} (p : A -> bool) (l : list A) (a : A) :
  hd_error (filter p l) = Some a -> In a l /\ p a = true.
Proof.
  intros Hh. assert (Hin : In a (filter p l)).
  { destruct (filter p l) as [|b bs]; [discriminate|].
    injection Hh as ->. now left. }
  now apply filter_In in Hin.
Qed.

Lemma hd_filter_none {A : Type} (p : A -> bool) (l : list A) :
  hd_error (filter p l) = None <-> forall a, In a l -> p a = false.
Proof.
  split.
  - intros Hh a Ha. destruct (p a) eqn:E; [|reflexivity].
    assert (Hin : In a (filter p l)) by (apply filter_In; now split).
    destruct (filter p l); [destruct Hin | discriminate].
  - intros Hall. destruct (filter p l) as [|b bs] eqn:E; [reflexivity|].
    assert (Hin : In b (filter p l)) by (rewrite E; now left).
    apply filter_In in Hin as [Hb Hp]. rewrite (Hall b Hb) in Hp.
    discriminate.
Qed.

(** X8: a descendant is looked up under its namespace-qualified tag
    first and under the unqualified tag otherwise: what is found is a
    descendant with one of the two tags, a qualified match wins, and
    nothing is found only when no descendant has either tag. *)
Theorem X8_qualified_or_plain (ns t : string) (root : Element) :
  (forall e, JRXMLParser.find_desc_ns ns t root = Some e ->
             In e (ET.descendants root)
             /\ (elem_tag e = ET.qname ns t \/ elem_tag e = t))
  /\ (forall e, ET.find_desc (ET.qname ns t) root = Some e ->
                JRXMLParser.find_desc_ns ns t root = Some e)
  /\ (JRXMLParser.find_desc_ns ns t root = None <->
      forall e, In e (ET.descendants root) ->
                elem_tag e <> ET.qname ns t /\ elem_tag e <> t).
Proof.
  unfold JRXMLParser.find_desc_ns, or_else, ET.find_desc, ET.findall_desc.
  split; [|split].
  - intros e He.
    destruct (hd_error (filter (ET.has_tag (ET.qname ns t))
                               (ET.descendants root))) as [q|] eqn:Eq.
    + injection He as ->. apply hd_filter_some in Eq as [Hin Htag].
      split; [exact Hin|]. left. now apply String.eqb_eq in Htag.
    + apply hd_filter_some in He as [Hin Htag].
      split; [exact Hin|]. right. now apply String.eqb_eq in Htag.
  - intros e He. now rewrite He.
  - destruct (hd_error (filter (ET.has_tag (ET.qname ns t))
                               (ET.descendants root))) as [q|] eqn:Eq.
    + split; [discriminate|]. intros Hall.
      apply hd_filter_some in Eq as [Hin Htag].
      apply String.eqb_eq in Htag. now destruct (Hall q Hin).
    + rewrite hd_filter_none in Eq. rewrite hd_filter_none. split.
      * intros Hplain e He. split; intros Htag.
        -- specialize (Eq e He). unfold ET.has_tag in Eq.
           rewrite Htag, String.eqb_refl in Eq. discriminate.
        -- specialize (Hplain e He). unfold ET.has_tag in Hplain.
           rewrite Htag, String.eqb_refl in Hplain. discriminate.
      * intros Hall e He. destruct (Hall e He) as [_ Hn].
        unfold ET.has_tag. now apply String.eqb_neq.
Qed.

Section Geometry.
Context `{Runtime}.

Lemma int_attr_is (root : Element) (key : string) (default z : Z) :
  JRXMLParser.int_attr root key default = Ok z
  <-> attribute_is root key default z.
Proof.
  unfold JRXMLParser.int_attr, attribute_is.
  destruct (ET.get root key) as [s|].
  - destruct (py_int s) as [z'|]; split; intros Hz;
      try discriminate; congruence.
  - split; intros Hz; congruence.
Qed.

Lemma parse_root_geometry (root : Element) (rd : ReportDefinition) :
  JRXMLParser.parse_root root = Ok rd ->
  rd_name rd = ET.get_default root "name" "Report"
  /\ attribute_is root "pageWidth" 595 (page_width rd)
  /\ attribute_is root "pageHeight" 842 (page_height rd)
  /\ attribute_is root "columnWidth" 555 (column_width rd)
  /\ attribute_is root "leftMargin" 20 (left_margin rd)
  /\ attribute_is root "rightMargin" 20 (right_margin rd)
  /\ attribute_is root "topMargin" 20 (top_margin rd)
  /\ attribute_is root "bottomMargin" 20 (bottom_margin rd).
Proof.
  unfold JRXMLParser.parse_root. intros E.
  apply bind_ok in E as (ns & _ & E).
  apply bind_ok in E as (pw & Hpw & E).
  apply bind_ok in E as (ph & Hph & E).
  apply bind_ok in E as (cw & Hcw & E).
  apply bind_ok in E as (lm & Hlm & E).
  apply bind_ok in E as (rm & Hrm & E).
  apply bind_ok in E as (tm & Htm & E).
  apply bind_ok in E as (bm & Hbm & E).
  apply bind_ok in E as (gs & _ & E).
  apply bind_ok in E as (bs & _ & E).
  injection E as <-. cbn.
  repeat split; now apply int_attr_is.
Qed.

Lemma parse_ok_root (content : string) (root : Element)
      (rd : ReportDefinition) :
  ET_fromstring content = Ok root ->
  JRXMLParser.parse content = Ok rd ->
  JRXMLParser.parse_root root = Ok rd.
Proof.
  intros Hroot. unfold JRXMLParser.parse. rewrite Hroot.
  destruct (JRXMLParser.parse_root root); cbn [try_except];
    [tauto | discriminate].
Qed.

(** X9: the page geometry of a parsed template is read off the root
    element: each of pageWidth, pageHeight, columnWidth and the four
    margins is the integer its attribute denotes, or the default (595,
    842, 555, 20) when the attribute is absent, and the name defaults
    to Report; an attribute that is present and not a numeral makes
    [parse] fail with a [JRXMLParseError]. *)
Theorem X9_page_geometry (content : string) (root : Element) :
  ET_fromstring content = Ok root ->
  (forall rd,
      JRXMLParser.parse content = Ok rd ->
      rd_name rd = ET.get_default root "name" "Report"
      /\ attribute_is root "pageWidth" 595 (page_width rd)
      /\ attribute_is root "pageHeight" 842 (page_height rd)
      /\ attribute_is root "columnWidth" 555 (column_width rd)
      /\ attribute_is root "leftMargin" 20 (left_margin rd)
      /\ attribute_is root "rightMargin" 20 (right_margin rd)
      /\ attribute_is root "topMargin" 20 (top_margin rd)
      /\ attribute_is root "bottomMargin" 20 (bottom_margin rd))
  /\ (forall key s,
         In key geometry_keys -> ET.get root key = Some s ->
         py_int s = None ->
         exists msg, JRXMLParser.parse content = Raise (JRXMLParseError msg)).
Proof.
  intros Hroot. split.
  - intros rd Hrd. apply parse_root_geometry.
    exact (parse_ok_root content root rd Hroot Hrd).
  - intros key s Hkey Hget Hint.
    destruct (JRXMLParser.parse content) as [rd|e] eqn:E.
    + exfalso.
      pose proof (parse_root_geometry root rd
                    (parse_ok_root content root rd Hroot E))
        as (_ & H1 & H2 & H3 & H4 & H5 & H6 & H7).
      unfold attribute_is in *. cbn [geometry_keys In] in Hkey.
      repeat (destruct Hkey as [<- | Hkey];
              [rewrite Hget in *; congruence|]).
      destruct Hkey.
    + destruct (parse_error_only content e E) as [msg ->]. eauto.
Qed.

End Geometry.

Lemma X9_witness :
  (forall rd,
      @JRXMLParser.parse Examples.offline_runtime Examples.sample_source
      = Ok rd ->
      rd_name rd = ET.get_default Examples.sample_tree "name" "Report"
      /\ @attribute_is Examples.offline_runtime Examples.sample_tree
           "pageWidth" 595 (page_width rd)
      /\ @attribute_is Examples.offline_runtime Examples.sample_tree
           "pageHeight" 842 (page_height rd)
      /\ @attribute_is Examples.offline_runtime Examples.sample_tree
           "columnWidth" 555 (column_width rd)
      /\ @attribute_is Examples.offline_runtime Examples.sample_tree
           "leftMargin" 20 (left_margin rd)
      /\ @attribute_is Examples.offline_runtime Examples.sample_tree
           "rightMargin" 20 (right_margin rd)
      /\ @attribute_is Examples.offline_runtime Examples.sample_tree
           "topMargin" 20 (top_margin rd)
      /\ @attribute_is Examples.offline_runtime Examples.sample_tree
           "bottomMargin" 20 (bottom_margin rd))
  /\ (forall key s,
         In key geometry_keys -> ET.get Examples.sample_tree key = Some s ->
         @py_int Examples.offline_runtime s = None ->
         exists msg,
           @JRXMLParser.parse Examples.offline_runtime Examples.sample_source
           = Raise (JRXMLParseError msg)).
Proof.
  exact (@X9_page_geometry Examples.offline_runtime Examples.sample_source
           Examples.sample_tree eq_refl).
Defined.

Lemma descendants_of_leaves (decls : list (string * string)) :
  flat_map (fun c => c :: ET.descendants c) (map field_element decls)
  = map field_element decls.
Proof.
  induction decls as [|d decls IH]; [reflexivity|].
  cbn [map flat_map]. now rewrite IH.
Qed.

Lemma qualified_fields_none (ns : string) (decls : list (string * string)) :
  filter (ET.has_tag (ET.qname ns "field")) (map field_element decls) = [].
Proof.
  induction decls as [|d decls IH]; [reflexivity|].
  cbn [map filter]. now rewrite IH.
Qed.

Lemma plain_fields_all (decls : list (string * string)) :
  filter (ET.has_tag "field") (map field_element decls)
  = map field_element decls.
Proof.
  induction decls as [|d decls IH]; [reflexivity|].
  cbn [map filter]. now rewrite IH.
Qed.

Section Fields.
Context `{Runtime}.

Lemma parse_fields_of_declarations
      (ns tag : string) (attrib : dict string) (text : option string)
      (decls : list (string * string)) :
  Forall (fun d => PyStr.nonempty (fst d) = true) decls ->
  JRXMLParser._parse_fields ns
    (mkElement tag attrib text (map field_element decls))
  = map (fun d => mkField (fst d) (snd d) None) decls.
Proof.
  intros Hnames. unfold JRXMLParser._parse_fields,
    JRXMLParser.findall_desc_ns, ET.findall_desc.
  cbn [ET.descendants]. rewrite descendants_of_leaves,
    qualified_fields_none, plain_fields_all. cbn [or_if_empty].
  induction Hnames as [|d decls Hd _ IH]; [reflexivity|].
  cbn [map flat_map]. rewrite IH.
  unfold truthy at 1, ET.get at 1. cbn [field_element elem_attrib dict_lookup].
  change ("name" =? "name")%string with true. cbv iota. rewrite Hd.
  reflexivity.
Qed.

(** X10: field declarations come back from the parser as written:
    for a root element whose children are the elements
    [<field name=n class=c/>] of a list of declarations with non-empty
    names, the parsed template's fields are those names and classes,
    in declaration order, without description. *)
Theorem X10_fields_round_trip
        (content tag : string) (attrib : dict string) (text : option string)
        (decls : list (string * string)) (rd : ReportDefinition) :
  Forall (fun d => PyStr.nonempty (fst d) = true) decls ->
  ET_fromstring content
  = Ok (mkElement tag attrib text (map field_element decls)) ->
  JRXMLParser.parse content = Ok rd ->
  rd_fields rd = map (fun d => mkField (fst d) (snd d) None) decls.
Proof.
  intros Hnames Hroot Hparse.
  destruct (parse_stored content rd Hparse)
    as (root & ns & bands & Hroot' & _ & _ & _ & _ & Hfields).
  rewrite Hroot in Hroot'. injection Hroot' as <-.
  rewrite Hfields. now apply parse_fields_of_declarations.
Qed.

End Fields.

Lemma X10_witness :
  rd_fields Samples.abc_report
  = map (fun d => mkField (fst d) (snd d) None) Samples.abc_declarations.
Proof.
  apply (@X10_fields_round_trip Samples.abc_runtime "<jasperReport/>" "jasperReport"
           [] None Samples.abc_declarations Samples.abc_report).
  - repeat constructor.
  - reflexivity.
  - reflexivity.
Defined.

Lemma dict_set_entries {V : Type} (d : dict V) (k k' : string) (v v' : V) :
  In (k', v') (dict_set d k v) -> (k' = k /\ v' = v) \/ In (k', v') d.
Proof.
  induction d as [|[k0 v0] d IH]; cbn [dict_set].
  - intros [E | []]. injection E as <- <-. now left.
  - destruct (String.eqb k0 k) eqn:Ek.
    + apply String.eqb_eq in Ek. subst k0.
      intros [E | Hin]; [injection E as <- <-; now left | right; now right].
    + intros [E | Hin]; [right; now left|].
      destruct (IH Hin) as [Hl | Hr]; [now left | right; now right].
Qed.

Lemma dict_set_keys_nodup {V : Type} (d : dict V) (k : string) (v : V) :
  NoDup (dict_keys d) -> NoDup (dict_keys (dict_set d k v)).
Proof.
  unfold dict_keys. induction d as [|[k0 v0] d IH]; intros Hnd;
    cbn [dict_set map fst].
  - constructor; [intros [] | constructor].
  - cbn [map fst] in Hnd. apply NoDup_cons_iff in Hnd as [Hk Hnd].
    destruct (String.eqb k0 k) eqn:Ek; cbn [map fst].
    + now constructor.
    + constructor; [|now apply IH].
      intros Hin. apply (dict_keys_set d k k0 v) in Hin as [-> | Hin].
      * now rewrite String.eqb_refl in Ek.
      * now apply Hk.
Qed.

Section Bands.
Context `{Runtime}.

Lemma parse_band_well_keyed ns root bands band_type bands' :
  JRXMLParser._parse_band ns root bands band_type = Ok bands' ->
  well_keyed bands -> well_keyed bands'.
Proof.
  unfold JRXMLParser._parse_band. intros Hp [Hnd Hnames].
  destruct (or_else _ _) as [band_elem|].
  - apply bind_ok in Hp as (height & _ & Hp).
    apply bind_ok in Hp as (elements & _ & Hp). injection Hp as <-.
    split; [now apply dict_set_keys_nodup|].
    intros k b Hin. apply dict_set_entries in Hin as [[-> ->] | Hin];
      [reflexivity | now apply Hnames].
  - injection Hp as <-. now split.
Qed.

Lemma parse_bands_loop_well_keyed ns root types : forall bands bands',
  JRXMLParser._parse_bands_loop ns root bands types = Ok bands' ->
  well_keyed bands -> well_keyed bands'.
Proof.
  induction types as [|t types IH]; intros bands bands' Hp Hw;
    cbn [JRXMLParser._parse_bands_loop] in Hp.
  - now injection Hp as <-.
  - apply bind_ok in Hp as (bands1 & H1 & Hp).
    apply (IH _ _ Hp). exact (parse_band_well_keyed _ _ _ _ _ H1 Hw).
Qed.

Lemma lookup_in {V : Type} (d : dict V) (k : string) (v : V) :
  dict_lookup d k = Some v -> In (k, v) d.
Proof.
  induction d as [|[k0 v0] d IH]; cbn [dict_lookup]; [discriminate|].
  destruct (String.eqb k0 k) eqn:E.
  - apply String.eqb_eq in E. subst. intros Hv. injection Hv as ->. now left.
  - intros Hv. right. now apply IH.
Qed.

(** X11: the band mapping of a parsed template is consistent: its
    keys are distinct, and the band stored under a key carries that
    key as its name, so that the band a renderer looks up under
    [detail] is the detail band. *)
Theorem X11_parsed_bands_well_keyed (content : string) (rd : ReportDefinition) :
  JRXMLParser.parse content = Ok rd ->
  NoDup (dict_keys (rd_bands rd))
  /\ (forall k b, dict_lookup (rd_bands rd) k = Some b -> band_name b = k).
Proof.
  intros Hparse.
  destruct (parse_stored content rd Hparse)
    as (root & ns & bands & _ & _ & Hbands & Hrd & _).
  rewrite Hrd.
  destruct (parse_bands_loop_well_keyed ns root JRXMLParser.band_types
              [] bands Hbands) as [Hnd Hnames].
  - split; [constructor | intros k b []].
  - split; [exact Hnd|]. intros k b Hl. apply Hnames. now apply lookup_in.
Qed.

End Bands.

Lemma X11_witness :
  exists rd,
    @JRXMLParser.parse Examples.offline_runtime Examples.sample_source = Ok rd
    /\ NoDup (dict_keys (rd_bands rd))
    /\ (forall k b, dict_lookup (rd_bands rd) k = Some b -> band_name b = k).
Proof.
  eexists. split; [reflexivity|].
  exact (@X11_parsed_bands_well_keyed Examples.offline_runtime
           Examples.sample_source _ eq_refl).
Defined.

Lemma quoted_literal (s : string) :
  is_quoted (PyStr.dquote +++ s +++ PyStr.dquote) = true
  /\ PyStr.slice 1 1 (PyStr.dquote +++ s +++ PyStr.dquote) = s.
Proof.
  split.
  - unfold is_quoted, PyStr.startswith, PyStr.endswith.
    rewrite prefix_append. cbn [andb].
    replace (PyStr.dquote +++ s +++ PyStr.dquote)
      with ((PyStr.dquote +++ s) +++ PyStr.dquote) by apply append_assoc.
    rewrite length_append. apply andb_true_iff. split.
    + apply Nat.leb_le. lia.
    + replace (String.length (PyStr.dquote +++ s) + String.length PyStr.dquote
               - String.length PyStr.dquote)%nat
        with (String.length (PyStr.dquote +++ s)) by lia.
      rewrite substring_skip. reflexivity.
  - unfold PyStr.slice. rewrite !length_append.
    change (String.length PyStr.dquote) with 1%nat.
    replace (1 + (String.length s + 1) - 1 - 1)%nat
      with (String.length s) by lia.
    change 1%nat with (String.length PyStr.dquote) at 1.
    rewrite substring_skip. apply substring_prefix.
Qed.

Lemma rewrite_wrapped (e : string) :
  is_cdata e = false ->
  rewrite_expression (cdata_open +++ e +++ cdata_close) = rewrite_expression e.
Proof.
  intros Hplain. unfold rewrite_expression.
  now rewrite is_cdata_wrapped, slice_wrapped, Hplain.
Qed.

Section Literals.
Context `{Runtime}.

(** X12: a double-quoted literal without dollar and plus signs
    evaluates to the text between its quotes, whatever the row, the
    variables and the parameters are, and without reaching the
    interpreter. *)
Theorem X12_string_literal (ev : ExpressionEvaluator) (s : string) :
  PyStr.all_chars no_dollar s = true ->
  PyStr.all_chars no_plus s = true ->
  evaluate ev (PyStr.dquote +++ s +++ PyStr.dquote) = Ok s.
Proof.
  intros Hd Hp. unfold evaluate.
  replace (PyStr.nonempty (PyStr.dquote +++ s +++ PyStr.dquote))
    with true by reflexivity.
  cbn [negb]. rewrite rewrite_free_id.
  - destruct (quoted_literal s) as [Hq Hs].
    unfold evaluate_try. now rewrite Hq, Hs.
  - unfold rewrite_free.
    replace (is_cdata (PyStr.dquote +++ s +++ PyStr.dquote)) with false
      by reflexivity.
    now rewrite !all_chars_append, Hd, Hp.
Qed.

(** X13: a CDATA wrapper around an expression is transparent: a
    non-empty expression that is not itself wrapped evaluates, once
    wrapped in [<![CDATA[ ... ]]>], to what it evaluates to bare. *)
Theorem X13_cdata_transparent (ev : ExpressionEvaluator) (e : string) :
  PyStr.nonempty e = true ->
  is_cdata e = false ->
  evaluate ev (cdata_open +++ e +++ cdata_close) = evaluate ev e.
Proof.
  intros Hne Hplain. unfold evaluate.
  replace (PyStr.nonempty (cdata_open +++ e +++ cdata_close))
    with true by reflexivity.
  now rewrite Hne, (rewrite_wrapped e Hplain).
Qed.


End Literals.

Lemma X12_witness :
  @evaluate Examples.offline_runtime (mkEvaluator [] [] [])
    (PyStr.dquote +++ "Total:" +++ PyStr.dquote) = Ok "Total:".
Proof.
  exact (@X12_string_literal Examples.offline_runtime (mkEvaluator [] [] [])
           "Total:" eq_refl eq_refl).
Defined.

Lemma X13_witness :
  @evaluate Examples.offline_runtime (mkEvaluator [("name", VStr "Item 1")] [] [])
    "<![CDATA[$F{name}]]>"
  = @evaluate Examples.offline_runtime
      (mkEvaluator [("name", VStr "Item 1")] [] []) "$F{name}".
Proof.
  exact (@X13_cdata_transparent Examples.offline_runtime
           (mkEvaluator [("name", VStr "Item 1")] [] []) "$F{name}"
           eq_refl eq_refl).
Defined.


(** X16: [group_by] lists the groups in the order in which their keys
    first appear in the data, each with the rows of that key in data
    order: the first group is that of the first row, and the others
    are the groups of the remaining rows with other keys. *)
Theorem X16_groups_in_order_of_first_appearance
        (data : list DataRow) (field : string) :
  DataProcessor.group_by data field
  = map (group_of field data) (map fst (DataProcessor.group_by data field))
  /\ (forall row rest,
        data = row :: rest ->
        map fst (DataProcessor.group_by data field)
        = dict_get row field VNone
          :: filter (other_key (dict_get row field VNone))
                    (map fst (DataProcessor.group_by rest field))).
Proof.
  split.
  - rewrite group_by_keys. apply group_by_groups.
  - intros row rest ->. rewrite !group_by_keys. apply first_values_cons.
Qed.

Lemma take_length {A : Type} (limit : Z) (l : list A) :
  (0 <= limit)%Z -> (List.length (Core.take limit l) <= Z.to_nat limit)%nat.
Proof.
  intros Hl. unfold Core.take.
  replace (0 <=? limit)%Z with true by (symmetry; now apply Z.leb_le).
  apply firstn_le_length.
Qed.

Lemma take_prefix {A : Type} (limit : Z) (l : list A) :
  exists rest, l = Core.take limit l ++ rest.
Proof.
  unfold Core.take. destruct (0 <=? limit)%Z; eexists;
    symmetry; apply firstn_skipn.
Qed.

Lemma map_chars_append (f : ascii -> ascii) (a b : string) :
  PyStr.map_chars f (a +++ b) = PyStr.map_chars f a +++ PyStr.map_chars f b.
Proof.
  induction a as [|c a IH]; [reflexivity|].
  cbn [String.append PyStr.map_chars]. now rewrite IH.
Qed.

Section FacadeData.
Context `{Runtime}.
Import Core.

Lemma preview_bounded (self : JasperReport) (limit : Z) :
  exists rows,
    preview_data self limit = Ok rows
    /\ ((0 <= limit)%Z -> (List.length rows <= Z.to_nat limit)%nat)
    /\ (data self <> [] -> exists rest, data self = rows ++ rest).
Proof.
  unfold preview_data. destruct (data self) as [|row rows] eqn:Ed.
  - cbn [is_nil].
    assert (Hnil : exists rows0 : list DataRow,
               Ok (@nil DataRow) = Ok rows0
               /\ ((0 <= limit)%Z -> (List.length rows0 <= Z.to_nat limit)%nat)
               /\ (@nil DataRow <> [] -> exists rest, @nil DataRow = rows0 ++ rest)).
    { exists []. split; [reflexivity|]. split; [cbn; lia | now intros []]. }
    destruct (database_engine self) as [engine|]; [|exact Hnil].
    destruct (truthy (rd_query (report_def self))) as [query|]; [|exact Hnil].
    destruct (engine_execute_query engine (preview_query engine query limit)
                                   (parameters self)) as [preview|e];
      [|exact Hnil].
    cbn [bind try_except]. eexists. split; [reflexivity|].
    split; [apply take_length | now intros []].
  - cbn [is_nil]. eexists. split; [reflexivity|].
    split; [apply take_length | intros _; apply take_prefix].
Qed.

(** X17: [preview_data] never raises; for a limit that is not
    negative it returns at most [limit] rows; and when data is bound
    the rows it returns are the first rows of that data. *)
Theorem X17_preview_is_bounded (self : JasperReport) (limit : Z) :
  exists rows,
    preview_data self limit = Ok rows
    /\ ((0 <= limit)%Z -> (List.length rows <= Z.to_nat limit)%nat)
    /\ (data self <> [] -> exists rest, data self = rows ++ rest).
Proof. exact (preview_bounded self limit). Qed.


Lemma valid_iff (self : JasperReport) :
  valid (validate_report self) = true
  <-> (has_query self = true \/ data self <> [])
      /\ reference_issues self = []
      /\ (forall engine, database_engine self = Some engine ->
                         engine_test_connection engine = true).
Proof.
  unfold validate_report.
  destruct (database_engine self) as [engine|];
    [destruct (engine_test_connection engine) eqn:Et|];
    destruct (has_query self); destruct (data self) as [|row rows];
    destruct (reference_issues self) as [|issue more];
    cbn [valid negb andb is_nil app]; split;
    try (intros Hv; discriminate Hv);
    try (intros (Hs & Hr & Hc); try discriminate Hr;
         try (destruct Hs as [Hs | Hs]; [discriminate Hs | now elim Hs]);
         try (specialize (Hc engine eq_refl); congruence);
         reflexivity);
    intros _; (split; [first [now left | right; discriminate]|]);
    (split; [reflexivity|]); intros engine' Heq;
    first [discriminate Heq | injection Heq as <-; exact Et].
Qed.

(** X20: a report validates exactly when it has a query or data, no
    element refers to an undeclared field, and the data source, if
    one is configured, passes its connection test; warnings do not
    count. *)
Theorem X20_valid_iff_no_issue (self : JasperReport) :
  valid (validate_report self) = true
  <-> (has_query self = true \/ data self <> [])
      /\ reference_issues self = []
      /\ (forall engine, database_engine self = Some engine ->
                         engine_test_connection engine = true).
Proof. exact (valid_iff self). Qed.

Lemma connection_cases (self : JasperReport) (connection : string) :
  match set_database_connection self connection with
  | Ok self' =>
      supported_scheme connection = true
      /\ (exists t, database_engine self'
                    = Some (mkDatabaseEngine connection t))
      /\ report_def self' = report_def self
      /\ data self' = data self
      /\ parameters self' = parameters self
  | Raise e =>
      supported_scheme connection = false
      /\ e = DatabaseError
               ("Failed to configure database: "
                +++ "Unsupported database type in connection string: "
                +++ connection)
  end.
Proof.
  unfold set_database_connection, _detect_db_type, supported_scheme.
  destruct (PyStr.startswith "sqlite:///" connection);
    [cbn [bind try_except orb with_engine database_engine report_def data
          parameters]; repeat split; eauto|].
  destruct (PyStr.startswith "mysql://" connection);
    [cbn [bind try_except orb with_engine database_engine report_def data
          parameters]; repeat split; eauto|].
  destruct (PyStr.startswith "postgresql://" connection);
    cbn [bind try_except orb with_engine database_engine report_def data
         parameters exn_str]; repeat split; eauto.
Qed.

(** X21: [set_database_connection] accepts exactly the connection
    strings that start with [sqlite:///], [mysql://] or
    [postgresql://]; it then stores an engine for that string and
    leaves template, data and parameters alone, and otherwise raises a
    [DatabaseError] that quotes the string. *)
Theorem X21_connection_schemes (self : JasperReport) (connection : string) :
  match set_database_connection self connection with
  | Ok self' =>
      supported_scheme connection = true
      /\ (exists t, database_engine self'
                    = Some (mkDatabaseEngine connection t))
      /\ report_def self' = report_def self
      /\ data self' = data self
      /\ parameters self' = parameters self
  | Raise e =>
      supported_scheme connection = false
      /\ e = DatabaseError
               ("Failed to configure database: "
                +++ "Unsupported database type in connection string: "
                +++ connection)
  end.
Proof. exact (connection_cases self connection). Qed.

End FacadeData.

(** X22: the preview query always carries a limit, and adding the
    limit twice changes nothing more: a query that mentions [LIMIT],
    in any case, is executed as it is. *)
Theorem X22_preview_query_idempotent
        (engine engine' : DatabaseEngine) (query : string) (limit limit' : Z) :
  PyStr.contains "LIMIT" (PyStr.upper (Core.preview_query engine query limit))
  = true
  /\ Core.preview_query engine' (Core.preview_query engine query limit) limit'
     = Core.preview_query engine query limit.
Proof.
  assert (Hc : PyStr.contains "LIMIT"
                 (PyStr.upper (Core.preview_query engine query limit)) = true).
  { unfold Core.preview_query.
    destruct (PyStr.contains "LIMIT" (PyStr.upper query)) eqn:E;
      cbn [negb]; [exact E|].
    assert (Hq : PyStr.contains "LIMIT"
                   (PyStr.upper (query +++ " LIMIT " +++ PyStr.of_Z limit))
                 = true).
    { unfold PyStr.upper. rewrite map_chars_append.
      apply contains_after. rewrite map_chars_append.
      apply (contains_after "LIMIT" " "). apply contains_prefix.
      apply (prefix_append "LIMIT"). }
    now destruct (db_type engine). }
  split; [exact Hc|].
  unfold Core.preview_query at 1. now rewrite Hc.
Qed.


Section PdfRows.
Context `{Runtime}.
Import PDFRenderer.






End PdfRows.

Section HeaderBands.
Context `{Runtime}.
Import HTMLRenderer.

(** X26: bands rendered without a row do not evaluate their text
    fields: in the title, page header and column header a text field
    shows its expression as written; so the title and the page header
    are the same for every data and every parameters. *)
Theorem X26_header_text_fields_not_evaluated
        (self : BaseRenderer) (element : ReportElement) (expression : string) :
  element_type element = "textField" ->
  el_expression element = Some expression ->
  PyStr.nonempty expression = true ->
  _render_element self element [] None
  = Ok ("<div class=" +++ quoted "element textField" +++ " style="
        +++ quoted (PyStr.join "; " (style_parts element))
        +++ ">" +++ expression +++ "</div>")
  /\ (forall data parameters,
        _render_title (Base.set_parameters (Base.set_data self data) parameters)
        = _render_title self
        /\ _render_page_header
             (Base.set_parameters (Base.set_data self data) parameters)
           = _render_page_header self).
Proof.
  intros Hty Hex Hne. split.
  - unfold _render_element. rewrite Hty, Hex.
    change ("textField" =? "staticText")%string with false.
    change ("textField" =? "textField")%string with true.
    cbv iota. unfold truthy. rewrite Hne. cbn [bind].
    replace (format_currency element expression) with expression;
      [reflexivity|].
    unfold format_currency. rewrite Hex, Hne, String.eqb_refl.
    cbn [negb andb opt_str].
    now destruct (PyStr.contains "amount" (PyStr.lower expression)
                  || PyStr.contains "salary" (PyStr.lower expression)).
  - intros data parameters. split; reflexivity.
Qed.

End HeaderBands.

Lemma X26_witness :
  @HTMLRenderer._render_element Examples.offline_runtime
    (Base.new_renderer (Examples.report_with [] [] [] []))
    (Examples.plain_element "textField" None (Some "$P{title}")) [] None
  = Ok ("<div class=" +++ HTMLRenderer.quoted "element textField" +++ " style="
        +++ HTMLRenderer.quoted
              (PyStr.join "; "
                 (HTMLRenderer.style_parts
                    (Examples.plain_element "textField" None
                                            (Some "$P{title}"))))
        +++ ">" +++ "$P{title}" +++ "</div>").
Proof.
  exact (proj1 (@X26_header_text_fields_not_evaluated Examples.offline_runtime
                  (Base.new_renderer (Examples.report_with [] [] [] []))
                  (Examples.plain_element "textField" None (Some "$P{title}"))
                  "$P{title}" eq_refl eq_refl eq_refl)).
Defined.

Section IntegrationFacade.
Context `{Runtime}.

Lemma new_report_fresh content report :
  Core.new_report content = Ok report ->
  data report = [] /\ database_engine report = None /\ parameters report = [].
Proof.
  unfold Core.new_report. destruct (negb (PyStr.nonempty content));
    [discriminate|].
  destruct (JRXMLParser.parse content) as [rd|e]; [|discriminate].
  cbn [bind try_except]. intros E. injection E as <-. now repeat split.
Qed.

(** X24: [validate_jrxml] never raises.  It finds a template valid
    exactly when the source parses to a template that has a query and
    whose elements refer to declared fields only; a source that does
    not parse gives one issue, the parser's message after
    [Validation failed: ], no warning and no info. *)
Theorem X24_validate_jrxml (content : string) :
  (jv_valid (Integration.validate_jrxml content) = true
   <-> exists report,
        Core.new_report content = Ok report
        /\ Core.has_query report = true
        /\ Core.reference_issues report = [])
  /\ (forall e,
        Core.new_report content = Raise e ->
        Integration.validate_jrxml content
        = mkJrxmlValidation false ["Validation failed: " +++ exn_str e]
                            [] None).
Proof.
  unfold Integration.validate_jrxml.
  destruct (Core.new_report content) as [report|e] eqn:En.
  - split; [|discriminate]. cbn [jv_valid].
    destruct (new_report_fresh content report En) as (Hd & He & _).
    rewrite (valid_iff report). split.
    + intros ([Hq | Hdata] & Hr & _); [|now elim Hdata].
      exists report. now repeat split.
    + intros (report' & E & Hq & Hr). injection E as <-.
      split; [now left|]. split; [exact Hr|].
      intros engine Hengine. rewrite He in Hengine. discriminate Hengine.
  - split.
    + cbn [jv_valid]. split; [discriminate|].
      intros (report & E & _). discriminate E.
    + intros e' E. now injection E as <-.
Qed.

(** X25: the integration's [preview_data] reports an error exactly
    when the source does not parse, the connection string is empty or
    its scheme is not supported; a query that fails is not an error
    but an empty preview.  With an error there are no rows, and for a
    limit that is not negative there are never more than [limit]. *)
Theorem X25_integration_preview
        (content connection : string) (limit : Z) :
  let (rows, error) := Integration.preview_data content connection limit in
  (error = None
   <-> (exists report, Core.new_report content = Ok report)
       /\ PyStr.nonempty connection = true
       /\ supported_scheme connection = true)
  /\ (error <> None -> rows = [])
  /\ ((0 <= limit)%Z -> (List.length rows <= Z.to_nat limit)%nat).
Proof.
  unfold Integration.preview_data.
  destruct (Core.new_report content) as [report|e]; cbn [bind].
  - destruct (PyStr.nonempty connection).
    + pose proof (connection_cases report connection) as Hc.
      destruct (Core.set_database_connection report connection)
        as [report'|e]; cbn [bind].
      * destruct Hc as (Hs & _).
        destruct (preview_bounded report' limit) as (rows & Hrows & Hlen & _).
        rewrite Hrows. cbn [bind]. split; [|split].
        -- split; [intros _; split; eauto | reflexivity].
        -- intros Hn. now elim Hn.
        -- exact Hlen.
      * destruct Hc as (Hs & _). split; [|split].
        -- split; [discriminate|]. intros (_ & _ & Hs').
           rewrite Hs in Hs'. discriminate Hs'.
        -- reflexivity.
        -- cbn. lia.
    + split; [|split].
      * split; [discriminate|]. intros (_ & Hn & _). discriminate Hn.
      * reflexivity.
      * cbn. lia.
  - split; [|split].
    + split; [discriminate|]. intros ((report & E) & _). discriminate E.
    + reflexivity.
    + cbn. lia.
Qed.

End IntegrationFacade.

Lemma for_each_all {A B : Type} (f : A -> result (list B)) (P : B -> Prop)
      (l : list A) :
  (forall a bs, f a = Ok bs -> Forall P bs) ->
  forall bss, for_each f l = Ok bss -> Forall P (concat bss).
Proof.
  intros Hf. induction l as [|a l IH]; intros bss Hbss; cbn [for_each] in Hbss.
  - injection Hbss as <-. constructor.
  - apply bind_ok in Hbss as (bs & Hbs & Hbss).
    apply bind_ok in Hbss as (bss' & Hrest & Hbss). injection Hbss as <-.
    cbn [concat]. apply Forall_app. split; [exact (Hf _ _ Hbs) | now apply IH].
Qed.

Lemma truthy_named (s : option string) (name : string) :
  truthy s = Some name -> named name.
Proof.
  unfold truthy, named. destruct s as [t|]; [|discriminate].
  destruct (PyStr.nonempty t) eqn:E; [|discriminate].
  intros Hn. now injection Hn as <-.
Qed.

Section ParsedTemplate.
Context `{Runtime}.
Import JRXMLParser.

Lemma parse_element_plain ns elem kind element :
  _parse_element ns elem kind = Ok (Some element) ->
  element_type element = kind
  /\ el_content element = None /\ el_expression element = None.
Proof.
  unfold _parse_element.
  destruct (find_child_ns ns "reportElement" elem); [|discriminate].
  intros E.
  apply bind_ok in E as (x & _ & E). apply bind_ok in E as (y & _ & E).
  apply bind_ok in E as (w & _ & E). apply bind_ok in E as (h & _ & E).
  apply bind_ok in E as (style & _ & E). injection E as <-.
  now repeat split.
Qed.

Lemma parse_static_text_kind ns static_elem elements :
  _parse_static_text ns static_elem = Ok elements ->
  Forall static_kind elements.
Proof.
  unfold _parse_static_text. intros E.
  apply bind_ok in E as ([element|] & He & E); injection E as <-;
    [|constructor].
  destruct (parse_element_plain _ _ _ _ He) as (Ht & _ & Hx).
  constructor; [|constructor]. split; [exact Ht | exact Hx].
Qed.

Lemma parse_text_field_kind ns field_elem elements :
  _parse_text_field ns field_elem = Ok elements ->
  Forall field_kind elements.
Proof.
  unfold _parse_text_field. intros E.
  apply bind_ok in E as ([element|] & He & E); injection E as <-;
    [|constructor].
  destruct (parse_element_plain _ _ _ _ He) as (Ht & Hc & _).
  constructor; [|constructor]. split; [exact Ht | exact Hc].
Qed.

Lemma parse_band_elements_sorted ns band_elem elements :
  _parse_band_elements ns band_elem = Ok elements -> statics_first elements.
Proof.
  unfold _parse_band_elements. intros E.
  apply bind_ok in E as (statics & Hs & E).
  apply bind_ok in E as (fields & Hf & E). injection E as <-.
  exists (concat statics), (concat fields). split; [reflexivity|]. split.
  - exact (for_each_all _ _ _ (parse_static_text_kind ns) _ Hs).
  - exact (for_each_all _ _ _ (parse_text_field_kind ns) _ Hf).
Qed.

Lemma parse_band_sorted ns root bands band_type bands' :
  _parse_band ns root bands band_type = Ok bands' ->
  (forall k b, In (k, b) bands -> statics_first (band_elements b)) ->
  forall k b, In (k, b) bands' -> statics_first (band_elements b).
Proof.
  unfold _parse_band. intros Hp Hall.
  destruct (or_else _ _) as [band_elem|].
  - apply bind_ok in Hp as (height & _ & Hp).
    apply bind_ok in Hp as (elements & He & Hp). injection Hp as <-.
    intros k b Hin. apply dict_set_entries in Hin as [[_ ->] | Hin].
    + exact (parse_band_elements_sorted _ _ _ He).
    + exact (Hall _ _ Hin).
  - now injection Hp as <-.
Qed.

Lemma parse_bands_loop_sorted ns root types : forall bands bands',
  _parse_bands_loop ns root bands types = Ok bands' ->
  (forall k b, In (k, b) bands -> statics_first (band_elements b)) ->
  forall k b, In (k, b) bands' -> statics_first (band_elements b).
Proof.
  induction types as [|t types IH]; intros bands bands' Hp Hall;
    cbn [_parse_bands_loop] in Hp.
  - now injection Hp as <-.
  - apply bind_ok in Hp as (bands1 & H1 & Hp).
    apply (IH _ _ Hp). exact (parse_band_sorted _ _ _ _ _ H1 Hall).
Qed.

(** X27: in every band of a parsed template the static texts come
    before the text fields, whatever their order in the source; each
    element is a [staticText] without expression or a [textField]
    without content. *)
Theorem X27_parsed_elements_statics_first
        (content : string) (rd : ReportDefinition) (k : string) (b : Band) :
  parse content = Ok rd ->
  dict_lookup (rd_bands rd) k = Some b ->
  statics_first (band_elements b).
Proof.
  intros Hparse Hb.
  destruct (parse_stored content rd Hparse)
    as (root & ns & bands & _ & _ & Hbands & Hrd & _).
  rewrite Hrd in Hb.
  apply (parse_bands_loop_sorted ns root band_types [] bands Hbands)
    with (k := k); [intros k' b' [] | now apply lookup_in].
Qed.

Lemma parse_lists (content : string) (rd : ReportDefinition) :
  parse content = Ok rd ->
  exists root ns,
    rd_fields rd = _parse_fields ns root
    /\ rd_variables rd = _parse_variables ns root
    /\ _parse_groups ns root = Ok (rd_groups rd)
    /\ rd_parameters rd = _parse_parameters ns root.
Proof.
  unfold parse. destruct (ET_fromstring content) as [root|e]; [|discriminate].
  destruct (parse_root root) as [rd'|e] eqn:E; cbn [try_except];
    [|discriminate].
  intros Hrd. injection Hrd as ->. unfold parse_root in E.
  apply bind_ok in E as (ns & _ & E).
  apply bind_ok in E as (pw & _ & E). apply bind_ok in E as (ph & _ & E).
  apply bind_ok in E as (cw & _ & E). apply bind_ok in E as (lm & _ & E).
  apply bind_ok in E as (rm & _ & E). apply bind_ok in E as (tm & _ & E).
  apply bind_ok in E as (bm & _ & E).
  apply bind_ok in E as (groups & Hg & E).
  apply bind_ok in E as (bands & _ & E). injection E as <-.
  exists root, ns. now repeat split.
Qed.

Lemma parse_group_named ns group_elem groups :
  _parse_group ns group_elem = Ok groups ->
  Forall (fun g => named (group_name g) /\ group_variables g = []) groups.
Proof.
  unfold _parse_group.
  destruct (truthy (ET.get group_elem "name")) as [name|] eqn:En.
  - intros E. apply bind_ok in E as (hh & _ & E).
    apply bind_ok in E as (fh & _ & E). injection E as <-.
    constructor; [|constructor].
    split; [exact (truthy_named _ _ En) | reflexivity].
  - intros E. injection E as <-. constructor.
Qed.

Lemma parse_parameters_named ns (elems : list Element) :
  forall parameters,
    Forall named (dict_keys parameters) ->
    Forall named
      (dict_keys
         (fold_left
            (fun parameters param_elem =>
               match truthy (ET.get param_elem "name") with
               | Some name =>
                   dict_set parameters name
                     (mkParameterSpec
                        (ET.get_default param_elem "class" "java.lang.String")
                        (child_text ns "defaultValueExpression" param_elem))
               | None => parameters
               end) elems parameters)).
Proof.
  induction elems as [|e elems IH]; intros parameters Hall; cbn [fold_left];
    [exact Hall|].
  apply IH. destruct (truthy (ET.get e "name")) as [name|] eqn:En;
    [|exact Hall].
  apply Forall_forall. intros k Hk.
  apply dict_keys_set in Hk as [-> | Hk].
  - exact (truthy_named _ _ En).
  - rewrite Forall_forall in Hall. now apply Hall.
Qed.

(** X28: a parsed template holds no nameless declaration: every
    field, variable, group and parameter of it has a non-empty name
    (declarations without one are dropped), and a parsed group carries
    no variables of its own. *)
Theorem X28_parsed_declarations_named
        (content : string) (rd : ReportDefinition) :
  parse content = Ok rd ->
  Forall (fun f => named (field_name f)) (rd_fields rd)
  /\ Forall (fun v => named (var_name v)) (rd_variables rd)
  /\ Forall (fun g => named (group_name g) /\ group_variables g = [])
            (rd_groups rd)
  /\ Forall named (dict_keys (rd_parameters rd)).
Proof.
  intros Hparse.
  destruct (parse_lists content rd Hparse) as (root & ns & Hf & Hv & Hg & Hp).
  rewrite Hf, Hv, Hp. split; [|split; [|split]].
  - unfold _parse_fields. apply Forall_flat_map, Forall_forall.
    intros e _. destruct (truthy (ET.get e "name")) as [name|] eqn:En;
      constructor; [exact (truthy_named _ _ En) | constructor].
  - unfold _parse_variables. apply Forall_flat_map, Forall_forall.
    intros e _. destruct (truthy (ET.get e "name")) as [name|] eqn:En;
      constructor; [exact (truthy_named _ _ En) | constructor].
  - unfold _parse_groups in Hg. apply bind_ok in Hg as (gs & Hgs & Hg).
    injection Hg as <-.
    exact (for_each_all _ _ _ (parse_group_named ns) _ Hgs).
  - unfold _parse_parameters. apply parse_parameters_named. constructor.
Qed.

End ParsedTemplate.

Lemma X27_witness :
  exists rd b,
    @JRXMLParser.parse Examples.offline_runtime Examples.sample_source = Ok rd
    /\ dict_lookup (rd_bands rd) "detail" = Some b
    /\ statics_first (band_elements b).
Proof.
  do 2 eexists. split; [reflexivity|]. split; [reflexivity|].
  exact (@X27_parsed_elements_statics_first Examples.offline_runtime
           Examples.sample_source _ "detail" _ eq_refl eq_refl).
Defined.

Lemma X28_witness :
  exists rd,
    @JRXMLParser.parse Examples.offline_runtime Examples.sample_source = Ok rd
    /\ Forall (fun f => named (field_name f)) (rd_fields rd).
Proof.
  eexists. split; [reflexivity|].
  exact (proj1 (@X28_parsed_declarations_named Examples.offline_runtime
                  Examples.sample_source _ eq_refl)).
Defined.

(* ================================================================== *)
(** * Scopes, layout and runs *)
(* ================================================================== *)

(** C1 (as amended): [group_by] forms one partition per distinct key
    value, in the order in which the key values first occur, each
    holding every row of the whole sequence with that key in row
    order, adjacent or not; the rows [{k:1},{k:2},{k:1}] grouped by
    [k] give two partitions, of sizes 2 and 1. *)
Theorem C1_group_by_collects_equal_keys (data : list DataRow) (field : string) :
  let groups := DataProcessor.group_by data field in
  NoDup (map key_of groups)
  /\ (forall g, In g groups -> snd g = filter (with_key field (fst g)) data)
  /\ (forall row, In row data ->
                  In (group_key field row) (map key_of groups))
  /\ map fst groups = first_values field data
  /\ (forall row rest,
        data = row :: rest ->
        map fst groups
        = dict_get row field VNone
          :: filter (other_key (dict_get row field VNone))
                    (map fst (DataProcessor.group_by rest field)))
  /\ map (fun g => List.length (snd g))
         (DataProcessor.group_by Examples.k_rows "k") = [2; 1]%nat.
Proof.
  destruct (group_by_grouped field data) as [Hnd Hrows Hcover].
  cbv zeta. split; [exact Hnd|]. split; [exact Hrows|].
  split; [exact Hcover|]. split; [apply group_by_keys|].
  split; [|reflexivity].
  intros row rest ->. rewrite !group_by_keys. apply first_values_cons.
Qed.

(** C1 fails as stated: on [{k:1},{k:2},{k:1}] the partitions are not
    three of size 1, and not the contiguous runs. *)
Lemma C1_counterexample :
  map (fun g => List.length (snd g))
      (DataProcessor.group_by Examples.k_rows "k") <> [1; 1; 1]%nat
  /\ DataProcessor.group_by Examples.k_rows "k"
     <> adjacent_runs "k" Examples.k_rows.
Proof. split; vm_compute; discriminate. Qed.

(** ** References with plain names *)

Lemma name_char_cases (c : ascii) :
  name_char c = true ->
  no_brace c = true /\ no_quote c = true /\ plain_char c = true
  /\ no_dollar c = true /\ no_plus c = true.
Proof.
  unfold name_char. intros Hc.
  apply andb_true_iff in Hc as [Hc H5]. apply andb_true_iff in Hc as [Hc H4].
  apply andb_true_iff in Hc as [Hc H3]. apply andb_true_iff in Hc as [H1 H2].
  now repeat split.
Qed.

Lemma plain_name_chars (p : ascii -> bool) (name : string) :
  (forall c, name_char c = true -> p c = true) ->
  plain_name name = true -> PyStr.all_chars p name = true.
Proof.
  intros Hp Hn. unfold plain_name in Hn.
  apply andb_true_iff in Hn as [_ Hn].
  exact (all_chars_impl name_char p name Hp Hn).
Qed.

Lemma rewrite_plain_reference (sc : Scope) (name : string) :
  plain_name name = true ->
  rewrite_expression (reference sc name) = get_call sc name.
Proof.
  intros Hid.
  assert (Hne : PyStr.nonempty name = true)
    by (unfold plain_name in Hid; now apply andb_true_iff in Hid as [? _]).
  assert (Hb : PyStr.all_chars no_brace name = true)
    by (apply plain_name_chars; [apply name_char_cases | exact Hid]).
  assert (Hd : PyStr.all_chars no_dollar name = true)
    by (apply plain_name_chars; [apply name_char_cases | exact Hid]).
  assert (Hp : PyStr.all_chars no_plus name = true)
    by (apply plain_name_chars; [apply name_char_cases | exact Hid]).
  assert (Hcd : PyStr.all_chars no_dollar (get_call sc name) = true)
    by (apply get_call_chars; [reflexivity | exact Hd]).
  assert (Hcp : PyStr.all_chars no_plus (get_call sc name) = true)
    by (apply get_call_chars; [reflexivity | exact Hp]).
  assert (Hbody : PyStr.all_chars no_dollar (String "{" (name +++ "}")) = true).
  { cbn [PyStr.all_chars]. rewrite all_chars_append, Hd. reflexivity. }
  assert (Hnc : is_cdata (reference sc name) = false).
  { unfold is_cdata, PyStr.startswith, reference, cdata_open.
    rewrite prefix_cons_eq. reflexivity. }
  unfold rewrite_expression. rewrite Hnc.
  unfold reference.
  destruct sc; cbn [scope_sigil].
  - rewrite (sub_reference "F" (get_call ScData) name Hne Hb).
    rewrite (sub_no_dollar "V" _ _ Hcd), (sub_no_dollar "P" _ _ Hcd).
    rewrite (replace_no_plus " " " " " + str(" _ Hcp).
    now rewrite (contains_no_plus " " " str(" _ Hcp).
  - rewrite (sub_other_sigil "F" "V" _ _ eq_refl eq_refl Hbody).
    rewrite (sub_reference "V" (get_call ScVariables) name Hne Hb).
    rewrite (sub_no_dollar "P" _ _ Hcd).
    rewrite (replace_no_plus " " " " " + str(" _ Hcp).
    now rewrite (contains_no_plus " " " str(" _ Hcp).
  - rewrite (sub_other_sigil "F" "P" _ _ eq_refl eq_refl Hbody).
    rewrite (sub_other_sigil "V" "P" _ _ eq_refl eq_refl Hbody).
    rewrite (sub_reference "P" (get_call ScParameters) name Hne Hb).
    rewrite (replace_no_plus " " " " " + str(" _ Hcp).
    now rewrite (contains_no_plus " " " str(" _ Hcp).
Qed.

Lemma get_call_not_quoted (sc : Scope) (name : string) :
  is_quoted (get_call sc name) = false.
Proof.
  unfold is_quoted, PyStr.startswith, get_call, PyStr.dquote.
  change ("self." +++ scope_attr sc +++ ".get('" +++ name +++ "', '')")
    with (String "s" ("elf." +++ scope_attr sc +++ ".get('" +++ name
                      +++ "', '')")).
  rewrite prefix_cons_eq. reflexivity.
Qed.

Section PlainReferences.
Context `{Runtime}.

Lemma evaluate_plain_reference
      (ev : ExpressionEvaluator) (sc : Scope) (name : string) :
  plain_name name = true ->
  evaluate ev (reference sc name)
  = Ok (py_str (dict_get (scope_dict ev sc) name (VStr EmptyString))).
Proof.
  intros Hid. unfold evaluate.
  replace (PyStr.nonempty (reference sc name)) with true by reflexivity.
  cbn [negb]. rewrite (rewrite_plain_reference sc name Hid).
  unfold evaluate_try. rewrite get_call_not_quoted.
  unfold py_eval. rewrite parse_get_call.
  - reflexivity.
  - apply plain_name_chars; [apply name_char_cases | exact Hid].
  - apply plain_name_chars; [apply name_char_cases | exact Hid].
Qed.

(** X29: a reference to a name that is absent from its map evaluates
    to the empty string, for the three kinds of reference and every
    name without a brace, a quote, a backslash, a line break, a dollar
    or a plus sign; so does [$F{nonexistent}] on a row without that
    key. *)
Theorem X29_missing_plain_reference
        (ev : ExpressionEvaluator) (sc : Scope) (name : string) :
  plain_name name = true ->
  dict_lookup (scope_dict ev sc) name = None ->
  evaluate ev (reference sc name) = Ok EmptyString.
Proof.
  intros Hid Hmiss. rewrite (evaluate_plain_reference ev sc name Hid).
  unfold dict_get. now rewrite Hmiss.
Qed.

Lemma evaluate_rejected (ev : ExpressionEvaluator) (e source : string) :
  PyStr.nonempty e = true ->
  rewrite_expression e = source ->
  is_quoted source = false ->
  parse_get source = None ->
  host_eval ev source = None ->
  evaluate ev e = Ok source.
Proof.
  intros Hne Hrw Hq Hp Hh. unfold evaluate. rewrite Hne, Hrw. cbn [negb].
  unfold evaluate_try, py_eval. now rewrite Hq, Hp, Hh.
Qed.

(** C4: an expression that cannot be evaluated does not come back as
    its literal text: for [$F{name}.toUpperCase()], whose rewritten
    source the interpreter rejects (a Python string has no such
    method), [evaluate] returns the rewritten source. *)
Theorem C4_fallback_returns_rewritten_text (ev : ExpressionEvaluator) :
  host_eval ev "self.data.get('name', '').toUpperCase()" = None ->
  evaluate ev "$F{name}.toUpperCase()"
  = Ok "self.data.get('name', '').toUpperCase()"
  /\ evaluate ev "$F{name}.toUpperCase()" <> Ok "$F{name}.toUpperCase()".
Proof.
  intros Hh.
  assert (E : evaluate ev "$F{name}.toUpperCase()"
              = Ok "self.data.get('name', '').toUpperCase()")
    by (apply evaluate_rejected; [reflexivity .. | exact Hh]).
  split; [exact E|]. rewrite E. discriminate.
Qed.

(** C5: a missing name that holds a quote is not resolved to the empty
    string: for [$F{owner's name}] the lookup call written for the
    name is broken by the quote, the interpreter rejects it, and
    [evaluate] returns the rewritten source. *)
Theorem C5_quote_in_name_breaks_lookup (ev : ExpressionEvaluator) :
  dict_lookup (ev_data ev) "owner's name" = None ->
  host_eval ev "self.data.get('owner's name', '')" = None ->
  evaluate ev "$F{owner's name}" = Ok "self.data.get('owner's name', '')"
  /\ evaluate ev "$F{owner's name}" <> Ok EmptyString.
Proof.
  intros _ Hh.
  assert (E : evaluate ev "$F{owner's name}"
              = Ok "self.data.get('owner's name', '')")
    by (apply evaluate_rejected; [reflexivity .. | exact Hh]).
  split; [exact E|]. rewrite E. discriminate.
Qed.

(** X14: a reference to a name that is present evaluates to [str] of
    the stored value: the text itself for a string, the numeral for an
    integer of at most 640 digits, [None] for a null value; the name
    may hold any character but a brace, a quote, a backslash, a line
    break, a dollar or a plus sign. *)
Theorem X14_present_reference
        (ev : ExpressionEvaluator) (sc : Scope) (name : string) (v : PyValue) :
  plain_name name = true ->
  dict_lookup (scope_dict ev sc) name = Some v ->
  printable v ->
  evaluate ev (reference sc name)
  = Ok match v with
       | VStr s => s
       | VInt z => PyStr.of_Z z
       | VNone => "None"
       | VFloat q => float_repr q
       end.
Proof.
  intros Hid Hv _. rewrite (evaluate_plain_reference ev sc name Hid).
  unfold dict_get. rewrite Hv. now destruct v.
Qed.

End PlainReferences.

Lemma C4_witness :
  @evaluate Examples.offline_runtime
    (mkEvaluator [("name", VStr "Item 1")] [] []) "$F{name}.toUpperCase()"
  = Ok "self.data.get('name', '').toUpperCase()"
  /\ @evaluate Examples.offline_runtime
       (mkEvaluator [("name", VStr "Item 1")] [] []) "$F{name}.toUpperCase()"
     <> Ok "$F{name}.toUpperCase()".
Proof.
  exact (@C4_fallback_returns_rewritten_text Examples.offline_runtime
           (mkEvaluator [("name", VStr "Item 1")] [] []) eq_refl).
Defined.

Lemma C5_witness :
  @evaluate Examples.offline_runtime
    (mkEvaluator [("name", VStr "Item 1")] [] []) "$F{owner's name}"
  = Ok "self.data.get('owner's name', '')"
  /\ @evaluate Examples.offline_runtime
       (mkEvaluator [("name", VStr "Item 1")] [] []) "$F{owner's name}"
     <> Ok EmptyString.
Proof.
  exact (@C5_quote_in_name_breaks_lookup Examples.offline_runtime
           (mkEvaluator [("name", VStr "Item 1")] [] []) eq_refl eq_refl).
Defined.

Lemma X29_witness :
  @evaluate Examples.offline_runtime
    (mkEvaluator [("name", VStr "Item 1")] [] []) "$F{nonexistent}"
  = Ok EmptyString.
Proof.
  exact (@X29_missing_plain_reference Examples.offline_runtime
           (mkEvaluator [("name", VStr "Item 1")] [] [])
           ScData "nonexistent" eq_refl eq_refl).
Defined.

Lemma X14_witness :
  @evaluate Examples.offline_runtime
    (mkEvaluator [("first name", VStr "Ada"); ("qty", VInt 3)] [] [])
    "$F{first name}"
  = Ok "Ada".
Proof.
  exact (@X14_present_reference Examples.offline_runtime
           (mkEvaluator [("first name", VStr "Ada"); ("qty", VInt 3)] [] [])
           ScData "first name" (VStr "Ada") eq_refl eq_refl I).
Defined.

(** ** Minimum and maximum of integers *)

Lemma int_is_number (v : PyValue) : is_int v = true -> is_number v = true.
Proof. now destruct v. Qed.

Lemma ints_are_numbers (vs : list PyValue) :
  forallb is_int vs = true -> forallb is_number vs = true.
Proof.
  induction vs as [|v vs IH]; [reflexivity|]. cbn [forallb]. intros Hv.
  apply andb_true_iff in Hv as [Hv Hvs].
  now rewrite (int_is_number v Hv), (IH Hvs).
Qed.

Lemma int_order (v w : PyValue) :
  is_int v = true -> is_int w = true ->
  number_of v <= number_of w -> (int_of v <= int_of w)%Z.
Proof.
  destruct v, w; try discriminate. intros _ _.
  cbn [number_of int_of Aggregates.py_number]. intros Hle.
  now rewrite Zle_Qle.
Qed.

(** X4: on a column of integers (at least one), [calculate_min]
    returns a value of the column that is at most every value of the
    column, and [calculate_max] one that is at least every value. *)
Theorem X4_extremes_of_integers (data : list DataRow) (field : string) :
  Aggregates.column data field <> [] ->
  forallb is_int (Aggregates.column data field) = true ->
  (exists v, Aggregates.calculate_min data field = Ok v
             /\ In v (Aggregates.column data field)
             /\ forall w, In w (Aggregates.column data field) ->
                          (int_of v <= int_of w)%Z)
  /\ (exists v, Aggregates.calculate_max data field = Ok v
                /\ In v (Aggregates.column data field)
                /\ forall w, In w (Aggregates.column data field) ->
                             (int_of w <= int_of v)%Z).
Proof.
  intros Hne Hints.
  assert (Hint : forall v, In v (Aggregates.column data field) ->
                           is_int v = true)
    by (intros v Hv; exact (proj1 (forallb_forall _ _) Hints v Hv)).
  pose proof (ints_are_numbers _ Hints) as Hall.
  unfold Aggregates.calculate_min, Aggregates.calculate_max.
  destruct data as [|row rest]; [now elim Hne|].
  destruct (Aggregates.column (row :: rest) field) as [|v0 vs];
    [now elim Hne|].
  cbn [forallb] in Hall. apply andb_true_iff in Hall as [H0 Hall].
  split.
  - destruct (min_loop_numbers vs v0 H0 Hall) as (v & Hv & _ & Hle & Hrest).
    assert (Hin : In v (v0 :: vs))
      by (apply extreme_loop_member in Hv as [-> | Hin];
          [now left | now right]).
    exists v. split; [exact Hv|]. split; [exact Hin|].
    intros w Hw. apply int_order; [now apply Hint | now apply Hint |].
    destruct Hw as [<- | Hw]; [exact Hle | now apply Hrest].
  - destruct (max_loop_numbers vs v0 H0 Hall) as (v & Hv & _ & Hle & Hrest).
    assert (Hin : In v (v0 :: vs))
      by (apply extreme_loop_member in Hv as [-> | Hin];
          [now left | now right]).
    exists v. split; [exact Hv|]. split; [exact Hin|].
    intros w Hw. apply int_order; [now apply Hint | now apply Hint |].
    destruct Hw as [<- | Hw]; [exact Hle | now apply Hrest].
Qed.

Lemma X4_witness :
  (exists v, Aggregates.calculate_min Samples.stock_rows "qty" = Ok v
             /\ In v (Aggregates.column Samples.stock_rows "qty")
             /\ forall w, In w (Aggregates.column Samples.stock_rows "qty") ->
                          (int_of v <= int_of w)%Z)
  /\ (exists v, Aggregates.calculate_max Samples.stock_rows "qty" = Ok v
                /\ In v (Aggregates.column Samples.stock_rows "qty")
                /\ forall w, In w (Aggregates.column Samples.stock_rows "qty") ->
                             (int_of w <= int_of v)%Z).
Proof.
  apply (X4_extremes_of_integers Samples.stock_rows "qty").
  - discriminate.
  - reflexivity.
Defined.

(** ** Trimming twice *)

Lemma rstrip_idempotent (s : string) :
  PyStr.rstrip (PyStr.rstrip s) = PyStr.rstrip s.
Proof.
  induction s as [|c s IH]; [reflexivity|]. cbn [PyStr.rstrip].
  destruct (PyStr.rstrip s) as [|d r] eqn:E.
  - destruct (PyStr.isspace c) eqn:Ec; [reflexivity|].
    cbn [PyStr.rstrip]. now rewrite Ec.
  - cbn [PyStr.rstrip]. cbn [PyStr.rstrip] in IH.
    destruct (PyStr.rstrip r) as [|d' r'] eqn:Er.
    + destruct (PyStr.isspace d); [discriminate IH|]. now rewrite IH.
    + now rewrite IH.
Qed.

Lemma lstrip_head (s : string) :
  PyStr.lstrip s = EmptyString
  \/ exists c t, PyStr.lstrip s = String c t /\ PyStr.isspace c = false.
Proof.
  induction s as [|c s IH]; [now left|]. cbn [PyStr.lstrip].
  destruct (PyStr.isspace c) eqn:Ec; [exact IH|]. right. now exists c, s.
Qed.

Lemma rstrip_head (c : ascii) (t : string) :
  PyStr.isspace c = false -> exists r, PyStr.rstrip (String c t) = String c r.
Proof.
  intros Hc. cbn [PyStr.rstrip]. destruct (PyStr.rstrip t) as [|d r].
  - rewrite Hc. now exists EmptyString.
  - now exists (String d r).
Qed.

Lemma strip_idempotent (s : string) :
  PyStr.strip (PyStr.strip s) = PyStr.strip s.
Proof.
  unfold PyStr.strip.
  destruct (lstrip_head s) as [E | (c & t & E & Hc)]; rewrite E.
  - reflexivity.
  - destruct (rstrip_head c t Hc) as [r Er]. rewrite Er.
    cbn [PyStr.lstrip]. rewrite Hc. rewrite <- Er. apply rstrip_idempotent.
Qed.

Section QueryText.
Context `{Runtime}.
Import JRXMLParser.

Lemma parse_query_plain ns root query_elem text :
  find_desc_ns ns "queryString" root = Some query_elem ->
  elem_text query_elem = Some text ->
  PyStr.nonempty text = true ->
  is_cdata (PyStr.strip text) = false ->
  _parse_query ns root = Some (PyStr.strip text).
Proof.
  intros Hfind Htext Hne Hplain. unfold _parse_query. rewrite Hfind.
  unfold ET.truthy_text. rewrite Htext, Hne, Hplain.
  now rewrite strip_idempotent.
Qed.

(** C9: the query of a parsed template carries no CDATA wrapper.  The
    text of the queryString element arrives from the XML parser: for
    a query in a CDATA section it is the content of the section, and
    the stored query is that text, trimmed; when the text still shows
    the marker [<![CDATA[] ... []]>] (as text, after trimming), the
    stored query is what stands inside the marker, trimmed. *)
Theorem C9_cdata_query_unwrapped
        (content : string) (rd : ReportDefinition) (root : Element)
        (ns : string) (query_elem : Element) (text : string) :
  ET_fromstring content = Ok root ->
  detect_namespace root = Ok ns ->
  find_desc_ns ns "queryString" root = Some query_elem ->
  elem_text query_elem = Some text ->
  PyStr.nonempty text = true ->
  parse content = Ok rd ->
  (is_cdata (PyStr.strip text) = false ->
   rd_query rd = Some (PyStr.strip text))
  /\ (forall inner,
        PyStr.strip text = cdata_open +++ inner +++ cdata_close ->
        rd_query rd = Some (PyStr.strip inner)).
Proof.
  intros Hroot Hns Hfind Htext Hne Hparse.
  destruct (parse_stored content rd Hparse)
    as (root' & ns' & bands & Hroot' & Hns' & _ & _ & Hq & _).
  rewrite Hroot in Hroot'. injection Hroot' as <-.
  rewrite Hns in Hns'. injection Hns' as <-.
  rewrite Hq. split.
  - exact (parse_query_plain ns root query_elem text Hfind Htext Hne).
  - intros inner Hstrip.
    exact (parse_query_cdata ns root query_elem text inner Hfind Htext Hstrip).
Qed.

End QueryText.

Lemma C9_witness :
  exists rd,
    @JRXMLParser.parse Examples.offline_runtime Examples.sample_source = Ok rd
    /\ rd_query rd = Some "SELECT name FROM items".
Proof.
  eexists. split; [reflexivity|].
  exact (proj1 (@C9_cdata_query_unwrapped Examples.offline_runtime
                  Examples.sample_source _ Examples.sample_tree
                  JRXMLParser.default_namespace
                  (mkElement "queryString" []
                     (Some " SELECT name FROM items ") [])
                  " SELECT name FROM items "
                  eq_refl eq_refl eq_refl eq_refl eq_refl eq_refl)
               eq_refl).
Defined.

(** ** Two runs *)





Section TwoRuns.
Variable R : Runtime.
Variable eval' : ExpressionEvaluator -> string -> option PyValue.
Variable query' : DatabaseEngine -> string -> dict PyValue
                  -> result (list DataRow).
Variable test' : DatabaseEngine -> bool.


















End TwoRuns.




Section GenerationErrors.
Context `{Runtime}.
Import Core.

(** X18: what [generate_html] raises is a [DatabaseError] or a
    [RenderError].  A [DatabaseError] comes from running the query,
    and is raised only when no data is bound and the template has a
    query; every failure of the rendering itself reaches the caller as
    a [RenderError] whose message starts with
    [HTML generation failed: ]. *)
Theorem X18_html_generation_errors (self : JasperReport) (e : exn) :
  generate_html self = Raise e ->
  (exists msg, e = DatabaseError msg
               /\ data self = [] /\ has_query self = true)
  \/ (exists msg, e = RenderError ("HTML generation failed: " +++ msg)).
Proof.
  unfold generate_html. intros Hg.
  destruct (is_nil (data self) && has_query self) eqn:Hb.
  - apply andb_true_iff in Hb as [Hd Hq].
    assert (Hdata : data self = [])
      by (destruct (data self); [reflexivity | discriminate Hd]).
    unfold execute_query in Hg. unfold has_query in Hq.
    destruct (database_engine self) as [engine|];
      [|injection Hg as <-; left; eauto].
    destruct (truthy (rd_query (report_def self))) as [query|] eqn:Eq;
      [|discriminate Hq].
    destruct (engine_execute_query engine query (parameters self))
      as [rows|e'].
    + cbn [bind try_except] in Hg. cbv zeta in Hg.
      destruct (HTMLRenderer.render _) as [[bytes s]|x];
        cbn [bind try_except] in Hg; [discriminate Hg|].
      injection Hg as <-. right. exists (exn_str x). reflexivity.
    + injection Hg as <-. left. unfold has_query. rewrite Eq. eauto.
  - cbn [bind] in Hg. cbv zeta in Hg.
    destruct (HTMLRenderer.render _) as [[bytes s]|x];
      cbn [bind try_except] in Hg; [discriminate Hg|].
    injection Hg as <-. right. exists (exn_str x). reflexivity.
Qed.

End GenerationErrors.

Lemma X18_witness :
  @Core.generate_html Examples.offline_runtime Examples.unreachable_report
  = Raise (DatabaseError
             "Query execution failed: Failed to connect to database")
  /\ ((exists msg,
         DatabaseError "Query execution failed: Failed to connect to database"
         = DatabaseError msg
         /\ data Examples.unreachable_report = []
         /\ Core.has_query Examples.unreachable_report = true)
      \/ (exists msg,
            DatabaseError
              "Query execution failed: Failed to connect to database"
            = RenderError ("HTML generation failed: " +++ msg))).
Proof.
  split; [reflexivity|].
  exact (@X18_html_generation_errors Examples.offline_runtime
           Examples.unreachable_report _ eq_refl).
Defined.

(** X19: the rows a query returns are kept in the report, and a
    report that holds rows is generated without the data base: when
    [generate_html] has run the query and returned, the report holds
    the rows the query gave; and generating from a report with these
    rows is the same computation in a run whose data base answers
    differently, or not at all. *)
Theorem X19_query_result_is_kept
        (R : Runtime)
        (query' : DatabaseEngine -> string -> dict PyValue
                  -> result (list DataRow))
        (test' : DatabaseEngine -> bool)
        (self : JasperReport) (engine : DatabaseEngine) (query : string)
        (rows : list DataRow) :
  data self = [] ->
  database_engine self = Some engine ->
  truthy (rd_query (report_def self)) = Some query ->
  @engine_execute_query R engine query (parameters self) = Ok rows ->
  rows <> [] ->
  (forall bytes self',
      @Core.generate_html R self = Ok (bytes, self') ->
      self' = Core.set_data self rows)
  /\ @Core.generate_html (another_run R (@host_eval R) query' test')
       (Core.set_data self rows)
     = @Core.generate_html R (Core.set_data self rows).
Proof.
  intros Hd He Hq Hrows Hne. split.
  - intros bytes self'. unfold Core.generate_html, Core.has_query,
      Core.execute_query.
    rewrite Hd, He, Hq. cbn [Core.is_nil andb]. rewrite Hrows.
    cbn [bind try_except]. cbv zeta.
    destruct (HTMLRenderer.render _) as [[b s]|x];
      cbn [bind try_except]; [|discriminate].
    intros E. now injection E as _ <-.
  - unfold Core.generate_html.
    replace (Core.is_nil (data (Core.set_data self rows))) with false
      by (destruct rows; [now elim Hne | reflexivity]).
    reflexivity.
Qed.

Lemma X19_witness :
  (forall bytes self',
      @Core.generate_html Samples.online_runtime Samples.stock_report
      = Ok (bytes, self') ->
      self' = Core.set_data Samples.stock_report Samples.stock_rows)
  /\ @Core.generate_html
       (another_run Samples.online_runtime
          (@host_eval Samples.online_runtime)
          (fun _ _ _ => Raise (DatabaseError "gone")) (fun _ => false))
       (Core.set_data Samples.stock_report Samples.stock_rows)
     = @Core.generate_html Samples.online_runtime
         (Core.set_data Samples.stock_report Samples.stock_rows).
Proof.
  apply (X19_query_result_is_kept Samples.online_runtime
           (fun _ _ _ => Raise (DatabaseError "gone")) (fun _ => false)
           Samples.stock_report Samples.stock_engine
           "SELECT name, qty FROM stock" Samples.stock_rows
           eq_refl eq_refl eq_refl eq_refl).
  discriminate.
Defined.

(** ** The layout of the documents *)


Section DocumentLayout.
Context `{Runtime}.
Import HTMLRenderer.







End DocumentLayout.

Section PdfLayout.
Context `{Runtime}.
Import PDFRenderer.


End PdfLayout.




Section ScopedTotals.
Context `{Runtime}.
Import HTMLRenderer.

(** C2 (as amended): for the rows [{g:x,amt:10},{g:x,amt:5},
    {g:y,amt:7}] grouped on [g] and two sums of [amt], whatever reset
    scope each of them declares, and bands whose expressions are
    settled without [eval], one of them a summary band: both sums
    hold 15 and then 7 where the two group footers are rendered, and
    both hold 22 once the summary band is rendered. *)
Theorem C2_totals_ignore_reset_scope
        (type1 type2 : string) (group1 group2 : option string)
        (bands : dict Band) (parameters : dict PyValue)
        (summary_band : Band) :
  bands_decided bands = true ->
  dict_lookup bands "summary" = Some summary_band ->
  exists rs self1 p self2,
    grouped_renderings
      (Runs.scoped_renderer type1 type2 group1 group2 bands parameters)
    = Ok (Some rs, self1)
    /\ map (fun r => (dict_lookup (gr_footer_variables r) "group_total",
                      dict_lookup (gr_footer_variables r) "report_total")) rs
       = [(Some (VFloat 15), Some (VFloat 15));
          (Some (VFloat 7), Some (VFloat 7))]
    /\ _generate_parts
         (Runs.scoped_renderer type1 type2 group1 group2 bands parameters)
       = Ok (p, self2)
    /\ dict_lookup (r_variables self2) "group_total" = Some (VFloat 22)
    /\ dict_lookup (r_variables self2) "report_total" = Some (VFloat 22).
Proof.
  intros _ Hsum.
  set (self := Runs.scoped_renderer type1 type2 group1 group2 bands
                                    parameters).
  destruct (render_groups_footers "g"
              (DataProcessor.group_by (r_data self) "g") self)
    as (rs & self1 & Hrs & Hfoot).
  destruct (generate_parts_totals self summary_band Hsum)
    as (p & self2 & vars & Hp & Hvars).
  exists rs, self1, p, self2. split; [|split; [|split]].
  - unfold grouped_renderings.
    change (rd_groups (r_report_def self))
      with [mkGroup "g" "$F{g}" 0 0 []].
    cbv iota. cbv beta.
    change (Re.search "F" (group_expression (mkGroup "g" "$F{g}" 0 0 [])))
      with (Some "g").
    cbv iota. cbv beta. rewrite Hrs. reflexivity.
  - rewrite <- (map_map gr_footer_variables
                        (fun v => (dict_lookup v "group_total",
                                   dict_lookup v "report_total"))).
    rewrite Hfoot. reflexivity.
  - exact Hp.
  - rewrite Hvars. unfold sum_totals.
    change (rd_variables (r_report_def self))
      with [Runs.scoped_sum "group_total" type1 group1;
            Runs.scoped_sum "report_total" type2 group2].
    cbn [fold_left]. unfold sum_total.
    change (var_calculation (Runs.scoped_sum "report_total" type2 group2)
            =? "Sum")%string with true.
    change (var_calculation (Runs.scoped_sum "group_total" type1 group1)
            =? "Sum")%string with true.
    change (Re.search "F" _) with (Some "amt").
    cbv iota.
    split.
    + rewrite dict_lookup_set_other by reflexivity.
      rewrite dict_lookup_set. reflexivity.
    + rewrite dict_lookup_set. reflexivity.
Qed.

End ScopedTotals.

Lemma C2_witness :
  exists rs self1 p self2,
    @HTMLRenderer.grouped_renderings Examples.offline_runtime
      (Runs.scoped_renderer "Group" "Report" (Some "g") None
         [("groupFooter", Runs.totals_footer);
          ("summary", mkBand "summary" 30 [])] [])
    = Ok (Some rs, self1)
    /\ map (fun r =>
              (dict_lookup (HTMLRenderer.gr_footer_variables r) "group_total",
               dict_lookup (HTMLRenderer.gr_footer_variables r)
                           "report_total")) rs
       = [(Some (VFloat 15), Some (VFloat 15));
          (Some (VFloat 7), Some (VFloat 7))]
    /\ @HTMLRenderer._generate_parts Examples.offline_runtime
         (Runs.scoped_renderer "Group" "Report" (Some "g") None
            [("groupFooter", Runs.totals_footer);
             ("summary", mkBand "summary" 30 [])] [])
       = Ok (p, self2)
    /\ dict_lookup (r_variables self2) "group_total" = Some (VFloat 22)
    /\ dict_lookup (r_variables self2) "report_total" = Some (VFloat 22).
Proof.
  exact (@C2_totals_ignore_reset_scope Examples.offline_runtime
           "Group" "Report" (Some "g") None
           [("groupFooter", Runs.totals_footer);
            ("summary", mkBand "summary" 30 [])] []
           (mkBand "summary" 30 []) eq_refl eq_refl).
Defined.

(** C2 fails as stated: the sum reset at the report does not
    accumulate over the rows; at the two group footers it holds 15
    and then 7, like the sum reset at the group, and the document
    shows 15.0 and 7.0; without a summary band it ends at 7, and 22
    is neither held nor shown. *)
Lemma C2_counterexample :
  exists rs self1 html self2,
    @HTMLRenderer.grouped_renderings Runs.totals_runtime
      (Examples.amt_renderer [("groupFooter", Runs.totals_footer)] [])
    = Ok (Some rs, self1)
    /\ map (fun r => dict_lookup (HTMLRenderer.gr_footer_variables r)
                                 "report_total") rs
       = [Some (VFloat 15); Some (VFloat 7)]
    /\ @HTMLRenderer._generate_html Runs.totals_runtime
         (Examples.amt_renderer [("groupFooter", Runs.totals_footer)] [])
       = Ok (html, self2)
    /\ dict_lookup (r_variables self2) "report_total" = Some (VFloat 7)
    /\ PyStr.contains ">15.0</div>" html = true
    /\ PyStr.contains ">7.0</div>" html = true
    /\ PyStr.contains ">22.0</div>" html = false.
Proof.
  do 4 eexists. split; [vm_compute; reflexivity|].
  repeat split; vm_compute; reflexivity.
Qed.
